(** * seller-apis: stock and price synchronisation for Ozon and Yandex Market

    A shallow embedding of [seller.py] and [market.py] and the properties
    of the reconciliation, normalisation, batching, pagination and
    orchestration code.

    Conventions of the embedding.
    - A Python [str] is a Rocq [string] holding its UTF-8 bytes.  The
      characters [split], [re.sub] and [==] inspect (['.'], ['0'..'9'],
      ['>']) are ASCII, and no byte of a multi-byte UTF-8 sequence is ASCII,
      so splitting at ['.'] and deleting non-digits act on the bytes exactly
      as they act on the code points.  [int] looks at code points: it
      accepts the blanks and decimal digits of every script, so its model
      decodes the bytes first.
    - A Python [int] is a [Z].
    - A value read from a feed row ([dict.get]) is a [pyval]: an [int], a
      [str], or [None] when the key is missing.  (Floats are not modelled.)
    - An exception is a [Raise] result; a computation that touches a list
      object runs in the state-and-exception monad [M] over the contents it
      may mutate. *)

From Stdlib Require Import ZArith Ascii DecimalString DecimalPos.
From stdpp Require Import gmap strings list.

Open Scope Z_scope.

(** ** Python values, exceptions and builtins *)

Inductive exn : Type :=
  | ValueError
  | TypeError
  | AttributeError
  | IndexError
  | NameError
  | RequestError (message : string).

(** The outcome of evaluating an expression or running a statement.
    [Blocked] is not a Python outcome: it marks a run that asks a scripted
    collaborator for a reply the script does not contain. *)
Inductive result (A : Type) : Type :=
  | Ok (a : A)
  | Raise (e : exn)
  | Blocked.
Arguments Ok {A} a.
Arguments Raise {A} e.
Arguments Blocked {A}.

Definition result_bind {A B} (r : result A) (k : A -> result B) : result B :=
  match r with
  | Ok a => k a
  | Raise e => Raise e
  | Blocked => Blocked
  end.

Inductive pyval : Type :=
  | VNone
  | VInt (z : Z)
  | VStr (s : string).

(** [str(v)] *)
Definition py_str (v : pyval) : string :=
  match v with
  | VNone => "None"
  | VInt z => NilZero.string_of_int (Z.to_int z)
  | VStr s => s
  end.

Definition is_digit (c : ascii) : bool :=
  let n := nat_of_ascii c in (48 <=? n)%nat && (n <=? 57)%nat.

Definition digit_value (c : ascii) : Z := Z.of_nat (nat_of_ascii c) - 48.

(** The blanks of C's [isspace] in the C locale, the ones [int] skips
    around the literal it parses: tab, line feed, vertical tab, form feed,
    carriage return and the space.  The separators 0x1c..0x1f, which
    [str.isspace] counts as blanks, are not among them. *)
Definition is_space (c : ascii) : bool :=
  let n := nat_of_ascii c in
  ((9 <=? n)%nat && (n <=? 13)%nat) || (n =? 32)%nat.

Fixpoint lstrip (s : string) : string :=
  match s with
  | String c s' => if is_space c then lstrip s' else s
  | EmptyString => EmptyString
  end.

Fixpoint rstrip (s : string) : string :=
  match s with
  | String c s' =>
      match rstrip s' with
      | EmptyString => if is_space c then EmptyString else String c EmptyString
      | t => String c t
      end
  | EmptyString => EmptyString
  end.

(** The digit part of a decimal literal: digits, with single underscores
    allowed between two digits.  [after_digit] tells whether the previous
    character was a digit. *)
Fixpoint parse_digits (acc : Z) (after_digit : bool) (s : string) : option Z :=
  match s with
  | EmptyString => if after_digit then Some acc else None
  | String c s' =>
      if is_digit c then parse_digits (10 * acc + digit_value c) true s'
      else if Ascii.eqb c "_" && after_digit then parse_digits acc false s'
      else None
  end.

(** [PyLong_FromString] in base 10, on the ASCII text [int] hands it:
    blanks skipped at both ends, an optional sign, then the digit part,
    which must reach the end of the text. *)
Definition long_from_string (s : string) : result Z :=
  let digits_of t :=
    match parse_digits 0 false t with
    | Some z => Ok z
    | None => Raise ValueError
    end in
  match rstrip (lstrip s) with
  | String "+" t => digits_of t
  | String "-" t => result_bind (digits_of t) (fun z => Ok (- z))
  | t => digits_of t
  end.

Definition byte_value (c : ascii) : Z := Z.of_nat (nat_of_ascii c).

(** [str.isascii] *)
Fixpoint is_ascii (s : string) : bool :=
  match s with
  | EmptyString => true
  | String c s' => (byte_value c <? 128) && is_ascii s'
  end.

Definition is_continuation (b : Z) : bool := (128 <=? b) && (b <=? 191).

(** The code points of a [str], read off its UTF-8 bytes; [None] for bytes
    that are the UTF-8 form of no text (a stray or missing continuation
    byte, an overlong form, a surrogate, a value above 0x10FFFF). *)
Fixpoint code_points (s : string) : option (list Z) :=
  match s with
  | EmptyString => Some []
  | String c0 s1 =>
      let b0 := byte_value c0 in
      if b0 <? 128 then option_map (cons b0) (code_points s1)
      else if (194 <=? b0) && (b0 <=? 223) then
        match s1 with
        | String c1 s2 =>
            let b1 := byte_value c1 in
            if is_continuation b1
            then option_map (cons ((b0 - 192) * 64 + (b1 - 128)))
                            (code_points s2)
            else None
        | _ => None
        end
      else if (224 <=? b0) && (b0 <=? 239) then
        match s1 with
        | String c1 (String c2 s3) =>
            let b1 := byte_value c1 in
            let b2 := byte_value c2 in
            let ch := (b0 - 224) * 4096 + (b1 - 128) * 64 + (b2 - 128) in
            if is_continuation b1 && is_continuation b2 && (2048 <=? ch)
               && negb ((55296 <=? ch) && (ch <=? 57343))
            then option_map (cons ch) (code_points s3)
            else None
        | _ => None
        end
      else if (240 <=? b0) && (b0 <=? 244) then
        match s1 with
        | String c1 (String c2 (String c3 s4)) =>
            let b1 := byte_value c1 in
            let b2 := byte_value c2 in
            let b3 := byte_value c3 in
            let ch := (b0 - 240) * 262144 + (b1 - 128) * 4096
                      + (b2 - 128) * 64 + (b3 - 128) in
            if is_continuation b1 && is_continuation b2 && is_continuation b3
               && (65536 <=? ch) && (ch <=? 1114111)
            then option_map (cons ch) (code_points s4)
            else None
        | _ => None
        end
      else None
  end.

(** The blanks of [Py_UNICODE_ISSPACE] beyond ASCII: NEXT LINE, NO-BREAK
    SPACE, OGHAM SPACE MARK, EN QUAD to HAIR SPACE, LINE and PARAGRAPH
    SEPARATOR, NARROW NO-BREAK SPACE, MEDIUM MATHEMATICAL SPACE and
    IDEOGRAPHIC SPACE. *)
Definition unicode_blanks : list Z :=
  [0x85; 0xa0; 0x1680; 0x2000; 0x2001; 0x2002; 0x2003; 0x2004; 0x2005;
   0x2006; 0x2007; 0x2008; 0x2009; 0x200a; 0x2028; 0x2029; 0x202f; 0x205f;
   0x3000].

Definition unicode_space (ch : Z) : bool := existsb (Z.eqb ch) unicode_blanks.

(** The decimal digits (category Nd) beyond ASCII come in runs of ten, zero
    to nine.  These are the zeros of the 65 runs of Unicode 14.0, the
    character database of CPython 3.11, from ARABIC-INDIC DIGIT ZERO
    (U+0660) to SEGMENTED DIGIT ZERO (U+1FBF0); among them DEVANAGARI
    (U+0966), FULLWIDTH (U+FF10) and the five mathematical alphabets
    (U+1D7CE to U+1D7F6). *)
Definition unicode_zeros : list Z :=
  [0x660; 0x6f0; 0x7c0; 0x966; 0x9e6; 0xa66; 0xae6; 0xb66; 0xbe6; 0xc66;
   0xce6; 0xd66; 0xde6; 0xe50; 0xed0; 0xf20; 0x1040; 0x1090; 0x17e0; 0x1810;
   0x1946; 0x19d0; 0x1a80; 0x1a90; 0x1b50; 0x1bb0; 0x1c40; 0x1c50; 0xa620;
   0xa8d0; 0xa900; 0xa9d0; 0xa9f0; 0xaa50; 0xabf0; 0xff10; 0x104a0; 0x10d30;
   0x11066; 0x110f0; 0x11136; 0x111d0; 0x112f0; 0x11450; 0x114d0; 0x11650;
   0x116c0; 0x11730; 0x118e0; 0x11950; 0x11c50; 0x11d50; 0x11da0; 0x16a60;
   0x16ac0; 0x16b50; 0x1d7ce; 0x1d7d8; 0x1d7e2; 0x1d7ec; 0x1d7f6; 0x1e140;
   0x1e2f0; 0x1e950; 0x1fbf0].

(** [Py_UNICODE_TODECIMAL] beyond ASCII *)
Definition unicode_decimal (ch : Z) : option Z :=
  option_map (fun zero => ch - zero)
    (List.find (fun zero => (zero <=? ch) && (ch <=? zero + 9)) unicode_zeros).

Definition ascii_of_code (ch : Z) : ascii := ascii_of_nat (Z.to_nat ch).

(** [_PyUnicode_TransformDecimalAndSpaceToASCII] on a text that is not
    ASCII: characters below 127 stay, a blank becomes a space, a decimal
    digit its ASCII digit, and the text is cut at the first other
    character, which becomes a question mark. *)
Fixpoint decimal_and_space_to_ascii (chars : list Z) : string :=
  match chars with
  | [] => EmptyString
  | ch :: rest =>
      if ch <? 127 then String (ascii_of_code ch) (decimal_and_space_to_ascii rest)
      else if unicode_space ch then String " " (decimal_and_space_to_ascii rest)
      else match unicode_decimal ch with
           | Some d =>
               String (ascii_of_code (48 + d)) (decimal_and_space_to_ascii rest)
           | None => "?"
           end
  end.

(** [int(s)] for a [str] in base 10.  An ASCII text is parsed as it
    stands; any other text is first brought to ASCII, so that blanks and
    decimal digits of every script are accepted.  Bytes that are no UTF-8
    text stand for no [str]; the model rejects them.  (From 3.11 on Python
    also rejects literals of more than 4300 digits by default; that limit,
    a setting of the interpreter, is not modelled.) *)
Definition int_of_str (s : string) : result Z :=
  if is_ascii s then long_from_string s
  else match code_points s with
       | Some chars => long_from_string (decimal_and_space_to_ascii chars)
       | None => Raise ValueError
       end.

(** [int(v)] *)
Definition py_int (v : pyval) : result Z :=
  match v with
  | VNone => Raise TypeError
  | VInt z => Ok z
  | VStr s => int_of_str s
  end.

(** [x in l] on a list of strings *)
Fixpoint list_contains (x : string) (l : list string) : bool :=
  match l with
  | [] => false
  | y :: l' => if String.eqb y x then true else list_contains x l'
  end.

(** [l.remove(x)]: drops the first item equal to [x]; [None] stands for the
    [ValueError] Python raises when there is none. *)
Fixpoint list_remove (x : string) (l : list string) : option (list string) :=
  match l with
  | [] => None
  | y :: l' =>
      if String.eqb y x then Some l'
      else match list_remove x l' with
           | Some r => Some (y :: r)
           | None => None
           end
  end.

(** [len(range(start, stop, step))] for a non-zero step *)
Definition range_length (start stop step : Z) : nat :=
  if 0 <? step then
    if start <? stop then Z.to_nat ((stop - start - 1) / step + 1) else 0%nat
  else
    if stop <? start then Z.to_nat ((start - stop - 1) / (- step) + 1) else 0%nat.

(** [list(range(start, stop, step))]; a zero step raises [ValueError]. *)
Definition py_range (start stop step : Z) : result (list Z) :=
  if step =? 0 then Raise ValueError
  else Ok (map (fun k => start + Z.of_nat k * step)
               (seq 0 (range_length start stop step))).

(** A slice bound, clamped the way Python clamps it for a step of 1. *)
Definition slice_bound (len i : Z) : Z :=
  if i <? 0 then Z.max 0 (i + len) else Z.min i len.

(** [l[i:j]] *)
Definition py_slice {A} (l : list A) (i j : Z) : list A :=
  let len := Z.of_nat (length l) in
  let a := slice_bound len i in
  let b := slice_bound len j in
  take (Z.to_nat (b - a)) (drop (Z.to_nat a) l).

(** [s.split(sep)] for a separator of one character: the pieces between
    the occurrences of [sep], never an empty list. *)
Fixpoint py_split (sep : ascii) (s : string) : list string :=
  match s with
  | EmptyString => [EmptyString]
  | String c s' =>
      if Ascii.eqb c sep then EmptyString :: py_split sep s'
      else match py_split sep s' with
           | piece :: pieces => String c piece :: pieces
           | [] => [String c EmptyString]
           end
  end.

(** [l[0]] *)
Definition py_first {A} (l : list A) : result A :=
  match l with
  | x :: _ => Ok x
  | [] => Raise IndexError
  end.

(** A character class [[^lo-hi]]: the characters outside the range. *)
Definition outside_range (lo hi : ascii) (c : ascii) : bool :=
  negb ((nat_of_ascii lo <=? nat_of_ascii c)%nat
        && (nat_of_ascii c <=? nat_of_ascii hi)%nat).

(** [re.sub(cls, repl, s)] for a pattern that is one character class:
    every character of the class is replaced by [repl]. *)
Fixpoint re_sub (cls : ascii -> bool) (repl : string) (s : string) : string :=
  match s with
  | EmptyString => EmptyString
  | String c s' =>
      if cls c then repl +:+ re_sub cls repl s'
      else String c (re_sub cls repl s')
  end.

(** ** The state-and-exception monad *)

(** A computation over a mutable state [S]: the state survives a raise, as
    the contents of a Python object do. *)
Definition M (S A : Type) : Type := S -> result A * S.

Definition ret {S A} (a : A) : M S A := fun s => (Ok a, s).

Definition bind {S A B} (m : M S A) (k : A -> M S B) : M S B :=
  fun s =>
    match m s with
    | (Ok a, s') => k a s'
    | (Raise e, s') => (Raise e, s')
    | (Blocked, s') => (Blocked, s')
    end.

Definition lift {S A} (r : result A) : M S A := fun s => (r, s).
Definition get {S} : M S S := fun s => (Ok s, s).

Notation "'let*' x ':=' m 'in' k" := (bind m (fun x => k))
  (at level 10, x pattern, m at level 100, k at level 200).
Notation "m ';;' k" := (bind m (fun _ => k))
  (at level 100, k at level 200, right associativity).

(** [list(filter(keep, l))] for a predicate that may raise. *)
Fixpoint py_filter {A} (keep : A -> result bool) (l : list A)
    : result (list A) :=
  match l with
  | [] => Ok []
  | x :: l' =>
      result_bind (keep x) (fun b =>
        result_bind (py_filter keep l') (fun kept =>
          Ok (if b then x :: kept else kept)))
  end.

(** [for x in l: body x] *)
Fixpoint for_each {S A} (l : list A) (body : A -> M S unit) : M S unit :=
  match l with
  | [] => ret tt
  | x :: l' => body x ;; for_each l' body
  end.

(** A [for] loop that updates a local variable [acc]. *)
Fixpoint for_fold {S A B} (l : list A) (body : A -> B -> M S B) (acc : B)
    : M S B :=
  match l with
  | [] => ret acc
  | x :: l' => let* acc' := body x acc in for_fold l' body acc'
  end.

(** [try: body] with the [except] clauses of [main]: each prints a message
    and the run goes on after the [try] statement. *)
Definition try_except {S} (body : M S unit) : M S unit :=
  fun s =>
    match body s with
    | (Raise _, s') => (Ok tt, s')
    | other => other
    end.

(** [x in offer_ids] and [offer_ids.remove(x)] on the list object that is
    the state. *)
Definition contains (x : string) : M (list string) bool :=
  fun l => (Ok (list_contains x l), l).

Definition remove (x : string) : M (list string) unit :=
  fun l =>
    match list_remove x l with
    | Some l' => (Ok tt, l')
    | None => (Raise ValueError, l)
    end.

(** ** The feed *)

(** One record of [download_stock()]: the values under the keys
    ["Код"], ["Количество"] and ["Цена"]. *)
Record feed_row : Type := {
  code : pyval;
  quantityLabel : pyval;
  priceLabel : pyval
}.

(** ** List objects and the collaborators *)

Definition ref : Type := nat.

(** The replies a paginated list-products endpoint will give, in order, and
    the requests it has been sent. *)
Record catalog (req page : Type) : Type := {
  replies : list (result page);
  requests : list req
}.
Arguments replies {req page} c.
Arguments requests {req page} c.

(** One HTTP request to the list-products endpoint ([raise_for_status]
    turns a failed request into a raise). *)
Definition get_page {req page} (q : req) : M (catalog req page) page :=
  fun c =>
    match replies c with
    | [] => (Blocked, c)
    | r :: rs => (r, {| replies := rs; requests := requests c ++ [q] |})
    end.

(** What a run can touch: the list objects it has created, the catalog
    endpoint, and the update calls made so far. *)
Record world (req page call : Type) : Type := {
  heap : gmap ref (list string);
  pages : catalog req page;
  calls : list call
}.
Arguments heap {req page call} w.
Arguments pages {req page call} w.
Arguments calls {req page call} w.

(** A list expression creates a new object. *)
Definition new_list {req page call} (l : list string)
    : M (world req page call) ref :=
  fun w =>
    let r := fresh (dom (heap w)) in
    (Ok r, {| heap := <[r := l]> (heap w); pages := pages w;
              calls := calls w |}).

(** Runs a computation on the contents of the list object [r]: what it
    leaves there is what every holder of [r] sees afterwards.  (A name
    bound to no object does not occur in the code modelled.) *)
Definition with_list {req page call A} (r : ref) (m : M (list string) A)
    : M (world req page call) A :=
  fun w =>
    match heap w !! r with
    | Some l =>
        let '(a, l') := m l in
        (a, {| heap := <[r := l']> (heap w); pages := pages w;
               calls := calls w |})
    | None => (Raise NameError, w)
    end.

Definition with_catalog {req page call A} (m : M (catalog req page) A)
    : M (world req page call) A :=
  fun w =>
    let '(a, c) := m (pages w) in
    (a, {| heap := heap w; pages := c; calls := calls w |}).

(** One HTTP request to an update endpoint. *)
Definition record_call {req page call A} (c : call) (reply : result A)
    : M (world req page call) A :=
  fun w =>
    (reply, {| heap := heap w; pages := pages w; calls := calls w ++ [c] |}).

(** ** seller.py *)

Module Seller.

(** The result of [get_product_list]: the ["result"] object of the reply. *)
Record product : Type := { product_offer_id : string }.
Record page : Type := {
  items : list product;
  total : Z;
  last_id : string
}.

(** [{"offer_id": ..., "stock": ...}] *)
Record stock_item : Type := { offer_id : string; stock : Z }.

(** [{"auto_action_enabled": ..., "currency_code": ..., "offer_id": ...,
    "old_price": ..., "price": ...}] *)
Record price_item : Type := {
  auto_action_enabled : string;
  currency_code : string;
  price_offer_id : string;
  old_price : string;
  price : string
}.

(** A call of an update endpoint with its payload. *)
Inductive call : Type :=
  | StocksCall (stocks : list stock_item)
  | PricesCall (prices : list price_item).

(** The collaborators whose replies do not depend on the run: the feed
    download and the two update endpoints. *)
Record collaborators : Type := {
  feed_reply : result (list feed_row);
  stocks_reply : list stock_item -> result unit;
  prices_reply : list price_item -> result unit
}.

Abbreviation catalog := (catalog string page).
Abbreviation world := (world string page call).

Definition get_product_list (last_id : string) : M catalog page :=
  get_page last_id.

(** The [while True] loop of [get_offer_ids].  Every iteration takes one
    reply, so [fuel] above the number of scripted replies is never used up;
    a loop that outlives the script is [Blocked]. *)
Fixpoint get_offer_ids_loop (fuel : nat) (last_id : string)
    (product_list : list product) : M catalog (list product) :=
  match fuel with
  | O => lift Blocked
  | S fuel' =>
      let* some_prod := get_product_list last_id in
      let product_list := product_list ++ items some_prod in
      let total := total some_prod in
      let last_id := Seller.last_id some_prod in
      if total =? Z.of_nat (length product_list) then ret product_list
      else get_offer_ids_loop fuel' last_id product_list
  end.

Definition get_offer_ids : M catalog (list string) :=
  let* c := get in
  let* product_list := get_offer_ids_loop (S (length (replies c))) "" [] in
  for_fold product_list
    (fun product offer_ids => ret (offer_ids ++ [product_offer_id product])) [].

Definition update_price (c : collaborators) (prices : list price_item)
    : M world unit :=
  record_call (PricesCall prices) (prices_reply c prices).

Definition update_stocks (c : collaborators) (stocks : list stock_item)
    : M world unit :=
  record_call (StocksCall stocks) (stocks_reply c stocks).

Definition download_stock (c : collaborators) : M world (list feed_row) :=
  lift (feed_reply c).

(** [create_stocks(watch_remnants, offer_ids)]; the state is the contents
    of the list object passed as [offer_ids]. *)
Definition create_stocks (watch_remnants : list feed_row)
    : M (list string) (list stock_item) :=
  let* stocks :=
    for_fold watch_remnants (fun watch stocks =>
      let* found := contains (py_str (code watch)) in
      if found then
        let count := py_str (quantityLabel watch) in
        let* stock :=
          if String.eqb count ">10" then ret 100
          else if String.eqb count "1" then ret 0
          else lift (py_int (quantityLabel watch)) in
        let stocks :=
          stocks ++ [{| offer_id := py_str (code watch); stock := stock |}] in
        remove (py_str (code watch)) ;;
        ret stocks
      else ret stocks) [] in
  let* offer_ids := get in
  for_fold offer_ids (fun offer_id stocks =>
    ret (stocks ++ [{| offer_id := offer_id; stock := 0 |}])) stocks.

(** [price_conversion(price)]: [re.sub("[^0-9]", "", price.split(".")[0])];
    a value that is not a [str] has no [split]. *)
Definition price_conversion (price : pyval) : result string :=
  match price with
  | VStr s =>
      result_bind (py_first (py_split "." s))
        (fun left => Ok (re_sub (outside_range "0" "9") "" left))
  | _ => Raise AttributeError
  end.

(** [create_prices(watch_remnants, offer_ids)] *)
Definition create_prices (watch_remnants : list feed_row)
    : M (list string) (list price_item) :=
  for_fold watch_remnants (fun watch prices =>
    let* found := contains (py_str (code watch)) in
    if found then
      let* converted := lift (price_conversion (priceLabel watch)) in
      let price := {| auto_action_enabled := "UNKNOWN";
                      currency_code := "RUB";
                      price_offer_id := py_str (code watch);
                      old_price := "0";
                      price := converted |} in
      ret (prices ++ [price])
    else ret prices) [].

(** [list(divide(lst, n))]: the generator is always consumed whole by its
    callers, and the [ValueError] of a zero step is raised when it is. *)
Definition divide {A} (lst : list A) (n : Z) : result (list (list A)) :=
  result_bind (py_range 0 (Z.of_nat (length lst)) n)
    (fun starts => Ok (map (fun i => py_slice lst i (i + n)) starts)).

(** The body of the coroutine [upload_prices]. *)
Definition upload_prices (c : collaborators) (watch_remnants : list feed_row)
    : M world (list price_item) :=
  let* offer_ids := (let* ids := with_catalog get_offer_ids in new_list ids) in
  let* prices := with_list offer_ids (create_prices watch_remnants) in
  let* chunks := lift (divide prices 1000) in
  for_each chunks (fun some_price => update_price c some_price) ;;
  ret prices.

(** The body of the coroutine [upload_stocks]. *)
Definition upload_stocks (c : collaborators) (watch_remnants : list feed_row)
    : M world (list stock_item * list stock_item) :=
  let* offer_ids := (let* ids := with_catalog get_offer_ids in new_list ids) in
  let* stocks := with_list offer_ids (create_stocks watch_remnants) in
  let* chunks := lift (divide stocks 100) in
  for_each chunks (fun some_stock => update_stocks c some_stock) ;;
  let* not_empty :=
    lift (py_filter (fun stock => Ok (negb (Seller.stock stock =? 0))) stocks) in
  ret (not_empty, stocks).

(** [main()]: one list object, bound to [offer_ids], is passed to both
    [create_stocks] and [create_prices]. *)
Definition main (c : collaborators) : M world unit :=
  try_except (
    let* offer_ids := (let* ids := with_catalog get_offer_ids in new_list ids) in
    let* watch_remnants := download_stock c in
    let* stocks := with_list offer_ids (create_stocks watch_remnants) in
    let* chunks := lift (divide stocks 100) in
    for_each chunks (fun some_stock => update_stocks c some_stock) ;;
    let* prices := with_list offer_ids (create_prices watch_remnants) in
    let* chunks := lift (divide prices 900) in
    for_each chunks (fun some_price => update_price c some_price)).

End Seller.

(** ** market.py *)

Module Market.

(** The result of [get_product_list]: the ["result"] object of the reply. *)
Record offer : Type := { shopSku : string }.
Record entry : Type := { entry_offer : offer }.
Record paging : Type := { nextPageToken : option string }.
Record page : Type := {
  offerMappingEntries : list entry;
  page_paging : paging
}.

(** [{"count": ..., "type": ..., "updatedAt": ...}] *)
Record stock_count : Type := {
  count : Z;
  type : string;
  updatedAt : string
}.

(** [{"sku": ..., "warehouseId": ..., "items": [...]}] *)
Record stock_item : Type := {
  sku : string;
  warehouseId : string;
  items : list stock_count
}.

(** [{"value": ..., "currencyId": ...}] *)
Record price_value : Type := { value : Z; currencyId : string }.

(** [{"id": ..., "price": {...}}] *)
Record price_item : Type := { id : string; price : price_value }.

(** A call of an update endpoint: the campaign and the payload. *)
Inductive call : Type :=
  | StocksCall (campaign_id : string) (stocks : list stock_item)
  | PricesCall (campaign_id : string) (prices : list price_item).

(** The collaborators whose replies do not depend on the run: the feed
    download and the two update endpoints. *)
Record collaborators : Type := {
  feed_reply : result (list feed_row);
  stocks_reply : string -> list stock_item -> result unit;
  prices_reply : string -> list price_item -> result unit
}.

Abbreviation catalog := (catalog (string * string) page).
Abbreviation world := (world (string * string) page call).

Definition get_product_list (page : string) (campaign_id : string)
    : M catalog Market.page :=
  get_page (campaign_id, page).

Definition update_stocks (c : collaborators) (stocks : list stock_item)
    (campaign_id : string) : M world unit :=
  record_call (StocksCall campaign_id stocks) (stocks_reply c campaign_id stocks).

Definition update_price (c : collaborators) (prices : list price_item)
    (campaign_id : string) : M world unit :=
  record_call (PricesCall campaign_id prices) (prices_reply c campaign_id prices).

(** [not page]: a missing token and the empty string are both false. *)
Definition falsy (token : option string) : bool :=
  match token with
  | None => true
  | Some t => String.eqb t ""
  end.

(** The [while True] loop of [get_offer_ids]; [fuel] as in
    [Seller.get_offer_ids_loop].  A missing token is [None]; no request
    follows it. *)
Fixpoint get_offer_ids_loop (fuel : nat) (campaign_id : string)
    (page : string) (product_list : list entry) : M catalog (list entry) :=
  match fuel with
  | O => lift Blocked
  | S fuel' =>
      let* some_prod := get_product_list page campaign_id in
      let product_list := product_list ++ offerMappingEntries some_prod in
      let page := nextPageToken (page_paging some_prod) in
      if falsy page then ret product_list
      else get_offer_ids_loop fuel' campaign_id (default "" page) product_list
  end.

Definition get_offer_ids (campaign_id : string) : M catalog (list string) :=
  let* c := get in
  let* product_list :=
    get_offer_ids_loop (S (length (replies c))) campaign_id "" [] in
  for_fold product_list
    (fun product offer_ids => ret (offer_ids ++ [shopSku (entry_offer product)]))
    [].

(** [create_stocks(watch_remnants, offer_ids, warehouse_id)]; the state is
    the contents of the list object passed as [offer_ids], and [date] is
    the clock reading formatted at the start of the call. *)
Definition create_stocks (date : string) (watch_remnants : list feed_row)
    (warehouse_id : string) : M (list string) (list stock_item) :=
  let* stocks :=
    for_fold watch_remnants (fun watch stocks =>
      let* found := contains (py_str (code watch)) in
      if found then
        let count := py_str (quantityLabel watch) in
        let* stock :=
          if String.eqb count ">10" then ret 100
          else if String.eqb count "1" then ret 0
          else lift (py_int (quantityLabel watch)) in
        let stocks :=
          stocks ++ [{| sku := py_str (code watch);
                        warehouseId := warehouse_id;
                        items := [{| count := stock; type := "FIT";
                                     updatedAt := date |}] |}] in
        remove (py_str (code watch)) ;;
        ret stocks
      else ret stocks) [] in
  let* offer_ids := get in
  for_fold offer_ids (fun offer_id stocks =>
    ret (stocks ++ [{| sku := offer_id;
                       warehouseId := warehouse_id;
                       items := [{| count := 0; type := "FIT";
                                    updatedAt := date |}] |}])) stocks.

(** [create_prices(watch_remnants, offer_ids)] *)
Definition create_prices (watch_remnants : list feed_row)
    : M (list string) (list price_item) :=
  for_fold watch_remnants (fun watch prices =>
    let* found := contains (py_str (code watch)) in
    if found then
      let* converted := lift (Seller.price_conversion (priceLabel watch)) in
      let* value := lift (int_of_str converted) in
      let price := {| id := py_str (code watch);
                      price := {| value := value; currencyId := "RUR" |} |} in
      ret (prices ++ [price])
    else ret prices) [].

(** The body of the coroutine [upload_prices]. *)
Definition upload_prices (c : collaborators) (watch_remnants : list feed_row)
    (campaign_id : string) : M world (list price_item) :=
  let* offer_ids :=
    (let* ids := with_catalog (get_offer_ids campaign_id) in new_list ids) in
  let* prices := with_list offer_ids (create_prices watch_remnants) in
  let* chunks := lift (Seller.divide prices 500) in
  for_each chunks (fun some_prices => update_price c some_prices campaign_id) ;;
  ret prices.

(** The body of the coroutine [upload_stocks]; [date] is the clock reading
    of its [create_stocks] call. *)
Definition upload_stocks (c : collaborators) (date : string)
    (watch_remnants : list feed_row) (campaign_id : string)
    (warehouse_id : string) : M world (list stock_item * list stock_item) :=
  let* offer_ids :=
    (let* ids := with_catalog (get_offer_ids campaign_id) in new_list ids) in
  let* stocks :=
    with_list offer_ids (create_stocks date watch_remnants warehouse_id) in
  let* chunks := lift (Seller.divide stocks 2000) in
  for_each chunks (fun some_stock => update_stocks c some_stock campaign_id) ;;
  let* not_empty :=
    lift (py_filter
            (fun stock =>
               result_bind (py_first (items stock))
                 (fun item => Ok (negb (count item =? 0)))) stocks) in
  ret (not_empty, stocks).

(** [main()]; [date_fbs] and [date_dbs] are the clock readings of the two
    [create_stocks] calls.  [upload_prices] is a coroutine function: calling
    it only creates a coroutine, and [main] never awaits the two it creates,
    so their bodies do not run. *)
Definition main (c : collaborators) (date_fbs date_dbs : string)
    (campaign_fbs_id campaign_dbs_id warehouse_fbs_id warehouse_dbs_id : string)
    : M world unit :=
  let* watch_remnants := lift (feed_reply c) in
  try_except (
    let* offer_ids :=
      (let* ids := with_catalog (get_offer_ids campaign_fbs_id) in
       new_list ids) in
    let* stocks :=
      with_list offer_ids
        (create_stocks date_fbs watch_remnants warehouse_fbs_id) in
    let* chunks := lift (Seller.divide stocks 2000) in
    for_each chunks (fun some_stock =>
      update_stocks c some_stock campaign_fbs_id) ;;
    let _coroutine := upload_prices c watch_remnants campaign_fbs_id in
    let* offer_ids :=
      (let* ids := with_catalog (get_offer_ids campaign_dbs_id) in
       new_list ids) in
    let* stocks :=
      with_list offer_ids
        (create_stocks date_dbs watch_remnants warehouse_dbs_id) in
    let* chunks := lift (Seller.divide stocks 2000) in
    for_each chunks (fun some_stock =>
      update_stocks c some_stock campaign_dbs_id) ;;
    let _coroutine := upload_prices c watch_remnants campaign_dbs_id in
    ret tt).

End Market.

(** ** What the specification says *)

(** The portion of a price label left of its first ['.']; the whole label
    when it has none. *)
Fixpoint left_of_first_dot (s : string) : string :=
  match s with
  | EmptyString => EmptyString
  | String c s' =>
      if Ascii.eqb c "." then EmptyString else String c (left_of_first_dot s')
  end.

(** A string with every character that is not a digit removed. *)
Fixpoint digits_only (s : string) : string :=
  match s with
  | EmptyString => EmptyString
  | String c s' =>
      if is_digit c then String c (digits_only s') else digits_only s'
  end.

(** The offer id a feed row stands for: its code converted to a string. *)
Definition code_str (row : feed_row) : string := py_str (code row).

(** The count resolved from a quantity label: 100 for [">10"], 0 for ["1"],
    the integer parse of the label otherwise. *)
Definition resolvedCount (row : feed_row) : result Z :=
  let label := py_str (quantityLabel row) in
  if decide (label = ">10") then Ok 100
  else if decide (label = "1") then Ok 0
  else py_int (quantityLabel row).

(** [offerIds] with one entry [id] removed. *)
Definition without (id : string) (offerIds : list string) : list string :=
  default offerIds (list_remove id offerIds).

(** The first applicable result of a list of fallible steps. *)
Fixpoint traverse {A B} (f : A -> result B) (l : list A) : result (list B) :=
  match l with
  | [] => Ok []
  | x :: l' =>
      result_bind (f x) (fun y =>
        result_bind (traverse f l') (fun ys => Ok (y :: ys)))
  end.

Section BuildStockUpdates.
Context {B : Type} (update : string -> Z -> B).

(** The updates of the matched feed rows, in feed-row order: a row is
    matched when its code is in [offerIds], and the code is then removed
    so that later rows cannot reuse it. *)
Fixpoint matchedUpdates (feedRows : list feed_row) (offerIds : list string)
    : result (list B) :=
  match feedRows with
  | [] => Ok []
  | row :: rest =>
      if list_contains (code_str row) offerIds then
        result_bind (resolvedCount row) (fun n =>
          result_bind (matchedUpdates rest (without (code_str row) offerIds))
            (fun updates => Ok (update (code_str row) n :: updates)))
      else matchedUpdates rest offerIds
  end.

(** The offer ids no feed row has claimed, in their original order. *)
Fixpoint leftoverIds (feedRows : list feed_row) (offerIds : list string)
    : list string :=
  match feedRows with
  | [] => offerIds
  | row :: rest =>
      if list_contains (code_str row) offerIds
      then leftoverIds rest (without (code_str row) offerIds)
      else leftoverIds rest offerIds
  end.

(** [buildStockUpdates]: the matched updates, then an update with count 0
    for every leftover offer id. *)
Definition buildStockUpdates (feedRows : list feed_row)
    (offerIds : list string) : result (list B) :=
  result_bind (matchedUpdates feedRows offerIds) (fun matched =>
    Ok (matched ++ ((fun id => update id 0) <$> leftoverIds feedRows offerIds))).

(** One iteration of the first loop of [create_stocks]. *)
Definition claim_step (row : feed_row) (acc : list B) (ids : list string)
    : result (list B) * list string :=
  if list_contains (code_str row) ids then
    match resolvedCount row with
    | Ok n => (Ok (acc ++ [update (code_str row) n]), without (code_str row) ids)
    | Raise e => (Raise e, ids)
    | Blocked => (Blocked, ids)
    end
  else (Ok acc, ids).

End BuildStockUpdates.

(** The price update Ozon is sent for a feed row. *)
Definition seller_price (row : feed_row) : result Seller.price_item :=
  result_bind (Seller.price_conversion (priceLabel row)) (fun digits =>
    Ok {| Seller.auto_action_enabled := "UNKNOWN";
          Seller.currency_code := "RUB";
          Seller.price_offer_id := code_str row;
          Seller.old_price := "0";
          Seller.price := digits |}).

(** The price update Yandex Market is sent for a feed row. *)
Definition market_price (row : feed_row) : result Market.price_item :=
  result_bind (Seller.price_conversion (priceLabel row)) (fun digits =>
    result_bind (int_of_str digits) (fun value =>
      Ok {| Market.id := code_str row;
            Market.price := {| Market.value := value;
                               Market.currencyId := "RUR" |} |})).

(** The feed rows whose code is in [offerIds]. *)
Definition rows_present (feedRows : list feed_row) (offerIds : list string)
    : list feed_row :=
  filter (fun row => code_str row ∈ offerIds) feedRows.

(** The offer ids that are the code of no feed row. *)
Definition ids_absent (feedRows : list feed_row) (offerIds : list string)
    : list string :=
  filter (fun id => id ∉ code_str <$> feedRows) offerIds.

Definition seller_stock (id : string) (n : Z) : Seller.stock_item :=
  {| Seller.offer_id := id; Seller.stock := n |}.

Definition market_stock (warehouse_id date : string) (id : string) (n : Z)
    : Market.stock_item :=
  {| Market.sku := id;
     Market.warehouseId := warehouse_id;
     Market.items := [{| Market.count := n; Market.type := "FIT";
                         Market.updatedAt := date |}] |}.

(** One iteration of the loop of [create_prices], for a payload [f]. *)
Definition price_step {B} (f : feed_row -> result B) (row : feed_row)
    (acc : list B) (ids : list string) : result (list B) * list string :=
  if list_contains (code_str row) ids then
    match f row with
    | Ok p => (Ok (acc ++ [p]), ids)
    | Raise e => (Raise e, ids)
    | Blocked => (Blocked, ids)
    end
  else (Ok acc, ids).

(** The feed row and the offer ids of the example of the specification. *)
Definition example_row : feed_row :=
  {| code := VInt 69791; quantityLabel := VStr ">10";
     priceLabel := VStr "550.00 руб." |}.

Definition example_ids : list string := ["69791"; "70000"].

(** The stock update of a matched feed row. *)
Definition row_update {B} (update : string -> Z -> B) (row : feed_row)
    : result B :=
  result_bind (resolvedCount row) (fun n => Ok (update (code_str row) n)).

(** A feed row whose price label holds no digit. *)
Definition undigited_row : feed_row :=
  {| code := VInt 69791; quantityLabel := VStr ">10";
     priceLabel := VStr "руб." |}.

(** *** Pagination *)

(** Ozon: after [seen] items, none of the pages [ps] brings the running
    count to the total it reports. *)
Fixpoint seller_all_continue (seen : nat) (ps : list Seller.page) : bool :=
  match ps with
  | [] => true
  | p :: ps' =>
      let seen' := (seen + length (Seller.items p))%nat in
      negb (Seller.total p =? Z.of_nat seen') && seller_all_continue seen' ps'
  end.

(** Ozon: the [last_id] arguments of the requests answered by [ps], the
    first being [first], and the argument of the request after them. *)
Fixpoint seller_tokens (first : string) (ps : list Seller.page) : list string :=
  match ps with
  | [] => []
  | p :: ps' => first :: seller_tokens (Seller.last_id p) ps'
  end.

Fixpoint seller_next_token (first : string) (ps : list Seller.page) : string :=
  match ps with
  | [] => first
  | p :: ps' => seller_next_token (Seller.last_id p) ps'
  end.

Definition seller_items (ps : list Seller.page) : list Seller.product :=
  concat (Seller.items <$> ps).

(** Yandex Market: the continuation token of a page, and pages that all
    carry a non-empty one. *)
Definition market_token (p : Market.page) : option string :=
  Market.nextPageToken (Market.page_paging p).

Definition market_all_continue (ps : list Market.page) : bool :=
  forallb (fun p => negb (Market.falsy (market_token p))) ps.

Fixpoint market_tokens (campaign_id first : string) (ps : list Market.page)
    : list (string * string) :=
  match ps with
  | [] => []
  | p :: ps' =>
      (campaign_id, first)
      :: market_tokens campaign_id (default "" (market_token p)) ps'
  end.

Fixpoint market_next_token (first : string) (ps : list Market.page) : string :=
  match ps with
  | [] => first
  | p :: ps' => market_next_token (default "" (market_token p)) ps'
  end.

Definition market_entries (ps : list Market.page) : list Market.entry :=
  concat (Market.offerMappingEntries <$> ps).

(** Two pages of two offers each, for Ozon and for Yandex Market. *)
Definition seller_page_1 : Seller.page :=
  {| Seller.items := [{| Seller.product_offer_id := "136748" |};
                      {| Seller.product_offer_id := "136749" |}];
     Seller.total := 4; Seller.last_id := "bnVsbA==" |}.

Definition seller_page_2 : Seller.page :=
  {| Seller.items := [{| Seller.product_offer_id := "69791" |};
                      {| Seller.product_offer_id := "70000" |}];
     Seller.total := 4; Seller.last_id := "" |}.

Definition market_entry (sku : string) : Market.entry :=
  {| Market.entry_offer := {| Market.shopSku := sku |} |}.

Definition market_page_1 : Market.page :=
  {| Market.offerMappingEntries := [market_entry "136748"; market_entry "136749"];
     Market.page_paging := {| Market.nextPageToken := Some "eyBuZXh0" |} |}.

Definition market_page_2 : Market.page :=
  {| Market.offerMappingEntries := [market_entry "69791"; market_entry "70000"];
     Market.page_paging := {| Market.nextPageToken := None |} |}.

(** *** Runs of the orchestrators *)

(** Update endpoints that accept every call. *)
Definition accepting (feed : list feed_row) : Seller.collaborators :=
  {| Seller.feed_reply := Ok feed;
     Seller.stocks_reply := fun _ => Ok tt;
     Seller.prices_reply := fun _ => Ok tt |}.

(** A run that starts with no list object and no call made, facing a
    catalog that answers with [replies]. *)
Definition seller_start (replies : list (result Seller.page)) : Seller.world :=
  {| heap := ∅; pages := {| replies := replies; requests := [] |};
     calls := [] |}.

(** The catalog of the example: one page with the two offers. *)
Definition example_page : Seller.page :=
  {| Seller.items := [{| Seller.product_offer_id := "69791" |};
                      {| Seller.product_offer_id := "70000" |}];
     Seller.total := 2; Seller.last_id := "" |}.

(** A feed of [n] rows with the codes 1 to [n], and a one-page catalog
    listing the same [n] offers. *)
Definition numbered_feed (n : nat) : list feed_row :=
  (fun k => {| code := VInt (Z.of_nat k); quantityLabel := VStr "5";
               priceLabel := VStr "100.00 руб." |}) <$> seq 1 n.

Definition numbered_page (n : nat) : Seller.page :=
  {| Seller.items :=
       (fun k => {| Seller.product_offer_id := py_str (VInt (Z.of_nat k)) |})
         <$> seq 1 n;
     Seller.total := Z.of_nat n; Seller.last_id := "" |}.

(** The payloads of the price update calls among the calls of a run. *)
Definition price_calls (cs : list Seller.call) : list (list Seller.price_item) :=
  omap (fun c => match c with
                 | Seller.PricesCall prices => Some prices
                 | Seller.StocksCall _ => None
                 end) cs.

(** Yandex Market: endpoints that accept every call, and a run that starts
    with no list object and no call made. *)
Definition market_accepting (feed : list feed_row) : Market.collaborators :=
  {| Market.feed_reply := Ok feed;
     Market.stocks_reply := fun _ _ => Ok tt;
     Market.prices_reply := fun _ _ => Ok tt |}.

Definition market_start (replies : list (result Market.page)) : Market.world :=
  {| heap := ∅; pages := {| replies := replies; requests := [] |};
     calls := [] |}.

(** A one-page catalog with the two offers of the example. *)
Definition market_example_page : Market.page :=
  {| Market.offerMappingEntries := [market_entry "69791"; market_entry "70000"];
     Market.page_paging := {| Market.nextPageToken := Some "" |} |}.

(** Feed rows with the quantity labels ["1"], ["5"] and a label that is
    not a number. *)
Definition row_labelled (label : string) : feed_row :=
  {| code := VInt 69791; quantityLabel := VStr label;
     priceLabel := VStr "550.00 руб." |}.

(** *** Further vocabulary *)

(** A string of digits only. *)
Fixpoint all_digits (s : string) : bool :=
  match s with
  | EmptyString => true
  | String c s' => is_digit c && all_digits s'
  end.

(** The Yandex Market stock update with the offer id and count of an Ozon
    one. *)
Definition to_market (warehouse_id date : string) (s : Seller.stock_item)
    : Market.stock_item :=
  market_stock warehouse_id date (Seller.offer_id s) (Seller.stock s).

(** The payloads of the price update calls among the calls of a Yandex
    Market run. *)
Definition market_price_calls (cs : list Market.call)
    : list (list Market.price_item) :=
  omap (fun c => match c with
                 | Market.PricesCall _ prices => Some prices
                 | Market.StocksCall _ _ => None
                 end) cs.

(** The count of the first item of a Yandex Market stock update. *)
Definition market_count (s : Market.stock_item) : Z :=
  match Market.items s with
  | item :: _ => Market.count item
  | [] => 0
  end.


(** A Yandex Market computation that sends no price update, whatever it
    returns. *)
Definition sends_no_price {A} (m : M Market.world A) : Prop :=
  forall w, market_price_calls (calls (snd (m w))) = market_price_calls (calls w).


(** The value of a decimal numeral read after the value [acc]. *)
Fixpoint uint_value (acc : Z) (d : Decimal.uint) : Z :=
  match d with
  | Decimal.Nil => acc
  | Decimal.D0 d' => uint_value (10 * acc + 0) d'
  | Decimal.D1 d' => uint_value (10 * acc + 1) d'
  | Decimal.D2 d' => uint_value (10 * acc + 2) d'
  | Decimal.D3 d' => uint_value (10 * acc + 3) d'
  | Decimal.D4 d' => uint_value (10 * acc + 4) d'
  | Decimal.D5 d' => uint_value (10 * acc + 5) d'
  | Decimal.D6 d' => uint_value (10 * acc + 6) d'
  | Decimal.D7 d' => uint_value (10 * acc + 7) d'
  | Decimal.D8 d' => uint_value (10 * acc + 8) d'
  | Decimal.D9 d' => uint_value (10 * acc + 9) d'
  end.

(** A feed row with the given code and quantity cell. *)
Definition row_with (c quantity : pyval) : feed_row :=
  {| code := c; quantityLabel := quantity; priceLabel := VNone |}.


(** Quantity labels that tell the blanks and digits of [int] apart: "5"
    followed by a NO-BREAK SPACE (U+00A0, the bytes C2 A0), "8" preceded by
    the FILE SEPARATOR (0x1c), and ARABIC-INDIC DIGIT THREE (U+0663, the
    bytes D9 A3). *)
Definition five_nbsp : string :=
  String "5" (String "194" (String "160" EmptyString)).

Definition separator_eight : string := String "028" (String "8" EmptyString).

Definition arabic_three : string := String "217" (String "163" EmptyString).

(** A stock endpoint that refuses the calls that carry the offer [id] and
    accepts the others. *)
Definition refusing_offer (id : string) (feed : list feed_row)
    : Seller.collaborators :=
  {| Seller.feed_reply := Ok feed;
     Seller.stocks_reply := fun stocks =>
       if list_contains id (Seller.offer_id <$> stocks)
       then Raise (RequestError "500 Server Error")
       else Ok tt;
     Seller.prices_reply := fun _ => Ok tt |}.

(** The stock updates built from the rows [first] to [first + count - 1] of
    a numbered feed. *)
Definition numbered_stocks (first count : nat) : list Seller.stock_item :=
  (fun k => seller_stock (py_str (VInt (Z.of_nat k))) 5) <$> seq first count.


(** ** Builtins *)

Lemma list_contains_elem_of x l : list_contains x l = true <-> x ∈ l.
Proof.
  induction l as [|y l IH]; simpl.
  - split; [discriminate | intros H; inversion H].
  - destruct (String.eqb_spec y x) as [->|Hne].
    + split; [intros _; left | reflexivity].
    + rewrite IH. split; [intros H; right; exact H |].
      intros H. inversion H; subst; [contradiction | assumption].
Qed.

Lemma list_contains_false x l : list_contains x l = false <-> x ∉ l.
Proof.
  rewrite <- list_contains_elem_of.
  destruct (list_contains x l); split; congruence.
Qed.

Lemma py_first_split sep s :
  py_first (py_split sep s) =
  Ok (match py_split sep s with piece :: _ => piece | [] => EmptyString end).
Proof.
  destruct s as [|c s]; simpl; [reflexivity |].
  destruct (Ascii.eqb c sep); [reflexivity |].
  destruct (py_split sep s); reflexivity.
Qed.

Lemma py_split_dot_head s :
  match py_split "." s with piece :: _ => piece | [] => EmptyString end
  = left_of_first_dot s.
Proof.
  induction s as [|c s IH]; simpl; [reflexivity |].
  destruct (Ascii.eqb c "."); [reflexivity |].
  destruct (py_split "." s); simpl in *; congruence.
Qed.

Lemma outside_digits c : outside_range "0" "9" c = negb (is_digit c).
Proof. reflexivity. Qed.

Lemma re_sub_non_digits s : re_sub (outside_range "0" "9") "" s = digits_only s.
Proof.
  induction s as [|c s IH]; cbn [re_sub digits_only]; [reflexivity |].
  rewrite outside_digits, IH. destruct (is_digit c); reflexivity.
Qed.

(** ** The Price Normalizer *)

(** C4. On every string price label [price_conversion] returns the digits
    of the portion left of the first ['.']; the three labels of the
    specification and of the docstring give "5990", "550" and, with a
    comma for the fraction, "599000". *)
Theorem price_conversion_digits_left_of_dot :
  (forall s : string,
     Seller.price_conversion (VStr s) = Ok (digits_only (left_of_first_dot s)))
  /\ Seller.price_conversion (VStr "5'990.00 руб.") = Ok "5990"
  /\ Seller.price_conversion (VStr "550.00 руб.") = Ok "550"
  /\ Seller.price_conversion (VStr "5'990,00 руб.") = Ok "599000".
Proof.
  split; [| repeat split; reflexivity].
  intros s. unfold Seller.price_conversion.
  rewrite py_first_split, py_split_dot_head. cbn [result_bind].
  rewrite re_sub_non_digits. reflexivity.
Qed.

(** ** The Chunker *)

Lemma py_slice_forward {A} (l : list A) (i j : Z) :
  0 <= i -> i <= j ->
  py_slice l i j = take (Z.to_nat (j - i)) (drop (Z.to_nat i) l).
Proof.
  intros Hi Hij. unfold py_slice, slice_bound.
  destruct (Z.ltb_spec i 0) as [?|_]; [lia |].
  destruct (Z.ltb_spec j 0) as [?|_]; [lia |].
  destruct (Z.le_gt_cases i (Z.of_nat (length l))) as [Hin|Hout].
  - rewrite (Z.min_l i) by lia.
    destruct (Z.le_gt_cases j (Z.of_nat (length l))) as [Hj|Hj].
    + rewrite (Z.min_l j) by lia. reflexivity.
    + rewrite (Z.min_r j) by lia.
      rewrite !take_ge; [reflexivity | |]; rewrite length_drop; lia.
  - rewrite (Z.min_r i) by lia.
    rewrite !(drop_ge l) by lia. rewrite !take_nil. reflexivity.
Qed.

(** The number of chunks: [len(range(0, len, n))]. *)
Lemma range_length_chunks (len : nat) (n : Z) :
  0 < n ->
  let m := range_length 0 (Z.of_nat len) n in
  (len = 0%nat -> m = 0%nat) /\
  (len <> 0%nat ->
     ((m - 1) * Z.to_nat n < len)%nat /\ (len <= m * Z.to_nat n)%nat /\
     (1 <= m)%nat).
Proof.
  intros Hn m. subst m. unfold range_length.
  destruct (Z.ltb_spec 0 n) as [_|?]; [| lia].
  destruct (Z.ltb_spec 0 (Z.of_nat len)) as [Hpos|Hzero].
  - split; [lia |]. intros _.
    replace (Z.of_nat len - 0 - 1) with (Z.of_nat len - 1) by lia.
    pose proof (Z.mul_div_le (Z.of_nat len - 1) n Hn) as Hlo.
    pose proof (Z.mul_succ_div_gt (Z.of_nat len - 1) n Hn) as Hhi.
    pose proof (Z.div_pos (Z.of_nat len - 1) n ltac:(lia) Hn) as Hq.
    set (q := (Z.of_nat len - 1) / n) in *.
    replace (Z.to_nat (q + 1)) with (S (Z.to_nat q)) by lia.
    assert (Z.of_nat (Z.to_nat q * Z.to_nat n) = n * q) as Heq by lia.
    repeat split; simpl; nia.
  - split; [reflexivity | lia].
Qed.

Lemma divide_positive {A} (l : list A) (n : Z) :
  0 < n ->
  Seller.divide l n =
  Ok (map (fun k => take (Z.to_nat n) (drop (k * Z.to_nat n) l))
          (seq 0 (range_length 0 (Z.of_nat (length l)) n))).
Proof.
  intros Hn. unfold Seller.divide, py_range.
  destruct (Z.eqb_spec n 0) as [?|_]; [lia |]. cbn [result_bind].
  rewrite map_map. f_equal. apply map_ext. intros k.
  rewrite py_slice_forward by nia. f_equal; [f_equal; lia |].
  f_equal. nia.
Qed.

Lemma concat_chunks {A} (l : list A) (n m : nat) :
  concat (map (fun k => take n (drop (k * n) l)) (seq 0 m)) = take (m * n) l.
Proof.
  induction m as [|m IH].
  - reflexivity.
  - rewrite seq_S, map_app, concat_app, IH. simpl.
    rewrite app_nil_r, take_take_drop. f_equal. lia.
Qed.

(** C5. For a positive [n], [divide] yields chunks whose concatenation is
    the list; a chunk holds between 1 and [n] items, every chunk before the
    last holds exactly [n]; the empty list yields no chunk. *)
Theorem divide_partitions {A} (lst : list A) (n : Z) :
  0 < n ->
  exists chunks : list (list A),
    Seller.divide lst n = Ok chunks
    /\ concat chunks = lst
    /\ (forall chunk, chunk ∈ chunks ->
          1 <= Z.of_nat (length chunk) <= n)
    /\ (forall (i : nat) chunk,
          chunks !! i = Some chunk -> (i + 1 < length chunks)%nat ->
          Z.of_nat (length chunk) = n)
    /\ (lst = [] -> chunks = []).
Proof.
  intros Hn. eexists. split; [apply divide_positive; exact Hn |].
  pose proof (range_length_chunks (length lst) n Hn) as [Hzero Hpos].
  cbv zeta in Hzero, Hpos.
  set (m := range_length 0 (Z.of_nat (length lst)) n) in *.
  set (n' := Z.to_nat n).
  assert (forall (i : nat) chunk,
            map (fun k => take n' (drop (k * n') lst)) (seq 0 m) !! i
              = Some chunk ->
            (i < m)%nat /\ chunk = take n' (drop (i * n') lst)) as Hlookup.
  { intros i chunk Hi. change (@map nat (list A)) with (@fmap list _ nat (list A)) in Hi.
    rewrite list_lookup_fmap in Hi.
    destruct (seq 0 m !! i) as [k|] eqn:Hk; [| discriminate].
    apply lookup_seq in Hk as [-> Hlt]. simpl in Hi. split; [lia | congruence]. }
  split; [| split; [| split]].
  - rewrite concat_chunks. apply take_ge.
    destruct (decide (length lst = 0%nat)) as [Hl|Hl]; [lia |].
    specialize (Hpos Hl). lia.
  - intros chunk Hchunk. apply list_elem_of_lookup in Hchunk as [i Hi].
    apply Hlookup in Hi as [Hi ->].
    rewrite length_take, length_drop.
    destruct (decide (length lst = 0%nat)) as [Hl|Hl];
      [rewrite (Hzero Hl) in Hi; lia |].
    specialize (Hpos Hl). subst n'. split; nia.
  - intros i chunk Hi Hlast. rewrite length_map, length_seq in Hlast.
    apply Hlookup in Hi as [Hi ->].
    rewrite length_take, length_drop.
    destruct (decide (length lst = 0%nat)) as [Hl|Hl];
      [rewrite (Hzero Hl) in Hi; lia |].
    specialize (Hpos Hl). subst n'. nia.
  - intros ->. simpl in Hzero. rewrite Hzero by reflexivity. reflexivity.
Qed.

(** C6 as stated fails: a negative size raises nothing. *)
Lemma divide_negative_size_counterexample :
  ~ (forall (lst : list Z) (n : Z),
       n <= 0 -> exists e, Seller.divide lst n = Raise e).
Proof.
  intros H. destruct (H [1; 2; 3] (-1)) as [e He]; [lia |].
  vm_compute in He. discriminate He.
Qed.

(** C6, amended. [divide] raises (the [ValueError] of [range]) exactly for
    a size of 0; for a negative size it raises nothing and yields no
    chunk. *)
Theorem divide_nonpositive_size {A} (lst : list A) (n : Z) :
  n <= 0 ->
  Seller.divide lst n = if n =? 0 then Raise ValueError else Ok [].
Proof.
  intros Hn. unfold Seller.divide, py_range.
  destruct (Z.eqb_spec n 0) as [->|Hne]; [reflexivity |].
  unfold range_length.
  destruct (Z.ltb_spec 0 n) as [?|_]; [lia |].
  destruct (Z.ltb_spec (Z.of_nat (length lst)) 0) as [?|_]; [lia |].
  reflexivity.
Qed.

(** ** The Remnant Reconciler *)

Lemma list_remove_contains x l :
  list_contains x l = true -> exists l', list_remove x l = Some l'.
Proof.
  induction l as [|y l IH]; simpl; [discriminate |].
  destruct (String.eqb y x); [eauto |].
  intros H. destruct (IH H) as [l' ->]. eauto.
Qed.

Lemma list_remove_Permutation x l l' :
  list_remove x l = Some l' -> l ≡ₚ x :: l'.
Proof.
  revert l'. induction l as [|y l IH]; simpl; intros l'; [discriminate |].
  destruct (String.eqb_spec y x) as [->|Hne].
  - intros [= ->]. reflexivity.
  - destruct (list_remove x l) as [r|]; [| discriminate].
    intros [= <-]. rewrite (IH r eq_refl). apply Permutation_swap.
Qed.

Lemma list_remove_NoDup x l l' :
  NoDup l -> list_remove x l = Some l' ->
  l' = filter (fun y => y ≠ x) l /\ NoDup l'.
Proof.
  revert l'. induction l as [|y l IH]; simpl; intros l' Hnd; [discriminate |].
  apply NoDup_cons in Hnd as [Hy Hnd].
  destruct (String.eqb_spec y x) as [->|Hne].
  - intros [= <-]. split; [| exact Hnd].
    rewrite filter_cons_False by (intros H; apply H; reflexivity).
    clear IH. induction l as [|z l IH]; [reflexivity |].
    apply not_elem_of_cons in Hy as [Hxz Hy].
    apply NoDup_cons in Hnd as [_ Hnd].
    rewrite filter_cons_True by congruence. f_equal. apply IH; assumption.
  - destruct (list_remove x l) as [r|]; [| discriminate].
    intros [= <-]. destruct (IH r Hnd eq_refl) as [-> Hr].
    rewrite filter_cons_True by exact Hne. split; [reflexivity |].
    apply NoDup_cons. split; [| exact Hr].
    rewrite list_elem_of_filter. tauto.
Qed.

Lemma without_Permutation x l :
  list_contains x l = true -> l ≡ₚ x :: without x l.
Proof.
  intros H. destruct (list_remove_contains x l H) as [l' Hl'].
  unfold without. rewrite Hl'. apply list_remove_Permutation, Hl'.
Qed.

Lemma without_NoDup x l :
  NoDup l -> list_contains x l = true ->
  without x l = filter (fun y => y ≠ x) l /\ NoDup (without x l).
Proof.
  intros Hnd H. destruct (list_remove_contains x l H) as [l' Hl'].
  unfold without. rewrite Hl'. apply list_remove_NoDup; assumption.
Qed.

Lemma for_fold_cons {S A B} (x : A) (l : list A) (body : A -> B -> M S B)
    (acc : B) (s : S) :
  for_fold (x :: l) body acc s =
  match body x acc s with
  | (Ok acc', s') => for_fold l body acc' s'
  | (Raise e, s') => (Raise e, s')
  | (Blocked, s') => (Blocked, s')
  end.
Proof. reflexivity. Qed.

(** A loop that appends one item per element and touches nothing else. *)
Lemma for_fold_append {S A B} (f : A -> B) (body : A -> list B -> M S (list B))
    (l : list A) :
  (forall x acc s, body x acc s = (Ok (acc ++ [f x]), s)) ->
  forall acc s, for_fold l body acc s = (Ok (acc ++ (f <$> l)), s).
Proof.
  intros Hbody. induction l as [|x l IH]; intros acc s.
  - simpl. rewrite app_nil_r. reflexivity.
  - rewrite for_fold_cons, Hbody, IH, <- app_assoc. reflexivity.
Qed.

Section ClaimLoop.
Context {B : Type} (update : string -> Z -> B).
Context (body : feed_row -> list B -> M (list string) (list B)).
Hypothesis body_step :
  forall row acc ids, body row acc ids = claim_step update row acc ids.

Lemma claim_loop_result rows : forall acc ids,
  fst (for_fold rows body acc ids) =
  result_bind (matchedUpdates update rows ids) (fun us => Ok (acc ++ us)).
Proof.
  induction rows as [|row rows IH]; intros acc ids.
  - simpl. rewrite app_nil_r. reflexivity.
  - rewrite for_fold_cons, body_step. unfold claim_step.
    cbn [matchedUpdates].
    destruct (list_contains (code_str row) ids); [| apply IH].
    destruct (resolvedCount row) as [n|e|]; cbn [result_bind fst];
      [| reflexivity | reflexivity].
    rewrite IH.
    destruct (matchedUpdates update rows (without (code_str row) ids));
      cbn [result_bind]; [| reflexivity | reflexivity].
    rewrite <- app_assoc. reflexivity.
Qed.

Lemma claim_loop_state rows : forall acc ids us,
  matchedUpdates update rows ids = Ok us ->
  snd (for_fold rows body acc ids) = leftoverIds rows ids.
Proof.
  induction rows as [|row rows IH]; intros acc ids us.
  - reflexivity.
  - rewrite for_fold_cons, body_step. unfold claim_step.
    cbn [matchedUpdates leftoverIds].
    destruct (list_contains (code_str row) ids); [| apply IH].
    destruct (resolvedCount row) as [n|e|]; cbn [result_bind];
      [| discriminate | discriminate].
    destruct (matchedUpdates update rows (without (code_str row) ids))
      as [us'| |] eqn:Hrest; cbn [result_bind]; [| discriminate | discriminate].
    intros _. apply (IH _ _ us'). exact Hrest.
Qed.

(** The ids of the matched updates and the leftover ids are the offer ids,
    rearranged. *)
Lemma matched_leftover_Permutation (key : B -> string) rows :
  (forall id n, key (update id n) = id) ->
  forall ids us,
    matchedUpdates update rows ids = Ok us ->
    (key <$> us) ++ leftoverIds rows ids ≡ₚ ids.
Proof.
  intros Hkey. induction rows as [|row rows IH]; intros ids us.
  - intros [= <-]. reflexivity.
  - cbn [matchedUpdates leftoverIds].
    destruct (list_contains (code_str row) ids) eqn:Hin; [| apply IH].
    destruct (resolvedCount row) as [n|e|]; cbn [result_bind];
      [| discriminate | discriminate].
    destruct (matchedUpdates update rows (without (code_str row) ids))
      as [us'| |] eqn:Hrest; cbn [result_bind]; [| discriminate | discriminate].
    intros [= <-]. rewrite fmap_cons, Hkey. cbn [app].
    rewrite (IH _ _ Hrest). symmetry. apply without_Permutation, Hin.
Qed.

End ClaimLoop.

(** Without duplicates among the offer ids, the leftover ids are the ids
    that are the code of no feed row. *)
Lemma leftoverIds_NoDup rows : forall ids,
  NoDup ids -> leftoverIds rows ids = ids_absent rows ids.
Proof.
  unfold ids_absent.
  induction rows as [|row rows IH]; intros ids Hnd.
  - cbn [leftoverIds fmap list_fmap].
    induction ids as [|id ids IHids]; [reflexivity |].
    apply NoDup_cons in Hnd as [_ Hnd].
    rewrite filter_cons_True by apply not_elem_of_nil.
    f_equal. apply IHids, Hnd.
  - cbn [leftoverIds]. rewrite fmap_cons.
    destruct (list_contains (code_str row) ids) eqn:Hin.
    + destruct (without_NoDup _ _ Hnd Hin) as [Heq Hnd'].
      rewrite (IH _ Hnd'), Heq, list_filter_filter.
      apply list_filter_iff. intros id. rewrite not_elem_of_cons. tauto.
    + apply list_contains_false in Hin. rewrite (IH _ Hnd).
      clear IH Hnd. induction ids as [|id ids IHids]; [reflexivity |].
      apply not_elem_of_cons in Hin as [Hne Hin].
      rewrite !filter_cons, IHids by exact Hin.
      destruct (decide (id ∉ code_str <$> rows)) as [Hid|Hid];
        [rewrite decide_True | rewrite decide_False]; try reflexivity.
      * apply not_elem_of_cons. split; [congruence | exact Hid].
      * rewrite not_elem_of_cons. tauto.
Qed.

(** The first loop of [create_stocks], in both modules, runs [claim_step]. *)
Ltac claim_step_tac :=
  let row := fresh "row" in
  let acc := fresh "acc" in
  let s := fresh "s" in
  let Hin := fresh "Hin" in
  let Hrem := fresh "Hrem" in
  let Hten := fresh "Hten" in
  let Hone := fresh "Hone" in
  intros row acc s;
  unfold claim_step, resolvedCount, bind, contains, remove, ret, lift, without,
    code_str;
  cbv beta iota zeta;
  destruct (list_contains (py_str (code row)) s) eqn:Hin; [| reflexivity];
  destruct (list_remove_contains _ _ Hin) as [? Hrem];
  destruct (String.eqb_spec (py_str (quantityLabel row)) ">10") as [Hten|Hten];
    [rewrite decide_True by exact Hten; cbv beta iota zeta; rewrite Hrem;
     reflexivity
    | rewrite decide_False by exact Hten];
  destruct (String.eqb_spec (py_str (quantityLabel row)) "1") as [Hone|Hone];
    [rewrite decide_True by exact Hone; cbv beta iota zeta; rewrite Hrem;
     reflexivity
    | rewrite decide_False by exact Hone];
  destruct (py_int (quantityLabel row)); cbv beta iota zeta; rewrite ?Hrem;
  reflexivity.

Lemma seller_create_stocks_result rows ids :
  fst (Seller.create_stocks rows ids) = buildStockUpdates seller_stock rows ids.
Proof.
  unfold Seller.create_stocks, buildStockUpdates.
  match goal with
  | |- context [for_fold rows ?b []] => set (body := b)
  end.
  assert (forall row acc ids, body row acc ids = claim_step seller_stock row acc ids)
    as Hbody by (subst body; claim_step_tac).
  pose proof (claim_loop_result seller_stock body Hbody rows [] ids) as Hres.
  pose proof (claim_loop_state seller_stock body Hbody rows [] ids) as Hst.
  unfold bind at 1.
  destruct (for_fold rows body [] ids) as [r ids'].
  cbn [fst snd] in Hres, Hst. subst r.
  destruct (matchedUpdates seller_stock rows ids) as [us| |];
    cbn [result_bind app]; [| reflexivity | reflexivity].
  rewrite (Hst us eq_refl). unfold bind, get.
  rewrite (for_fold_append (fun id => seller_stock id 0)) by reflexivity.
  reflexivity.
Qed.

Lemma seller_create_stocks_state rows ids stocks ids' :
  Seller.create_stocks rows ids = (Ok stocks, ids') ->
  ids' = leftoverIds rows ids /\
  exists us, matchedUpdates seller_stock rows ids = Ok us /\
             stocks = us ++ ((fun id => seller_stock id 0) <$> ids').
Proof.
  unfold Seller.create_stocks.
  match goal with
  | |- context [for_fold rows ?b []] => set (body := b)
  end.
  assert (forall row acc ids, body row acc ids = claim_step seller_stock row acc ids)
    as Hbody by (subst body; claim_step_tac).
  pose proof (claim_loop_result seller_stock body Hbody rows [] ids) as Hres.
  pose proof (claim_loop_state seller_stock body Hbody rows [] ids) as Hst.
  unfold bind at 1.
  destruct (for_fold rows body [] ids) as [r ids1].
  cbn [fst snd] in Hres, Hst. subst r.
  destruct (matchedUpdates seller_stock rows ids) as [us| |];
    cbn [result_bind app]; [| discriminate | discriminate].
  rewrite (Hst us eq_refl). unfold bind, get.
  rewrite (for_fold_append (fun id => seller_stock id 0)) by reflexivity.
  intros [= <- <-]. split; [reflexivity |]. exists us. split; reflexivity.
Qed.

Lemma market_create_stocks_state date rows warehouse_id ids stocks ids' :
  Market.create_stocks date rows warehouse_id ids = (Ok stocks, ids') ->
  ids' = leftoverIds rows ids /\
  exists us,
    matchedUpdates (market_stock warehouse_id date) rows ids = Ok us /\
    stocks = us ++ ((fun id => market_stock warehouse_id date id 0) <$> ids').
Proof.
  unfold Market.create_stocks.
  match goal with
  | |- context [for_fold rows ?b []] => set (body := b)
  end.
  assert (forall row acc ids,
            body row acc ids
            = claim_step (market_stock warehouse_id date) row acc ids)
    as Hbody by (subst body; claim_step_tac).
  pose proof (claim_loop_result _ body Hbody rows [] ids) as Hres.
  pose proof (claim_loop_state _ body Hbody rows [] ids) as Hst.
  unfold bind at 1.
  destruct (for_fold rows body [] ids) as [r ids1].
  cbn [fst snd] in Hres, Hst. subst r.
  destruct (matchedUpdates (market_stock warehouse_id date) rows ids) as [us| |];
    cbn [result_bind app]; [| discriminate | discriminate].
  rewrite (Hst us eq_refl). unfold bind, get.
  rewrite (for_fold_append (fun id => market_stock warehouse_id date id 0))
    by reflexivity.
  intros [= <- <-]. split; [reflexivity |]. exists us. split; reflexivity.
Qed.

Section PriceLoop.
Context {B : Type} (f : feed_row -> result B).
Context (body : feed_row -> list B -> M (list string) (list B)).
Hypothesis body_step :
  forall row acc ids, body row acc ids = price_step f row acc ids.

Lemma price_loop rows : forall acc ids,
  for_fold rows body acc ids =
  (result_bind (traverse f (rows_present rows ids)) (fun ps => Ok (acc ++ ps)),
   ids).
Proof.
  unfold rows_present.
  induction rows as [|row rows IH]; intros acc ids.
  - simpl. rewrite app_nil_r. reflexivity.
  - rewrite for_fold_cons, body_step, filter_cons. unfold price_step.
    destruct (list_contains (code_str row) ids) eqn:Hin.
    + rewrite decide_True by (apply list_contains_elem_of, Hin).
      cbn [traverse].
      destruct (f row) as [p|e|]; cbn [result_bind]; [| reflexivity ..].
      rewrite IH.
      destruct (traverse f (filter (fun r => code_str r ∈ ids) rows));
        cbn [result_bind]; [| reflexivity ..].
      rewrite <- app_assoc. reflexivity.
    + rewrite decide_False by (apply list_contains_false, Hin). apply IH.
Qed.

End PriceLoop.

Ltac price_step_tac :=
  let row := fresh "row" in
  let acc := fresh "acc" in
  let s := fresh "s" in
  intros row acc s;
  unfold price_step, seller_price, market_price, bind, contains, ret, lift,
    code_str;
  cbv beta iota zeta;
  destruct (list_contains (py_str (code row)) s); [| reflexivity];
  destruct (Seller.price_conversion (priceLabel row)) as [digits| |];
    cbn [result_bind]; try reflexivity;
  try (destruct (int_of_str digits); reflexivity).

Lemma seller_create_prices_run rows ids :
  Seller.create_prices rows ids =
  (traverse seller_price (rows_present rows ids), ids).
Proof.
  unfold Seller.create_prices.
  match goal with
  | |- context [for_fold rows ?b []] => set (body := b)
  end.
  assert (forall row acc s, body row acc s = price_step seller_price row acc s)
    as Hbody by (subst body; price_step_tac).
  rewrite (price_loop seller_price body Hbody).
  destruct (traverse seller_price (rows_present rows ids)); reflexivity.
Qed.

Lemma market_create_prices_run rows ids :
  Market.create_prices rows ids =
  (traverse market_price (rows_present rows ids), ids).
Proof.
  unfold Market.create_prices.
  match goal with
  | |- context [for_fold rows ?b []] => set (body := b)
  end.
  assert (forall row acc s, body row acc s = price_step market_price row acc s)
    as Hbody by (subst body; price_step_tac).
  rewrite (price_loop market_price body Hbody).
  destruct (traverse market_price (rows_present rows ids)); reflexivity.
Qed.

Lemma rows_present_absent rows ids :
  rows_present rows (ids_absent rows ids) = [].
Proof.
  unfold rows_present, ids_absent.
  assert (forall row, row ∈ rows ->
            ~ code_str row ∈ filter (fun id => id ∉ code_str <$> rows) ids)
    as Hnone.
  { intros row Hrow Hin. apply list_elem_of_filter in Hin as [Hout _].
    apply Hout, list_elem_of_fmap_2, Hrow. }
  revert Hnone.
  generalize (filter (fun id => id ∉ code_str <$> rows) ids) as kept.
  intros kept. induction rows as [|row rows IH]; intros Hnone; [reflexivity |].
  rewrite filter_cons_False by (apply Hnone; left).
  apply IH. intros r Hr. apply Hnone. right. exact Hr.
Qed.

Lemma fmap_key_update {B} (key : B -> string) (update : string -> Z -> B)
    (n : Z) (ids : list string) :
  (forall id m, key (update id m) = id) ->
  key <$> ((fun id => update id n) <$> ids) = ids.
Proof.
  intros Hkey. induction ids as [|id ids IH]; [reflexivity |].
  rewrite !fmap_cons, Hkey, IH. reflexivity.
Qed.

Lemma filter_iff_elem {A} (P1 P2 : A -> Prop)
    `{!forall x, Decision (P1 x), !forall x, Decision (P2 x)} (l : list A) :
  (forall x, x ∈ l -> P1 x <-> P2 x) -> filter P1 l = filter P2 l.
Proof.
  induction l as [|x l IH]; intros Hiff; [reflexivity |].
  rewrite !filter_cons, IH by (intros y Hy; apply Hiff; right; exact Hy).
  destruct (decide (P1 x)) as [H1|H1].
  - rewrite decide_True by (apply Hiff; [left | exact H1]). reflexivity.
  - rewrite decide_False; [reflexivity |].
    intros H2. apply H1, Hiff; [left | exact H2].
Qed.

Lemma elem_of_without x c ids :
  list_contains c ids = true -> x ≠ c -> x ∈ without c ids <-> x ∈ ids.
Proof.
  intros Hc Hne. rewrite (without_Permutation c ids Hc) at 2.
  rewrite elem_of_cons. tauto.
Qed.

Lemma rows_present_without c rows ids :
  list_contains c ids = true -> c ∉ code_str <$> rows ->
  rows_present rows (without c ids) = rows_present rows ids.
Proof.
  intros Hc Hout. unfold rows_present. apply filter_iff_elem.
  intros row Hrow. apply elem_of_without; [exact Hc |].
  intros Heq. apply Hout. rewrite <- Heq. apply list_elem_of_fmap_2, Hrow.
Qed.

(** With pairwise distinct feed codes, the matched rows are the rows whose
    code is in the offer-id list. *)
Lemma matchedUpdates_distinct {B} (update : string -> Z -> B) rows :
  NoDup (code_str <$> rows) ->
  forall ids,
    matchedUpdates update rows ids
    = traverse (row_update update) (rows_present rows ids).
Proof.
  induction rows as [|row rows IH]; intros Hnd ids; [reflexivity |].
  rewrite fmap_cons in Hnd. apply NoDup_cons in Hnd as [Hrow Hnd].
  cbn [matchedUpdates]. unfold rows_present. rewrite filter_cons.
  fold (rows_present rows ids).
  destruct (list_contains (code_str row) ids) eqn:Hin.
  - rewrite decide_True by (apply list_contains_elem_of, Hin).
    cbn [traverse]. unfold row_update at 1.
    destruct (resolvedCount row) as [n| |]; cbn [result_bind]; [| reflexivity ..].
    rewrite (IH Hnd), (rows_present_without _ _ _ Hin Hrow). reflexivity.
  - rewrite decide_False by (apply list_contains_false, Hin). apply IH, Hnd.
Qed.

(** ** Claims on the Remnant Reconciler *)

(** C1. [create_stocks] returns what [buildStockUpdates] prescribes: for
    the feed rows whose code is in the offer-id list when they are reached,
    in feed-row order, an update with count 100 for [">10"], 0 for ["1"] and
    the integer parse of the label otherwise, the call raising when that
    parse does; then an update with count 0 for every offer id left, in the
    original order.  When neither the feed codes nor the offer ids repeat,
    these are the rows whose code is in the list and the ids that are the
    code of no row.  On the example of the specification the result is the
    two updates for "69791" and "70000"; the label "1" gives 0, the label
    "5" gives 5, and a label that is no number makes the call raise.  The
    parse is that of [int]: "5" followed by a no-break space gives 5 and an
    Arabic-Indic three gives 3, while "8" preceded by the separator 0x1c,
    a blank of [str.isspace] that [int] does not skip, makes the call
    raise. *)
Theorem create_stocks_builds_stock_updates :
  (forall rows ids,
     fst (Seller.create_stocks rows ids)
     = buildStockUpdates seller_stock rows ids)
  /\
  (forall rows ids,
     NoDup (code_str <$> rows) -> NoDup ids ->
     fst (Seller.create_stocks rows ids)
     = result_bind (traverse (row_update seller_stock) (rows_present rows ids))
         (fun matched =>
            Ok (matched
                ++ ((fun id => seller_stock id 0) <$> ids_absent rows ids))))
  /\ fst (Seller.create_stocks [example_row] example_ids)
     = Ok [{| Seller.offer_id := "69791"; Seller.stock := 100 |};
           {| Seller.offer_id := "70000"; Seller.stock := 0 |}]
  /\ fst (Seller.create_stocks [row_labelled "1"] example_ids)
     = Ok [{| Seller.offer_id := "69791"; Seller.stock := 0 |};
           {| Seller.offer_id := "70000"; Seller.stock := 0 |}]
  /\ fst (Seller.create_stocks [row_labelled "5"] example_ids)
     = Ok [{| Seller.offer_id := "69791"; Seller.stock := 5 |};
           {| Seller.offer_id := "70000"; Seller.stock := 0 |}]
  /\ fst (Seller.create_stocks [row_labelled "нет"] example_ids)
     = Raise ValueError
  /\ fst (Seller.create_stocks [row_labelled five_nbsp] example_ids)
     = Ok [{| Seller.offer_id := "69791"; Seller.stock := 5 |};
           {| Seller.offer_id := "70000"; Seller.stock := 0 |}]
  /\ fst (Seller.create_stocks [row_labelled arabic_three] example_ids)
     = Ok [{| Seller.offer_id := "69791"; Seller.stock := 3 |};
           {| Seller.offer_id := "70000"; Seller.stock := 0 |}]
  /\ fst (Seller.create_stocks [row_labelled separator_eight] example_ids)
     = Raise ValueError.
Proof.
  split; [exact seller_create_stocks_result |].
  split; [| repeat split; reflexivity].
  intros rows ids Hrows Hids.
  rewrite seller_create_stocks_result. unfold buildStockUpdates.
  rewrite (matchedUpdates_distinct _ _ Hrows), (leftoverIds_NoDup _ _ Hids).
  reflexivity.
Qed.

(** C1 on the example of the specification, whose codes and ids are
    distinct. *)
Lemma create_stocks_builds_stock_updates_witness :
  NoDup (code_str <$> [example_row]) /\ NoDup example_ids /\
  fst (Seller.create_stocks [example_row] example_ids)
  = result_bind
      (traverse (row_update seller_stock) (rows_present [example_row] example_ids))
      (fun matched =>
         Ok (matched
             ++ ((fun id => seller_stock id 0)
                   <$> ids_absent [example_row] example_ids))).
Proof.
  assert (NoDup (code_str <$> [example_row])) as Hrows
    by (apply (bool_decide_eq_true_1 (NoDup (code_str <$> [example_row])));
        reflexivity).
  assert (NoDup example_ids) as Hids
    by (apply (bool_decide_eq_true_1 (NoDup example_ids)); reflexivity).
  split; [exact Hrows |]. split; [exact Hids |].
  apply (proj1 (proj2 create_stocks_builds_stock_updates)); assumption.
Defined.

(** C2. With a duplicate-free offer-id list, the offer ids of the updates
    [create_stocks] returns are the offer ids of the list, each exactly
    once; in [seller.py] and in [market.py]. *)
Theorem create_stocks_covers_offer_ids rows ids :
  NoDup ids ->
  (forall stocks ids',
     Seller.create_stocks rows ids = (Ok stocks, ids') ->
     Seller.offer_id <$> stocks ≡ₚ ids /\ NoDup (Seller.offer_id <$> stocks))
  /\
  (forall date warehouse_id stocks ids',
     Market.create_stocks date rows warehouse_id ids = (Ok stocks, ids') ->
     Market.sku <$> stocks ≡ₚ ids /\ NoDup (Market.sku <$> stocks)).
Proof.
  intros Hnd.
  assert (forall l : list string, l ≡ₚ ids -> l ≡ₚ ids /\ NoDup l) as Hboth.
  { intros l Hl. split; [exact Hl |]. rewrite Hl. exact Hnd. }
  split.
  - intros stocks ids' Hrun.
    apply seller_create_stocks_state in Hrun as (-> & us & Hus & ->).
    apply Hboth.
    rewrite fmap_app, (fmap_key_update Seller.offer_id seller_stock)
      by reflexivity.
    apply (matched_leftover_Permutation seller_stock Seller.offer_id rows);
      [reflexivity | exact Hus].
  - intros date warehouse_id stocks ids' Hrun.
    apply market_create_stocks_state in Hrun as (-> & us & Hus & ->).
    apply Hboth.
    rewrite fmap_app,
      (fmap_key_update Market.sku (market_stock warehouse_id date))
      by reflexivity.
    apply (matched_leftover_Permutation (market_stock warehouse_id date)
             Market.sku rows); [reflexivity | exact Hus].
Qed.

(** C2 on the example of the specification. *)
Lemma create_stocks_covers_offer_ids_witness :
  NoDup example_ids /\
  (Seller.offer_id <$> [seller_stock "69791" 100; seller_stock "70000" 0]
     ≡ₚ example_ids /\
   NoDup (Seller.offer_id <$>
            [seller_stock "69791" 100; seller_stock "70000" 0])).
Proof.
  assert (NoDup example_ids) as Hnd
    by (apply (bool_decide_eq_true_1 (NoDup example_ids)); reflexivity).
  split; [exact Hnd |].
  apply (proj1 (create_stocks_covers_offer_ids [example_row] example_ids Hnd)
           _ ["70000"]).
  reflexivity.
Defined.

(** C10 as stated fails: of an offer id listed twice, one entry survives a
    feed row that matches it. *)
Lemma create_stocks_repeated_id_counterexample :
  ~ (forall rows ids stocks ids',
       Seller.create_stocks rows ids = (Ok stocks, ids') ->
       forall row, row ∈ rows -> code_str row ∉ ids').
Proof.
  intros H.
  apply (H [example_row] ["69791"; "69791"]
           [{| Seller.offer_id := "69791"; Seller.stock := 100 |};
            {| Seller.offer_id := "69791"; Seller.stock := 0 |}]
           ["69791"] eq_refl example_row).
  - left.
  - left.
Qed.

(** After the stock build on a duplicate-free list, the price build on
    the same list finds no row. *)
Lemma seller_stocks_then_prices rows ids stocks ids' :
  NoDup ids ->
  Seller.create_stocks rows ids = (Ok stocks, ids') ->
  ids' = ids_absent rows ids
  /\ Seller.create_prices rows ids' = (Ok [], ids').
Proof.
  intros Hnd Hrun.
  apply seller_create_stocks_state in Hrun as [-> _].
  rewrite (leftoverIds_NoDup _ _ Hnd). split; [reflexivity |].
  rewrite seller_create_prices_run, rows_present_absent. reflexivity.
Qed.

Lemma market_stocks_then_prices date rows warehouse_id ids stocks ids' :
  NoDup ids ->
  Market.create_stocks date rows warehouse_id ids = (Ok stocks, ids') ->
  ids' = ids_absent rows ids
  /\ Market.create_prices rows ids' = (Ok [], ids').
Proof.
  intros Hnd Hrun.
  apply market_create_stocks_state in Hrun as [-> _].
  rewrite (leftoverIds_NoDup _ _ Hnd). split; [reflexivity |].
  rewrite market_create_prices_run, rows_present_absent. reflexivity.
Qed.

(** C10, amended. [create_stocks] mutates the list it is passed: with a
    duplicate-free offer-id list, when the call returns the list holds
    exactly the ids that are the code of no feed row, in their original
    order, and a [create_prices] call on the same list then finds no row to
    price; in [seller.py] and in [market.py]. *)
Theorem create_stocks_leaves_unmatched_ids rows ids :
  NoDup ids ->
  (forall stocks ids',
     Seller.create_stocks rows ids = (Ok stocks, ids') ->
     ids' = ids_absent rows ids
     /\ (forall row, row ∈ rows -> code_str row ∉ ids')
     /\ Seller.create_prices rows ids' = (Ok [], ids'))
  /\
  (forall date warehouse_id stocks ids',
     Market.create_stocks date rows warehouse_id ids = (Ok stocks, ids') ->
     ids' = ids_absent rows ids
     /\ (forall row, row ∈ rows -> code_str row ∉ ids')
     /\ Market.create_prices rows ids' = (Ok [], ids')).
Proof.
  intros Hnd.
  assert (forall row, row ∈ rows -> code_str row ∉ ids_absent rows ids)
    as Hgone.
  { intros row Hrow Hin. unfold ids_absent in Hin.
    apply list_elem_of_filter in Hin as [Hout _].
    apply Hout, list_elem_of_fmap_2, Hrow. }
  split.
  - intros stocks ids' Hrun.
    destruct (seller_stocks_then_prices _ _ _ _ Hnd Hrun) as [-> Hprices].
    split; [reflexivity |]. split; [exact Hgone | exact Hprices].
  - intros date warehouse_id stocks ids' Hrun.
    destruct (market_stocks_then_prices _ _ _ _ _ _ Hnd Hrun) as [-> Hprices].
    split; [reflexivity |]. split; [exact Hgone | exact Hprices].
Qed.

(** C10, amended, on the example of the specification. *)
Lemma create_stocks_leaves_unmatched_ids_witness :
  NoDup example_ids /\
  (["70000"] = ids_absent [example_row] example_ids
   /\ (forall row, row ∈ [example_row] -> code_str row ∉ ["70000"])
   /\ Seller.create_prices [example_row] ["70000"] = (Ok [], ["70000"])).
Proof.
  assert (NoDup example_ids) as Hids
    by (apply (bool_decide_eq_true_1 (NoDup example_ids)); reflexivity).
  split; [exact Hids |].
  apply (proj1 (create_stocks_leaves_unmatched_ids [example_row] example_ids
                  Hids)
           [{| Seller.offer_id := "69791"; Seller.stock := 100 |};
            {| Seller.offer_id := "70000"; Seller.stock := 0 |}]).
  reflexivity.
Defined.

(** C8 as stated fails: Yandex Market is sent the currency "RUR", and Ozon
    is sent the digit string of the normalizer as it is, also when it is
    not the decimal form of an integer. *)
Lemma create_prices_payload_counterexample :
  (exists p,
     fst (Market.create_prices [example_row] example_ids) = Ok [p]
     /\ Market.currencyId (Market.price p) ≠ "RUB")
  /\
  (exists p,
     fst (Seller.create_prices [undigited_row] example_ids) = Ok [p]
     /\ int_of_str (Seller.price p) = Raise ValueError).
Proof.
  split; eexists; (split; [reflexivity |]); simpl; [discriminate | reflexivity].
Qed.

(** C8, amended. [create_prices] emits one price update for each feed row
    whose code is in the offer-id list, in feed-row order, skips the other
    rows, and leaves the list as it was.  For Ozon the price is the digit
    string of the normalizer and the currency is "RUB"; for Yandex Market
    the price is that string parsed as an integer and the currency is
    "RUR"; the call raises when the normalizer or the parse does. *)
Theorem create_prices_emits_present_rows :
  (forall rows ids,
     Seller.create_prices rows ids
     = (traverse seller_price (rows_present rows ids), ids))
  /\
  (forall rows ids,
     Market.create_prices rows ids
     = (traverse market_price (rows_present rows ids), ids))
  /\ Seller.create_prices [example_row] example_ids
     = (Ok [{| Seller.auto_action_enabled := "UNKNOWN";
               Seller.currency_code := "RUB";
               Seller.price_offer_id := "69791";
               Seller.old_price := "0";
               Seller.price := "550" |}], example_ids)
  /\ Market.create_prices [example_row] example_ids
     = (Ok [{| Market.id := "69791";
               Market.price := {| Market.value := 550;
                                  Market.currencyId := "RUR" |} |}],
        example_ids).
Proof.
  split; [exact seller_create_prices_run |].
  split; [exact market_create_prices_run |].
  split; reflexivity.
Qed.

(** ** The Offer Catalog Fetcher *)

Lemma seller_loop_reply fuel token acc (r : result Seller.page) rs reqs :
  Seller.get_offer_ids_loop (S fuel) token acc
    {| replies := r :: rs; requests := reqs |} =
  let c := {| replies := rs; requests := reqs ++ [token] |} in
  match r with
  | Ok p =>
      if Seller.total p =? Z.of_nat (length (acc ++ Seller.items p))
      then (Ok (acc ++ Seller.items p), c)
      else Seller.get_offer_ids_loop fuel (Seller.last_id p)
             (acc ++ Seller.items p) c
  | Raise e => (Raise e, c)
  | Blocked => (Blocked, c)
  end.
Proof.
  cbn [Seller.get_offer_ids_loop].
  unfold bind, Seller.get_product_list, get_page. cbn [replies requests].
  destruct r as [p|e|]; try reflexivity.
  destruct (Seller.total p =? Z.of_nat (length (acc ++ Seller.items p)));
    reflexivity.
Qed.

(** The loop runs through pages that do not close the listing. *)
Lemma seller_loop_continue pre : forall fuel token acc reqs tail,
  seller_all_continue (length acc) pre = true ->
  Seller.get_offer_ids_loop (length pre + fuel) token acc
    {| replies := (Ok <$> pre) ++ tail; requests := reqs |} =
  Seller.get_offer_ids_loop fuel (seller_next_token token pre)
    (acc ++ seller_items pre)
    {| replies := tail; requests := reqs ++ seller_tokens token pre |}.
Proof.
  induction pre as [|p pre IH]; intros fuel token acc reqs tail Hgo.
  - cbn. rewrite !app_nil_r. reflexivity.
  - cbn [seller_all_continue] in Hgo.
    apply andb_true_iff in Hgo as [Hp Hgo]. apply negb_true_iff in Hp.
    rewrite fmap_cons. cbn [length Nat.add app].
    rewrite seller_loop_reply. cbv zeta.
    rewrite length_app, Hp, IH by (rewrite length_app; exact Hgo).
    unfold seller_items. rewrite fmap_cons. cbn [concat seller_next_token
      seller_tokens]. rewrite <- !app_assoc. reflexivity.
Qed.

Lemma market_loop_reply fuel campaign_id token acc (r : result Market.page)
    rs reqs :
  Market.get_offer_ids_loop (S fuel) campaign_id token acc
    {| replies := r :: rs; requests := reqs |} =
  let c := {| replies := rs; requests := reqs ++ [(campaign_id, token)] |} in
  match r with
  | Ok p =>
      if Market.falsy (market_token p)
      then (Ok (acc ++ Market.offerMappingEntries p), c)
      else Market.get_offer_ids_loop fuel campaign_id
             (default "" (market_token p))
             (acc ++ Market.offerMappingEntries p) c
  | Raise e => (Raise e, c)
  | Blocked => (Blocked, c)
  end.
Proof.
  cbn [Market.get_offer_ids_loop].
  unfold bind, Market.get_product_list, get_page, market_token.
  cbn [replies requests].
  destruct r as [p|e|]; try reflexivity.
  destruct (Market.falsy (Market.nextPageToken (Market.page_paging p)));
    reflexivity.
Qed.

Lemma market_loop_continue campaign_id pre : forall fuel token acc reqs tail,
  market_all_continue pre = true ->
  Market.get_offer_ids_loop (length pre + fuel) campaign_id token acc
    {| replies := (Ok <$> pre) ++ tail; requests := reqs |} =
  Market.get_offer_ids_loop fuel campaign_id (market_next_token token pre)
    (acc ++ market_entries pre)
    {| replies := tail;
       requests := reqs ++ market_tokens campaign_id token pre |}.
Proof.
  induction pre as [|p pre IH]; intros fuel token acc reqs tail Hgo.
  - cbn. rewrite !app_nil_r. reflexivity.
  - cbn [market_all_continue forallb] in Hgo.
    apply andb_true_iff in Hgo as [Hp Hgo]. apply negb_true_iff in Hp.
    rewrite fmap_cons. cbn [length Nat.add app].
    rewrite market_loop_reply. cbv zeta.
    rewrite Hp, IH by exact Hgo.
    unfold market_entries. rewrite fmap_cons. cbn [concat market_next_token
      market_tokens]. rewrite <- !app_assoc. reflexivity.
Qed.

Lemma seller_items_snoc pre last :
  seller_items (pre ++ [last]) = seller_items pre ++ Seller.items last.
Proof.
  unfold seller_items. rewrite fmap_app, concat_app. simpl.
  rewrite app_nil_r. reflexivity.
Qed.

Lemma market_entries_snoc pre last :
  market_entries (pre ++ [last])
  = market_entries pre ++ Market.offerMappingEntries last.
Proof.
  unfold market_entries. rewrite fmap_app, concat_app. simpl.
  rewrite app_nil_r. reflexivity.
Qed.

(** The fuel of the loops is never what stops them: when every scripted
    page asks for another one, the run ends [Blocked] on the request the
    script cannot answer. *)
Lemma seller_get_offer_ids_blocked pre reqs :
  seller_all_continue 0 pre = true ->
  Seller.get_offer_ids {| replies := Ok <$> pre; requests := reqs |}
  = (Blocked,
     {| replies := []; requests := reqs ++ seller_tokens "" pre |}).
Proof.
  intros Hgo. unfold Seller.get_offer_ids, bind at 1, get. cbn [replies].
  rewrite length_fmap.
  replace (S (length pre)) with (length pre + 1)%nat by lia.
  rewrite <- (app_nil_r (Ok <$> pre)). unfold bind at 1.
  rewrite (seller_loop_continue pre 1 "" [] reqs []) by exact Hgo.
  reflexivity.
Qed.

Lemma market_get_offer_ids_blocked campaign_id pre reqs :
  market_all_continue pre = true ->
  Market.get_offer_ids campaign_id {| replies := Ok <$> pre; requests := reqs |}
  = (Blocked,
     {| replies := [];
        requests := reqs ++ market_tokens campaign_id "" pre |}).
Proof.
  intros Hgo. unfold Market.get_offer_ids, bind at 1, get. cbn [replies].
  rewrite length_fmap.
  replace (S (length pre)) with (length pre + 1)%nat by lia.
  rewrite <- (app_nil_r (Ok <$> pre)). unfold bind at 1.
  rewrite (market_loop_continue campaign_id pre 1 "" [] reqs []) by exact Hgo.
  reflexivity.
Qed.

(** C9. [get_offer_ids] takes the replies of the list-products endpoint in
    order.  While the pages do not close the listing it goes on; at the
    first page that does (Ozon: the running item count equals the reported
    total; Yandex Market: the continuation token is missing or empty) it
    returns the offer ids of all the items accumulated, in order; when a
    reply is a failure instead, it raises that very error and returns
    nothing. *)
Theorem get_offer_ids_pages_or_error :
  (forall pre last tail reqs,
     seller_all_continue 0 pre = true ->
     Seller.total last = Z.of_nat (length (seller_items (pre ++ [last]))) ->
     Seller.get_offer_ids
       {| replies := (Ok <$> pre) ++ Ok last :: tail; requests := reqs |}
     = (Ok (Seller.product_offer_id <$> seller_items (pre ++ [last])),
        {| replies := tail;
           requests := reqs ++ seller_tokens "" (pre ++ [last]) |}))
  /\
  (forall pre e tail reqs,
     seller_all_continue 0 pre = true ->
     Seller.get_offer_ids
       {| replies := (Ok <$> pre) ++ Raise e :: tail; requests := reqs |}
     = (Raise e,
        {| replies := tail;
           requests := reqs ++ seller_tokens "" pre
                       ++ [seller_next_token "" pre] |}))
  /\
  (forall campaign_id pre last tail reqs,
     market_all_continue pre = true ->
     Market.falsy (market_token last) = true ->
     Market.get_offer_ids campaign_id
       {| replies := (Ok <$> pre) ++ Ok last :: tail; requests := reqs |}
     = (Ok ((fun e => Market.shopSku (Market.entry_offer e))
              <$> market_entries (pre ++ [last])),
        {| replies := tail;
           requests := reqs ++ market_tokens campaign_id "" (pre ++ [last]) |}))
  /\
  (forall campaign_id pre e tail reqs,
     market_all_continue pre = true ->
     Market.get_offer_ids campaign_id
       {| replies := (Ok <$> pre) ++ Raise e :: tail; requests := reqs |}
     = (Raise e,
        {| replies := tail;
           requests := reqs ++ market_tokens campaign_id "" pre
                       ++ [(campaign_id, market_next_token "" pre)] |})).
Proof.
  assert (forall pre token (last : Seller.page),
            seller_tokens token (pre ++ [last])
            = seller_tokens token pre ++ [seller_next_token token pre])
    as Hst.
  { induction pre as [|p pre IH]; intros token last; [reflexivity |].
    cbn. rewrite IH. reflexivity. }
  assert (forall campaign_id pre token (last : Market.page),
            market_tokens campaign_id token (pre ++ [last])
            = market_tokens campaign_id token pre
              ++ [(campaign_id, market_next_token token pre)])
    as Hmt.
  { induction pre as [|p pre IH]; intros token last; [reflexivity |].
    cbn. rewrite IH. reflexivity. }
  repeat split.
  - intros pre last tail reqs Hgo Hlast.
    unfold Seller.get_offer_ids, bind at 1, get. cbn [replies].
    rewrite length_app, length_fmap. cbn [length].
    replace (S (length pre + S (length tail)))
      with (length pre + S (S (length tail)))%nat by lia.
    unfold bind at 1.
    rewrite (seller_loop_continue pre _ "" []) by exact Hgo.
    rewrite seller_loop_reply. cbv zeta. cbn [app].
    rewrite seller_items_snoc in Hlast |- *.
    rewrite Hlast, Z.eqb_refl.
    rewrite (for_fold_append Seller.product_offer_id) by reflexivity.
    rewrite Hst, app_assoc. reflexivity.
  - intros pre e tail reqs Hgo.
    unfold Seller.get_offer_ids, bind at 1, get. cbn [replies].
    rewrite length_app, length_fmap. cbn [length].
    replace (S (length pre + S (length tail)))
      with (length pre + S (S (length tail)))%nat by lia.
    unfold bind at 1.
    rewrite (seller_loop_continue pre _ "" []) by exact Hgo.
    rewrite seller_loop_reply. cbv zeta. rewrite app_assoc. reflexivity.
  - intros campaign_id pre last tail reqs Hgo Hlast.
    unfold Market.get_offer_ids, bind at 1, get. cbn [replies].
    rewrite length_app, length_fmap. cbn [length].
    replace (S (length pre + S (length tail)))
      with (length pre + S (S (length tail)))%nat by lia.
    unfold bind at 1.
    rewrite (market_loop_continue campaign_id pre _ "" []) by exact Hgo.
    rewrite market_loop_reply. cbv zeta. cbn [app]. rewrite Hlast.
    rewrite (for_fold_append (fun e => Market.shopSku (Market.entry_offer e)))
      by reflexivity.
    rewrite market_entries_snoc, Hmt, app_assoc. reflexivity.
  - intros campaign_id pre e tail reqs Hgo.
    unfold Market.get_offer_ids, bind at 1, get. cbn [replies].
    rewrite length_app, length_fmap. cbn [length].
    replace (S (length pre + S (length tail)))
      with (length pre + S (S (length tail)))%nat by lia.
    unfold bind at 1.
    rewrite (market_loop_continue campaign_id pre _ "" []) by exact Hgo.
    rewrite market_loop_reply. cbv zeta. rewrite app_assoc. reflexivity.
Qed.

(** C9 on two pages of two offers and on a failure after the first page. *)
Lemma get_offer_ids_pages_or_error_witness :
  (seller_all_continue 0 [seller_page_1] = true
   /\ Seller.total seller_page_2
      = Z.of_nat (length (seller_items ([seller_page_1] ++ [seller_page_2])))
   /\ Seller.get_offer_ids
        {| replies := (Ok <$> [seller_page_1]) ++ Ok seller_page_2 :: [];
           requests := [] |}
      = (Ok (Seller.product_offer_id
               <$> seller_items ([seller_page_1] ++ [seller_page_2])),
         {| replies := [];
            requests := [] ++ seller_tokens ""
                                ([seller_page_1] ++ [seller_page_2]) |}))
  /\
  (seller_all_continue 0 [seller_page_1] = true
   /\ Seller.get_offer_ids
        {| replies := (Ok <$> [seller_page_1])
                      ++ Raise (RequestError "401 Client Error") :: [];
           requests := [] |}
      = (Raise (RequestError "401 Client Error"),
         {| replies := [];
            requests := [] ++ seller_tokens "" [seller_page_1]
                        ++ [seller_next_token "" [seller_page_1]] |}))
  /\
  (market_all_continue [market_page_1] = true
   /\ Market.falsy (market_token market_page_2) = true
   /\ Market.get_offer_ids "123456"
        {| replies := (Ok <$> [market_page_1]) ++ Ok market_page_2 :: [];
           requests := [] |}
      = (Ok ((fun e => Market.shopSku (Market.entry_offer e))
               <$> market_entries ([market_page_1] ++ [market_page_2])),
         {| replies := [];
            requests := [] ++ market_tokens "123456" ""
                                ([market_page_1] ++ [market_page_2]) |}))
  /\
  (market_all_continue [market_page_1] = true
   /\ Market.get_offer_ids "123456"
        {| replies := (Ok <$> [market_page_1])
                      ++ Raise (RequestError "401 Client Error") :: [];
           requests := [] |}
      = (Raise (RequestError "401 Client Error"),
         {| replies := [];
            requests := [] ++ market_tokens "123456" "" [market_page_1]
                        ++ [("123456", market_next_token "" [market_page_1])] |})).
Proof.
  destruct get_offer_ids_pages_or_error as (Hs & Hse & Hm & Hme).
  split; [| split; [| split]].
  - split; [reflexivity |]. split; [reflexivity |].
    apply (Hs [seller_page_1] seller_page_2 [] []); reflexivity.
  - split; [reflexivity |].
    apply (Hse [seller_page_1] (RequestError "401 Client Error") [] []).
    reflexivity.
  - split; [reflexivity |]. split; [reflexivity |].
    apply (Hm "123456" [market_page_1] market_page_2 [] []); reflexivity.
  - split; [reflexivity |].
    apply (Hme "123456" [market_page_1] (RequestError "401 Client Error") [] []).
    reflexivity.
Defined.

(** ** The Sync Orchestrator *)

(** The number of chunks is the rounded-up quotient. *)
Lemma range_length_ceil (len : nat) (n : Z) :
  0 < n ->
  Z.of_nat (range_length 0 (Z.of_nat len) n) = (Z.of_nat len + n - 1) / n.
Proof.
  intros Hn. unfold range_length.
  destruct (Z.ltb_spec 0 n) as [_|?]; [| lia].
  destruct (Z.ltb_spec 0 (Z.of_nat len)) as [Hpos|Hzero].
  - replace (Z.of_nat len + n - 1) with (Z.of_nat len - 0 - 1 + 1 * n) by lia.
    rewrite Z.div_add by lia.
    pose proof (Z.div_pos (Z.of_nat len - 0 - 1) n ltac:(lia) Hn). lia.
  - replace (Z.of_nat len) with 0 by lia. simpl.
    rewrite Z.div_small by lia. reflexivity.
Qed.

Lemma divide_chunk_count {A} (lst : list A) (n : Z) :
  0 < n ->
  exists chunks,
    Seller.divide lst n = Ok chunks
    /\ Z.of_nat (length chunks) = (Z.of_nat (length lst) + n - 1) / n.
Proof.
  intros Hn. eexists. split; [apply divide_positive, Hn |].
  rewrite length_map, length_seq. apply range_length_ceil, Hn.
Qed.

(** With endpoints that accept every call, the batching loops make one
    call per chunk, in order, and touch nothing else. *)
Lemma seller_stock_batches c chunks : forall w : Seller.world,
  (forall chunk, Seller.stocks_reply c chunk = Ok tt) ->
  for_each chunks (fun some_stock => Seller.update_stocks c some_stock) w
  = (Ok tt, {| heap := heap w; pages := pages w;
               calls := calls w ++ (Seller.StocksCall <$> chunks) |}).
Proof.
  induction chunks as [|chunk chunks IH]; intros w Hok.
  - destruct w. cbn. rewrite app_nil_r. reflexivity.
  - cbn [for_each]. unfold bind, Seller.update_stocks, record_call.
    rewrite Hok, IH by exact Hok. cbn [heap pages calls].
    rewrite fmap_cons, <- app_assoc. reflexivity.
Qed.

Lemma seller_price_batches c chunks : forall w : Seller.world,
  (forall chunk, Seller.prices_reply c chunk = Ok tt) ->
  for_each chunks (fun some_price => Seller.update_price c some_price) w
  = (Ok tt, {| heap := heap w; pages := pages w;
               calls := calls w ++ (Seller.PricesCall <$> chunks) |}).
Proof.
  induction chunks as [|chunk chunks IH]; intros w Hok.
  - destruct w. cbn. rewrite app_nil_r. reflexivity.
  - cbn [for_each]. unfold bind, Seller.update_price, record_call.
    rewrite Hok, IH by exact Hok. cbn [heap pages calls].
    rewrite fmap_cons, <- app_assoc. reflexivity.
Qed.

(** A run of [main] in which every collaborator answers: the stock updates
    are sent in chunks of 100, and no price update is sent, because
    [create_prices] reads the list [create_stocks] has emptied of every
    matched id. *)
Lemma seller_main_run c (w : Seller.world) ids cat' rows stocks ids' :
  Seller.get_offer_ids (pages w) = (Ok ids, cat') ->
  NoDup ids ->
  Seller.feed_reply c = Ok rows ->
  Seller.create_stocks rows ids = (Ok stocks, ids') ->
  (forall chunk, Seller.stocks_reply c chunk = Ok tt) ->
  exists chunks,
    Seller.divide stocks 100 = Ok chunks
    /\ fst (Seller.main c w) = Ok tt
    /\ calls (snd (Seller.main c w))
       = calls w ++ (Seller.StocksCall <$> chunks).
Proof.
  intros Hfetch Hnd Hfeed Hstocks Hok.
  destruct (divide_chunk_count stocks 100 ltac:(lia)) as (chunks & Hdiv & _).
  exists chunks. split; [exact Hdiv |].
  destruct (seller_stocks_then_prices rows ids stocks ids' Hnd Hstocks)
    as [_ Hprices].
  unfold Seller.main, try_except, bind, with_catalog, new_list, with_list,
    Seller.download_stock, lift.
  rewrite Hfetch. cbn [heap pages calls]. rewrite Hfeed.
  rewrite lookup_insert_eq, Hstocks. cbn [heap pages calls].
  rewrite Hdiv, seller_stock_batches by exact Hok. cbn [heap pages calls].
  rewrite lookup_insert_eq, Hprices. cbn [heap pages calls].
  split; reflexivity.
Qed.

Lemma seller_upload_prices_run c (w : Seller.world) ids cat' rows prices :
  Seller.get_offer_ids (pages w) = (Ok ids, cat') ->
  fst (Seller.create_prices rows ids) = Ok prices ->
  (forall chunk, Seller.prices_reply c chunk = Ok tt) ->
  exists chunks,
    Seller.divide prices 1000 = Ok chunks
    /\ fst (Seller.upload_prices c rows w) = Ok prices
    /\ calls (snd (Seller.upload_prices c rows w))
       = calls w ++ (Seller.PricesCall <$> chunks).
Proof.
  intros Hfetch Hprices Hok.
  destruct (divide_chunk_count prices 1000 ltac:(lia)) as (chunks & Hdiv & _).
  exists chunks. split; [exact Hdiv |].
  rewrite seller_create_prices_run in Hprices. cbn [fst] in Hprices.
  unfold Seller.upload_prices, bind, with_catalog, new_list, with_list, lift,
    ret.
  rewrite Hfetch. cbn [heap pages calls].
  rewrite lookup_insert_eq, seller_create_prices_run, Hprices.
  cbn [heap pages calls].
  rewrite Hdiv, seller_price_batches by exact Hok.
  split; reflexivity.
Qed.

Lemma py_filter_total {A} (keep : A -> bool) (l : list A) :
  py_filter (fun x => Ok (keep x)) l = Ok (List.filter keep l).
Proof.
  induction l as [|x l IH]; [reflexivity |].
  cbn [py_filter result_bind List.filter]. rewrite IH. reflexivity.
Qed.

Lemma seller_upload_stocks_run c (w : Seller.world) ids cat' rows stocks ids' :
  Seller.get_offer_ids (pages w) = (Ok ids, cat') ->
  Seller.create_stocks rows ids = (Ok stocks, ids') ->
  (forall chunk, Seller.stocks_reply c chunk = Ok tt) ->
  exists chunks,
    Seller.divide stocks 100 = Ok chunks
    /\ fst (Seller.upload_stocks c rows w)
       = Ok (List.filter (fun s => negb (Seller.stock s =? 0)) stocks, stocks)
    /\ calls (snd (Seller.upload_stocks c rows w))
       = calls w ++ (Seller.StocksCall <$> chunks).
Proof.
  intros Hfetch Hstocks Hok.
  destruct (divide_chunk_count stocks 100 ltac:(lia)) as (chunks & Hdiv & _).
  exists chunks. split; [exact Hdiv |].
  unfold Seller.upload_stocks, bind, with_catalog, new_list, with_list, lift,
    ret.
  rewrite Hfetch. cbn [heap pages calls].
  rewrite lookup_insert_eq, Hstocks. cbn [heap pages calls].
  rewrite Hdiv, seller_stock_batches by exact Hok.
  rewrite py_filter_total. split; reflexivity.
Qed.

Lemma market_stock_batches c campaign_id chunks : forall w : Market.world,
  (forall chunk, Market.stocks_reply c campaign_id chunk = Ok tt) ->
  for_each chunks
    (fun some_stock => Market.update_stocks c some_stock campaign_id) w
  = (Ok tt, {| heap := heap w; pages := pages w;
               calls := calls w ++ (Market.StocksCall campaign_id <$> chunks) |}).
Proof.
  induction chunks as [|chunk chunks IH]; intros w Hok.
  - destruct w. cbn. rewrite app_nil_r. reflexivity.
  - cbn [for_each]. unfold bind, Market.update_stocks, record_call.
    rewrite Hok, IH by exact Hok. cbn [heap pages calls].
    rewrite fmap_cons, <- app_assoc. reflexivity.
Qed.

Lemma market_price_batches c campaign_id chunks : forall w : Market.world,
  (forall chunk, Market.prices_reply c campaign_id chunk = Ok tt) ->
  for_each chunks
    (fun some_prices => Market.update_price c some_prices campaign_id) w
  = (Ok tt, {| heap := heap w; pages := pages w;
               calls := calls w ++ (Market.PricesCall campaign_id <$> chunks) |}).
Proof.
  induction chunks as [|chunk chunks IH]; intros w Hok.
  - destruct w. cbn. rewrite app_nil_r. reflexivity.
  - cbn [for_each]. unfold bind, Market.update_price, record_call.
    rewrite Hok, IH by exact Hok. cbn [heap pages calls].
    rewrite fmap_cons, <- app_assoc. reflexivity.
Qed.

Lemma market_upload_prices_run c (w : Market.world) campaign_id ids cat' rows
    prices :
  Market.get_offer_ids campaign_id (pages w) = (Ok ids, cat') ->
  fst (Market.create_prices rows ids) = Ok prices ->
  (forall chunk, Market.prices_reply c campaign_id chunk = Ok tt) ->
  exists chunks,
    Seller.divide prices 500 = Ok chunks
    /\ fst (Market.upload_prices c rows campaign_id w) = Ok prices
    /\ calls (snd (Market.upload_prices c rows campaign_id w))
       = calls w ++ (Market.PricesCall campaign_id <$> chunks).
Proof.
  intros Hfetch Hprices Hok.
  destruct (divide_chunk_count prices 500 ltac:(lia)) as (chunks & Hdiv & _).
  exists chunks. split; [exact Hdiv |].
  rewrite market_create_prices_run in Hprices. cbn [fst] in Hprices.
  unfold Market.upload_prices, bind, with_catalog, new_list, with_list, lift,
    ret.
  rewrite Hfetch. cbn [heap pages calls].
  rewrite lookup_insert_eq, market_create_prices_run, Hprices.
  cbn [heap pages calls].
  rewrite Hdiv, market_price_batches by exact Hok.
  split; reflexivity.
Qed.

Lemma market_upload_stocks_run c (w : Market.world) date campaign_id
    warehouse_id ids cat' rows stocks ids' :
  Market.get_offer_ids campaign_id (pages w) = (Ok ids, cat') ->
  Market.create_stocks date rows warehouse_id ids = (Ok stocks, ids') ->
  (forall chunk, Market.stocks_reply c campaign_id chunk = Ok tt) ->
  exists chunks,
    Seller.divide stocks 2000 = Ok chunks
    /\ calls (snd (Market.upload_stocks c date rows campaign_id warehouse_id w))
       = calls w ++ (Market.StocksCall campaign_id <$> chunks).
Proof.
  intros Hfetch Hstocks Hok.
  destruct (divide_chunk_count stocks 2000 ltac:(lia)) as (chunks & Hdiv & _).
  exists chunks. split; [exact Hdiv |].
  unfold Market.upload_stocks, bind, with_catalog, new_list, with_list, lift,
    ret.
  rewrite Hfetch. cbn [heap pages calls].
  rewrite lookup_insert_eq, Hstocks. cbn [heap pages calls].
  rewrite Hdiv, market_stock_batches by exact Hok.
  destruct (py_filter _ stocks); reflexivity.
Qed.

(** [main] of [market.py] on the example: the two stock updates are sent,
    and no price update, the coroutines of [upload_prices] never being
    awaited. *)
Lemma market_main_sends_no_price :
  calls (snd (Market.main (market_accepting [example_row])
                "2025-12-14T16:30:31Z" "2025-12-14T16:30:32Z"
                "fbs" "dbs" "1" "2"
                (market_start [Ok market_example_page; Ok market_example_page])))
  = [Market.StocksCall "fbs"
       [market_stock "1" "2025-12-14T16:30:31Z" "69791" 100;
        market_stock "1" "2025-12-14T16:30:31Z" "70000" 0];
     Market.StocksCall "dbs"
       [market_stock "2" "2025-12-14T16:30:32Z" "69791" 100;
        market_stock "2" "2025-12-14T16:30:32Z" "70000" 0]].
Proof. vm_compute. reflexivity. Qed.

(** C3. On the example of the specification [main] passes one list object
    to both builds: the stock build removes "69791" from it, the price
    build then matches no feed row, and no price update is sent, although
    the price build on the fetched offer ids yields the update for
    "69791". *)
Theorem seller_main_prices_read_consumed_list :
  calls (snd (Seller.main (accepting [example_row])
                (seller_start [Ok example_page])))
  = [Seller.StocksCall [{| Seller.offer_id := "69791"; Seller.stock := 100 |};
                        {| Seller.offer_id := "70000"; Seller.stock := 0 |}]]
  /\ fst (Seller.get_offer_ids (pages (seller_start [Ok example_page])))
     = Ok example_ids
  /\ fst (Seller.create_prices [example_row] example_ids)
     = Ok [{| Seller.auto_action_enabled := "UNKNOWN";
              Seller.currency_code := "RUB";
              Seller.price_offer_id := "69791";
              Seller.old_price := "0";
              Seller.price := "550" |}].
Proof.
  split; [vm_compute; reflexivity |]. split; reflexivity.
Qed.

(** C7. [upload_prices] of [seller.py] sends 950 price updates to Ozon in
    one call: it chunks at 1000, where [main] chunks at 900 and a ceiling of
    900 asks for two calls. *)
Theorem seller_upload_prices_single_call :
  length <$> price_calls
    (calls (snd (Seller.upload_prices (accepting []) (numbered_feed 950)
                   (seller_start [Ok (numbered_page 950)]))))
  = [950%nat]
  /\ (950 + 900 - 1) / 900 = 2.
Proof.
  split; [vm_compute; reflexivity | reflexivity].
Qed.

(** C5 on the example of the docstring. *)
Lemma divide_partitions_witness :
  0 < 5 /\
  exists chunks : list (list Z),
    Seller.divide [1; 2; 3; 4; 5; 6; 7; 8; 9; 10; 11; 12] 5 = Ok chunks
    /\ concat chunks = [1; 2; 3; 4; 5; 6; 7; 8; 9; 10; 11; 12]
    /\ (forall chunk, chunk ∈ chunks -> 1 <= Z.of_nat (length chunk) <= 5)
    /\ (forall (i : nat) chunk,
          chunks !! i = Some chunk -> (i + 1 < length chunks)%nat ->
          Z.of_nat (length chunk) = 5)
    /\ ([1; 2; 3; 4; 5; 6; 7; 8; 9; 10; 11; 12] = [] -> chunks = []).
Proof.
  split; [reflexivity |].
  apply (divide_partitions [1; 2; 3; 4; 5; 6; 7; 8; 9; 10; 11; 12] 5).
  reflexivity.
Defined.

(** C6, amended, on a size of 0 and on a size of -1. *)
Lemma divide_nonpositive_size_witness :
  (0 <= 0 /\ Seller.divide [1; 2; 3] 0 = Raise ValueError)
  /\ (-1 <= 0 /\ Seller.divide [1; 2; 3] (-1) = Ok []).
Proof.
  split; (split; [discriminate |]).
  - apply (divide_nonpositive_size [1; 2; 3] 0). discriminate.
  - apply (divide_nonpositive_size [1; 2; 3] (-1)). discriminate.
Defined.

(** * Further properties of the code *)

(** ** [price_conversion] *)

Lemma price_conversion_str s :
  Seller.price_conversion (VStr s) = Ok (digits_only (left_of_first_dot s)).
Proof.
  unfold Seller.price_conversion.
  rewrite py_first_split, py_split_dot_head. cbn [result_bind].
  rewrite re_sub_non_digits. reflexivity.
Qed.

Lemma all_digits_digits_only s : all_digits (digits_only s) = true.
Proof.
  induction s as [|c s IH]; [reflexivity |]. cbn [digits_only].
  destruct (is_digit c) eqn:Hc; [| exact IH].
  cbn [all_digits]. rewrite Hc, IH. reflexivity.
Qed.

Lemma dot_is_no_digit c : Ascii.eqb c "." = true -> is_digit c = false.
Proof. intros H. apply Ascii.eqb_eq in H. subst c. reflexivity. Qed.

Lemma all_digits_fixed s :
  all_digits s = true -> digits_only (left_of_first_dot s) = s.
Proof.
  induction s as [|c s IH]; [reflexivity |]. cbn [all_digits].
  intros H. apply andb_true_iff in H as [Hc Hs].
  cbn [left_of_first_dot].
  destruct (Ascii.eqb c ".") eqn:Hdot;
    [apply dot_is_no_digit in Hdot; congruence |].
  cbn [digits_only]. rewrite Hc, (IH Hs). reflexivity.
Qed.

Lemma length_digits_only s :
  (String.length (digits_only s) <= String.length s)%nat.
Proof.
  induction s as [|c s IH]; [reflexivity |]. cbn [digits_only].
  destruct (is_digit c); cbn [String.length]; lia.
Qed.

Lemma length_left_of_first_dot s :
  (String.length (left_of_first_dot s) <= String.length s)%nat.
Proof.
  induction s as [|c s IH]; [reflexivity |]. cbn [left_of_first_dot].
  destruct (Ascii.eqb c "."); cbn [String.length]; lia.
Qed.

(** X1. On a string [price_conversion] never raises; its result holds
    digits only, is no longer than the input, and is left as it is by a
    second conversion.  On [None] and on an integer it raises
    [AttributeError]. *)
Theorem price_conversion_digits_idempotent :
  (forall s, exists d,
     Seller.price_conversion (VStr s) = Ok d
     /\ all_digits d = true
     /\ (String.length d <= String.length s)%nat
     /\ Seller.price_conversion (VStr d) = Ok d)
  /\ Seller.price_conversion VNone = Raise AttributeError
  /\ (forall z, Seller.price_conversion (VInt z) = Raise AttributeError).
Proof.
  split; [| split; [reflexivity | intros z; reflexivity]].
  intros s. exists (digits_only (left_of_first_dot s)).
  split; [apply price_conversion_str |].
  split; [apply all_digits_digits_only |].
  split.
  - etransitivity; [apply length_digits_only | apply length_left_of_first_dot].
  - rewrite price_conversion_str.
    f_equal. apply all_digits_fixed, all_digits_digits_only.
Qed.

(** ** The payloads of [create_prices] *)

Lemma traverse_elem {A B} (f : A -> result B) (l : list A) : forall ys,
  traverse f l = Ok ys ->
  forall y, y ∈ ys -> exists x, x ∈ l /\ f x = Ok y.
Proof.
  induction l as [|x l IH]; intros ys; cbn [traverse].
  - intros [= <-] y Hy. inversion Hy.
  - destruct (f x) as [y0| |] eqn:Hx; cbn [result_bind]; try discriminate.
    destruct (traverse f l) as [ys0| |]; cbn [result_bind]; try discriminate.
    intros [= <-] y Hy. apply elem_of_cons in Hy as [->|Hy].
    + exists x. split; [left | exact Hx].
    + destruct (IH ys0 eq_refl y Hy) as (x' & Hx' & Hfx').
      exists x'. split; [right; exact Hx' | exact Hfx'].
Qed.

Lemma digit_value_nonneg c : is_digit c = true -> 0 <= digit_value c.
Proof.
  unfold is_digit, digit_value. intros H.
  apply andb_true_iff in H as [H _]. apply Nat.leb_le in H. lia.
Qed.

Lemma parse_digits_nonneg s : forall acc after v,
  0 <= acc -> parse_digits acc after s = Some v -> 0 <= v.
Proof.
  induction s as [|c s IH]; intros acc after v Hacc; cbn [parse_digits].
  - destruct after; [intros [= <-]; exact Hacc | discriminate].
  - destruct (is_digit c) eqn:Hc.
    + apply IH. pose proof (digit_value_nonneg c Hc). lia.
    + destruct (Ascii.eqb c "_" && after); [apply IH, Hacc | discriminate].
Qed.

Lemma digit_is_no_space c : is_digit c = true -> is_space c = false.
Proof.
  unfold is_digit, is_space. intros H.
  apply andb_true_iff in H as [Hlo Hhi].
  apply Nat.leb_le in Hlo. apply Nat.leb_le in Hhi.
  apply orb_false_iff. split.
  - apply andb_false_iff. right. apply Nat.leb_gt. lia.
  - apply Nat.eqb_neq. lia.
Qed.

Lemma lstrip_digits s : all_digits s = true -> lstrip s = s.
Proof.
  destruct s as [|c s]; [reflexivity |]. cbn [all_digits lstrip].
  intros H. apply andb_true_iff in H as [Hc _].
  rewrite (digit_is_no_space c Hc). reflexivity.
Qed.

Lemma rstrip_digits s : all_digits s = true -> rstrip s = s.
Proof.
  induction s as [|c s IH]; [reflexivity |]. cbn [all_digits rstrip].
  intros H. apply andb_true_iff in H as [Hc Hs].
  rewrite (IH Hs), (digit_is_no_space c Hc). destruct s; reflexivity.
Qed.

Lemma int_of_str_ascii s :
  is_ascii s = true -> int_of_str s = long_from_string s.
Proof. intros H. unfold int_of_str. rewrite H. reflexivity. Qed.

Lemma all_digits_is_ascii s : all_digits s = true -> is_ascii s = true.
Proof.
  induction s as [|c s IH]; [reflexivity |]. cbn [all_digits is_ascii].
  intros H. apply andb_true_iff in H as [Hc Hs]. rewrite (IH Hs).
  rewrite andb_true_r. unfold is_digit in Hc. unfold byte_value.
  apply andb_true_iff in Hc as [_ Hhi]. apply Nat.leb_le in Hhi.
  apply Z.ltb_lt. lia.
Qed.

(** A string of digits parses as it stands: no blank is stripped and no
    sign is read. *)
Lemma int_of_str_digits s :
  all_digits s = true ->
  int_of_str s = match parse_digits 0 false s with
                 | Some z => Ok z
                 | None => Raise ValueError
                 end.
Proof.
  intros H. rewrite (int_of_str_ascii s (all_digits_is_ascii s H)).
  unfold long_from_string.
  rewrite (lstrip_digits s H), (rstrip_digits s H).
  destruct s as [|c s]; [reflexivity |].
  cbn [all_digits] in H. apply andb_true_iff in H as [Hc _].
  destruct c as [[] [] [] [] [] [] [] []]; try discriminate Hc; reflexivity.
Qed.

(** X2. Every price update [create_prices] returns carries an offer id of
    the list it was given.  For Ozon the currency is "RUB", the old price
    "0", the action flag "UNKNOWN" and the price a string of digits; for
    Yandex Market the currency is "RUR" and the price value is not
    negative. *)
Theorem create_prices_payload_invariants rows ids :
  (forall prices,
     fst (Seller.create_prices rows ids) = Ok prices ->
     forall p, p ∈ prices ->
       Seller.price_offer_id p ∈ ids
       /\ Seller.currency_code p = "RUB"
       /\ Seller.old_price p = "0"
       /\ Seller.auto_action_enabled p = "UNKNOWN"
       /\ all_digits (Seller.price p) = true)
  /\
  (forall prices,
     fst (Market.create_prices rows ids) = Ok prices ->
     forall p, p ∈ prices ->
       Market.id p ∈ ids
       /\ Market.currencyId (Market.price p) = "RUR"
       /\ 0 <= Market.value (Market.price p)).
Proof.
  split.
  - intros prices Hrun p Hp.
    rewrite seller_create_prices_run in Hrun. cbn [fst] in Hrun.
    destruct (traverse_elem _ _ _ Hrun p Hp) as (row & Hrow & Hprice).
    apply list_elem_of_filter in Hrow as [Hin _].
    unfold seller_price in Hprice.
    destruct (Seller.price_conversion (priceLabel row)) as [d| |] eqn:Hd;
      cbn [result_bind] in Hprice; try discriminate.
    injection Hprice as <-. cbn.
    repeat split; try exact Hin.
    destruct (priceLabel row) as [|z|s]; try discriminate.
    rewrite price_conversion_str in Hd. injection Hd as <-.
    apply all_digits_digits_only.
  - intros prices Hrun p Hp.
    rewrite market_create_prices_run in Hrun. cbn [fst] in Hrun.
    destruct (traverse_elem _ _ _ Hrun p Hp) as (row & Hrow & Hprice).
    apply list_elem_of_filter in Hrow as [Hin _].
    unfold market_price in Hprice.
    destruct (Seller.price_conversion (priceLabel row)) as [d| |] eqn:Hd;
      cbn [result_bind] in Hprice; try discriminate.
    destruct (int_of_str d) as [v| |] eqn:Hv;
      cbn [result_bind] in Hprice; try discriminate.
    injection Hprice as <-. cbn.
    repeat split; try exact Hin.
    destruct (priceLabel row) as [|z|s]; try discriminate.
    rewrite price_conversion_str in Hd. injection Hd as <-.
    rewrite int_of_str_digits in Hv by apply all_digits_digits_only.
    destruct (parse_digits 0 false (digits_only (left_of_first_dot s)))
      as [v'|] eqn:Hparse; [| discriminate].
    injection Hv as <-.
    apply (parse_digits_nonneg _ 0 false v' ltac:(lia) Hparse).
Qed.

(** X2 on the example of the specification. *)
Lemma create_prices_payload_invariants_witness :
  (forall p,
     p ∈ [{| Seller.auto_action_enabled := "UNKNOWN";
             Seller.currency_code := "RUB";
             Seller.price_offer_id := "69791";
             Seller.old_price := "0";
             Seller.price := "550" |}] ->
     Seller.price_offer_id p ∈ example_ids
     /\ Seller.currency_code p = "RUB"
     /\ Seller.old_price p = "0"
     /\ Seller.auto_action_enabled p = "UNKNOWN"
     /\ all_digits (Seller.price p) = true)
  /\
  (forall p,
     p ∈ [{| Market.id := "69791";
             Market.price := {| Market.value := 550;
                                Market.currencyId := "RUR" |} |}] ->
     Market.id p ∈ example_ids
     /\ Market.currencyId (Market.price p) = "RUR"
     /\ 0 <= Market.value (Market.price p)).
Proof.
  split.
  - apply (proj1 (create_prices_payload_invariants [example_row] example_ids)).
    reflexivity.
  - apply (proj2 (create_prices_payload_invariants [example_row] example_ids)).
    reflexivity.
Defined.

(** ** [create_stocks]: what it accounts for, and when it raises *)

Lemma list_remove_sublist x l l' :
  list_remove x l = Some l' -> l' `sublist_of` l.
Proof.
  revert l'. induction l as [|y l IH]; intros l'; cbn [list_remove];
    [discriminate |].
  destruct (String.eqb y x).
  - intros [= <-]. apply sublist_cons. reflexivity.
  - destruct (list_remove x l) as [r|]; [| discriminate].
    intros [= <-]. apply sublist_skip, IH. reflexivity.
Qed.

Lemma without_sublist x l : without x l `sublist_of` l.
Proof.
  unfold without. destruct (list_remove x l) as [l'|] eqn:Hl'; [| reflexivity].
  apply (list_remove_sublist x), Hl'.
Qed.

Lemma leftoverIds_sublist rows : forall ids, leftoverIds rows ids `sublist_of` ids.
Proof.
  induction rows as [|row rows IH]; intros ids; cbn [leftoverIds];
    [reflexivity |].
  destruct (list_contains (code_str row) ids); [| apply IH].
  etransitivity; [apply IH | apply without_sublist].
Qed.

Lemma long_from_string_errors s e :
  long_from_string s = Raise e -> e = ValueError.
Proof.
  unfold long_from_string.
  destruct (rstrip (lstrip s)) as [|c t].
  - cbn. intros [= <-]. reflexivity.
  - destruct c as [[] [] [] [] [] [] [] []];
      match goal with
      | |- context [parse_digits 0 false ?u] =>
          destruct (parse_digits 0 false u); cbn [result_bind];
          intros H; inversion H; reflexivity
      end.
Qed.

Lemma long_from_string_not_blocked s : long_from_string s <> Blocked.
Proof.
  unfold long_from_string.
  destruct (rstrip (lstrip s)) as [|c t]; [cbn; discriminate |].
  destruct c as [[] [] [] [] [] [] [] []];
    match goal with
    | |- context [parse_digits 0 false ?u] =>
        destruct (parse_digits 0 false u); cbn [result_bind]; discriminate
    end.
Qed.

Lemma py_int_errors v e :
  py_int v = Raise e -> e = ValueError \/ e = TypeError.
Proof.
  destruct v as [|z|s]; cbn [py_int]; [intros [= <-]; right; reflexivity
                                      | discriminate |].
  unfold int_of_str. intros H. left.
  destruct (is_ascii s); [exact (long_from_string_errors _ _ H) |].
  destruct (code_points s) as [chars|];
    [exact (long_from_string_errors _ _ H) | congruence].
Qed.

Lemma py_int_not_blocked v : py_int v <> Blocked.
Proof.
  destruct v as [|z|s]; cbn [py_int]; [discriminate | discriminate |].
  unfold int_of_str.
  destruct (is_ascii s); [apply long_from_string_not_blocked |].
  destruct (code_points s) as [chars|];
    [apply long_from_string_not_blocked | discriminate].
Qed.

Lemma resolvedCount_cases row :
  (py_str (quantityLabel row) = ">10" /\ resolvedCount row = Ok 100)
  \/ (py_str (quantityLabel row) = "1" /\ resolvedCount row = Ok 0)
  \/ (py_str (quantityLabel row) <> ">10"
      /\ py_str (quantityLabel row) <> "1"
      /\ resolvedCount row = py_int (quantityLabel row)).
Proof.
  unfold resolvedCount. cbv zeta.
  destruct (decide (py_str (quantityLabel row) = ">10")) as [H10|H10];
    [left; split; [exact H10 | reflexivity] |].
  destruct (decide (py_str (quantityLabel row) = "1")) as [H1|H1];
    [right; left; split; [exact H1 | reflexivity] |].
  right; right. repeat split; assumption.
Qed.

Section ClaimLoopOutcome.
Context {B : Type} (update : string -> Z -> B).

(** A raise of the matching comes from the [int] of a matched row. *)
Lemma matchedUpdates_raise rows : forall ids e,
  matchedUpdates update rows ids = Raise e ->
  exists row,
    row ∈ rows /\ code_str row ∈ ids
    /\ py_str (quantityLabel row) <> ">10"
    /\ py_str (quantityLabel row) <> "1"
    /\ py_int (quantityLabel row) = Raise e.
Proof.
  induction rows as [|row rows IH]; intros ids e; cbn [matchedUpdates];
    [discriminate |].
  destruct (list_contains (code_str row) ids) eqn:Hin.
  - destruct (resolvedCount row) as [n|e'|] eqn:Hcount; cbn [result_bind].
    + destruct (matchedUpdates update rows (without (code_str row) ids))
        as [us|e'|] eqn:Hrest; cbn [result_bind]; try discriminate.
      intros [= ->]. destruct (IH _ _ Hrest) as (r & Hr & Hrin & Hrest').
      exists r. split; [right; exact Hr |]. split; [| exact Hrest'].
      apply (elem_of_sublist _ _ _ Hrin), without_sublist.
    + intros [= ->]. exists row. split; [left |].
      split; [apply list_contains_elem_of, Hin |].
      destruct (resolvedCount_cases row) as [[_ H]|[[_ H]|(H10 & H1 & H)]];
        try congruence.
      repeat split; congruence.
    + discriminate.
  - intros Hrest. destruct (IH _ _ Hrest) as (r & Hr & Hrest').
    exists r. split; [right; exact Hr | exact Hrest'].
Qed.

Lemma matchedUpdates_not_blocked rows : forall ids,
  matchedUpdates update rows ids <> Blocked.
Proof.
  induction rows as [|row rows IH]; intros ids; cbn [matchedUpdates];
    [discriminate |].
  destruct (list_contains (code_str row) ids); [| apply IH].
  destruct (resolvedCount row) as [n|e'|] eqn:Hcount; cbn [result_bind].
  - specialize (IH (without (code_str row) ids)).
    destruct (matchedUpdates update rows (without (code_str row) ids));
      cbn [result_bind]; congruence.
  - discriminate.
  - destruct (resolvedCount_cases row) as [[_ H]|[[_ H]|(_ & _ & H)]];
      try congruence.
    exfalso. apply (py_int_not_blocked (quantityLabel row)). congruence.
Qed.

(** When every row's label resolves, the matching returns. *)
Lemma matchedUpdates_returns rows :
  (forall row, row ∈ rows -> exists n, resolvedCount row = Ok n) ->
  forall ids, exists us, matchedUpdates update rows ids = Ok us.
Proof.
  induction rows as [|row rows IH]; intros Hall ids; cbn [matchedUpdates];
    [eauto |].
  assert (forall r, r ∈ rows -> exists n, resolvedCount r = Ok n) as Hrest
    by (intros r Hr; apply Hall; right; exact Hr).
  destruct (list_contains (code_str row) ids); [| apply IH, Hrest].
  destruct (Hall row ltac:(left)) as [n ->]. cbn [result_bind].
  destruct (IH Hrest (without (code_str row) ids)) as [us ->].
  cbn [result_bind]. eauto.
Qed.

Context (body : feed_row -> list B -> M (list string) (list B)).
Hypothesis body_step :
  forall row acc ids, body row acc ids = claim_step update row acc ids.

(** Whatever the outcome, the loop only removes entries. *)
Lemma claim_loop_sublist rows : forall acc ids,
  snd (for_fold rows body acc ids) `sublist_of` ids.
Proof.
  induction rows as [|row rows IH]; intros acc ids; [reflexivity |].
  rewrite for_fold_cons, body_step. unfold claim_step.
  destruct (list_contains (code_str row) ids); [| apply IH].
  destruct (resolvedCount row) as [n|e|]; cbn [snd]; try reflexivity.
  etransitivity; [apply IH | apply without_sublist].
Qed.

End ClaimLoopOutcome.

Lemma seller_create_stocks_sublist rows ids :
  snd (Seller.create_stocks rows ids) `sublist_of` ids.
Proof.
  unfold Seller.create_stocks.
  match goal with
  | |- context [for_fold rows ?b []] => set (body := b)
  end.
  assert (forall row acc ids, body row acc ids = claim_step seller_stock row acc ids)
    as Hbody by (subst body; claim_step_tac).
  pose proof (claim_loop_sublist seller_stock body Hbody rows [] ids) as Hsub.
  unfold bind at 1.
  destruct (for_fold rows body [] ids) as [[stocks|e|] ids1];
    cbn [snd] in Hsub |- *; try exact Hsub.
  unfold bind, get.
  rewrite (for_fold_append (fun id => seller_stock id 0)) by reflexivity.
  exact Hsub.
Qed.

Lemma market_create_stocks_sublist date rows warehouse_id ids :
  snd (Market.create_stocks date rows warehouse_id ids) `sublist_of` ids.
Proof.
  unfold Market.create_stocks.
  match goal with
  | |- context [for_fold rows ?b []] => set (body := b)
  end.
  assert (forall row acc ids,
            body row acc ids
            = claim_step (market_stock warehouse_id date) row acc ids)
    as Hbody by (subst body; claim_step_tac).
  pose proof (claim_loop_sublist _ body Hbody rows [] ids) as Hsub.
  unfold bind at 1.
  destruct (for_fold rows body [] ids) as [[stocks|e|] ids1];
    cbn [snd] in Hsub |- *; try exact Hsub.
  unfold bind, get.
  rewrite (for_fold_append (fun id => market_stock warehouse_id date id 0))
    by reflexivity.
  exact Hsub.
Qed.

(** X3. Whatever the offer-id list (repeated ids included), when
    [create_stocks] returns, the offer ids of its updates are the entries
    of the list, rearranged: one update per entry.  The list is left a
    subsequence of what it was, and the updates end with one zero-count
    update per entry left.  In [seller.py] and in [market.py]. *)
Theorem create_stocks_one_update_per_entry rows ids :
  (forall stocks ids',
     Seller.create_stocks rows ids = (Ok stocks, ids') ->
     Seller.offer_id <$> stocks ≡ₚ ids
     /\ length stocks = length ids
     /\ ids' `sublist_of` ids
     /\ drop (length stocks - length ids') stocks
        = (fun id => seller_stock id 0) <$> ids')
  /\
  (forall date warehouse_id stocks ids',
     Market.create_stocks date rows warehouse_id ids = (Ok stocks, ids') ->
     Market.sku <$> stocks ≡ₚ ids
     /\ length stocks = length ids
     /\ ids' `sublist_of` ids
     /\ drop (length stocks - length ids') stocks
        = (fun id => market_stock warehouse_id date id 0) <$> ids').
Proof.
  split.
  - intros stocks ids' Hrun.
    apply seller_create_stocks_state in Hrun as (-> & us & Hus & ->).
    assert (Seller.offer_id
              <$> us ++ ((fun id => seller_stock id 0) <$> leftoverIds rows ids)
            ≡ₚ ids) as Hperm.
    { rewrite fmap_app, (fmap_key_update Seller.offer_id seller_stock)
        by reflexivity.
      apply (matched_leftover_Permutation seller_stock Seller.offer_id rows);
        [reflexivity | exact Hus]. }
    split; [exact Hperm |].
    split; [rewrite <- (Permutation_length Hperm), length_fmap; reflexivity |].
    split; [apply leftoverIds_sublist |].
    rewrite length_app, length_fmap.
    replace (length us + length (leftoverIds rows ids)
             - length (leftoverIds rows ids))%nat with (length us) by lia.
    apply drop_app_length.
  - intros date warehouse_id stocks ids' Hrun.
    apply market_create_stocks_state in Hrun as (-> & us & Hus & ->).
    assert (Market.sku
              <$> us ++ ((fun id => market_stock warehouse_id date id 0)
                           <$> leftoverIds rows ids)
            ≡ₚ ids) as Hperm.
    { rewrite fmap_app,
        (fmap_key_update Market.sku (market_stock warehouse_id date))
        by reflexivity.
      apply (matched_leftover_Permutation (market_stock warehouse_id date)
               Market.sku rows); [reflexivity | exact Hus]. }
    split; [exact Hperm |].
    split; [rewrite <- (Permutation_length Hperm), length_fmap; reflexivity |].
    split; [apply leftoverIds_sublist |].
    rewrite length_app, length_fmap.
    replace (length us + length (leftoverIds rows ids)
             - length (leftoverIds rows ids))%nat with (length us) by lia.
    apply drop_app_length.
Qed.

(** X3 on an offer id listed twice. *)
Lemma create_stocks_one_update_per_entry_witness :
  Seller.offer_id <$> [seller_stock "69791" 100; seller_stock "69791" 0]
    ≡ₚ ["69791"; "69791"]
  /\ length [seller_stock "69791" 100; seller_stock "69791" 0]
     = length ["69791"; "69791"]
  /\ ["69791"] `sublist_of` ["69791"; "69791"]
  /\ drop (length [seller_stock "69791" 100; seller_stock "69791" 0]
           - length ["69791"])
       [seller_stock "69791" 100; seller_stock "69791" 0]
     = (fun id => seller_stock id 0) <$> ["69791"].
Proof.
  apply (proj1 (create_stocks_one_update_per_entry [example_row]
                  ["69791"; "69791"])).
  reflexivity.
Defined.

(** X4. [create_stocks] raises only the error of the [int] of a feed row
    whose code is in the list and whose label is neither ">10" nor "1": a
    [ValueError] or a [TypeError], never the [ValueError] of
    [offer_ids.remove].  The list is then left a subsequence of what it
    was.  When the label of every row resolves, the call returns. *)
Theorem create_stocks_raises_only_from_int rows ids :
  (forall e ids',
     Seller.create_stocks rows ids = (Raise e, ids') ->
     (exists row,
        row ∈ rows /\ code_str row ∈ ids
        /\ py_str (quantityLabel row) <> ">10"
        /\ py_str (quantityLabel row) <> "1"
        /\ py_int (quantityLabel row) = Raise e)
     /\ (e = ValueError \/ e = TypeError)
     /\ ids' `sublist_of` ids)
  /\
  ((forall row, row ∈ rows ->
      py_str (quantityLabel row) = ">10"
      \/ py_str (quantityLabel row) = "1"
      \/ exists n, py_int (quantityLabel row) = Ok n) ->
   exists stocks ids', Seller.create_stocks rows ids = (Ok stocks, ids')).
Proof.
  split.
  - intros e ids' Hrun.
    pose proof (seller_create_stocks_result rows ids) as Hres.
    pose proof (seller_create_stocks_sublist rows ids) as Hsub.
    rewrite Hrun in Hres, Hsub. cbn [fst snd] in Hres, Hsub.
    unfold buildStockUpdates in Hres.
    destruct (matchedUpdates seller_stock rows ids) as [us|e'|] eqn:Hm;
      cbn [result_bind] in Hres; try discriminate.
    injection Hres as <-.
    destruct (matchedUpdates_raise _ _ _ _ Hm) as (row & Hrow & Hin & H10 & H1 & Hint).
    split; [exists row; repeat split; assumption |].
    split; [apply (py_int_errors _ _ Hint) | exact Hsub].
  - intros Hall.
    assert (forall row, row ∈ rows -> exists n, resolvedCount row = Ok n)
      as Hres.
    { intros row Hrow.
      destruct (resolvedCount_cases row) as [[_ H]|[[_ H]|(H10 & H1 & H)]];
        [eauto | eauto |].
      destruct (Hall row Hrow) as [?|[?|[n Hn]]]; try contradiction.
      exists n. congruence. }
    destruct (matchedUpdates_returns seller_stock rows Hres ids) as [us Hus].
    pose proof (seller_create_stocks_result rows ids) as Hfst.
    unfold buildStockUpdates in Hfst. rewrite Hus in Hfst.
    cbn [result_bind] in Hfst.
    destruct (Seller.create_stocks rows ids) as [r ids'].
    cbn [fst] in Hfst. subst r. eauto.
Qed.

(** X4 on a label that is no number, on "8" preceded by the separator
    0x1c, which [int] rejects, on the example of the specification, and on
    "5" followed by a no-break space, which [int] accepts. *)
Lemma create_stocks_raises_only_from_int_witness :
  ((exists row,
      row ∈ [row_labelled "нет"] /\ code_str row ∈ example_ids
      /\ py_str (quantityLabel row) <> ">10"
      /\ py_str (quantityLabel row) <> "1"
      /\ py_int (quantityLabel row) = Raise ValueError)
   /\ (ValueError = ValueError \/ ValueError = TypeError)
   /\ example_ids `sublist_of` example_ids)
  /\
  ((exists row,
      row ∈ [row_labelled separator_eight] /\ code_str row ∈ example_ids
      /\ py_str (quantityLabel row) <> ">10"
      /\ py_str (quantityLabel row) <> "1"
      /\ py_int (quantityLabel row) = Raise ValueError)
   /\ (ValueError = ValueError \/ ValueError = TypeError)
   /\ example_ids `sublist_of` example_ids)
  /\
  (exists stocks ids',
     Seller.create_stocks [example_row] example_ids = (Ok stocks, ids'))
  /\
  (exists stocks ids',
     Seller.create_stocks [row_labelled five_nbsp] example_ids
     = (Ok stocks, ids')).
Proof.
  split; [| split; [| split]].
  - apply (proj1 (create_stocks_raises_only_from_int [row_labelled "нет"]
                    example_ids)).
    reflexivity.
  - apply (proj1 (create_stocks_raises_only_from_int
                    [row_labelled separator_eight] example_ids)).
    reflexivity.
  - apply (proj2 (create_stocks_raises_only_from_int [example_row]
                    example_ids)).
    intros row Hrow. apply list_elem_of_singleton in Hrow. subst row.
    left. reflexivity.
  - apply (proj2 (create_stocks_raises_only_from_int
                    [row_labelled five_nbsp] example_ids)).
    intros row Hrow. apply list_elem_of_singleton in Hrow. subst row.
    right. right. exists 5. reflexivity.
Defined.

(** X5. With no feed row, [create_stocks] zeroes every offer id and
    [create_prices] returns nothing; with no offer id, both return nothing
    and touch no label, whatever the feed holds.  In [seller.py] and in
    [market.py]. *)
Theorem reconcile_empty_inputs :
  (forall ids,
     Seller.create_stocks [] ids
     = (Ok ((fun id => seller_stock id 0) <$> ids), ids))
  /\ (forall rows, Seller.create_stocks rows [] = (Ok [], []))
  /\ (forall ids, Seller.create_prices [] ids = (Ok [], ids))
  /\ (forall rows, Seller.create_prices rows [] = (Ok [], []))
  /\ (forall date warehouse_id ids,
        Market.create_stocks date [] warehouse_id ids
        = (Ok ((fun id => market_stock warehouse_id date id 0) <$> ids), ids))
  /\ (forall date warehouse_id rows,
        Market.create_stocks date rows warehouse_id [] = (Ok [], []))
  /\ (forall ids, Market.create_prices [] ids = (Ok [], ids))
  /\ (forall rows, Market.create_prices rows [] = (Ok [], [])).
Proof.
  assert (forall rows, rows_present rows [] = []) as Hnone.
  { intros rows. unfold rows_present.
    induction rows as [|row rows IH]; [reflexivity |].
    rewrite filter_cons_False by apply not_elem_of_nil. exact IH. }
  assert (forall {B} (update : string -> Z -> B) rows,
            matchedUpdates update rows [] = Ok []) as Hmatched.
  { intros B update rows. induction rows as [|row rows IH]; [reflexivity |].
    exact IH. }
  assert (forall rows, leftoverIds rows [] = []) as Hleft.
  { intros rows. induction rows as [|row rows IH]; [reflexivity |]. exact IH. }
  split; [| split; [| split; [| split; [| split; [| split; [| split]]]]]].
  - intros ids. unfold Seller.create_stocks, bind, get. cbn [for_fold ret].
    rewrite (for_fold_append (fun id => seller_stock id 0)) by reflexivity.
    reflexivity.
  - intros rows. pose proof (seller_create_stocks_result rows []) as Hfst.
    unfold buildStockUpdates in Hfst. rewrite Hmatched, Hleft in Hfst.
    cbn in Hfst.
    destruct (Seller.create_stocks rows []) as [r ids'] eqn:Hrun.
    cbn [fst] in Hfst. subst r.
    apply seller_create_stocks_state in Hrun as [-> _].
    rewrite Hleft. reflexivity.
  - intros ids. reflexivity.
  - intros rows. rewrite seller_create_prices_run, Hnone. reflexivity.
  - intros date warehouse_id ids.
    unfold Market.create_stocks, bind, get. cbn [for_fold ret].
    rewrite (for_fold_append (fun id => market_stock warehouse_id date id 0))
      by reflexivity.
    reflexivity.
  - intros date warehouse_id rows.
    destruct (Market.create_stocks date rows warehouse_id []) as [r ids']
      eqn:Hrun.
    pose proof (market_create_stocks_sublist date rows warehouse_id []) as Hsub.
    rewrite Hrun in Hsub. cbn [snd] in Hsub.
    apply sublist_nil_r in Hsub. subst ids'.
    destruct r as [stocks|e|].
    + pose proof Hrun as Hrun'.
      apply market_create_stocks_state in Hrun' as (_ & us & Hus & ->).
      rewrite Hmatched in Hus. injection Hus as <-. reflexivity.
    + exfalso. revert Hrun. unfold Market.create_stocks.
      match goal with
      | |- context [for_fold rows ?b []] => set (body := b)
      end.
      assert (forall row acc ids,
                body row acc ids
                = claim_step (market_stock warehouse_id date) row acc ids)
        as Hbody by (subst body; claim_step_tac).
      pose proof (claim_loop_result _ body Hbody rows [] []) as Hres.
      rewrite Hmatched in Hres. cbn [result_bind app] in Hres.
      unfold bind at 1. destruct (for_fold rows body [] []) as [r s].
      cbn [fst] in Hres. subst r. unfold bind, get.
      rewrite (for_fold_append (fun id => market_stock warehouse_id date id 0))
        by reflexivity.
      discriminate.
    + exfalso. revert Hrun. unfold Market.create_stocks.
      match goal with
      | |- context [for_fold rows ?b []] => set (body := b)
      end.
      assert (forall row acc ids,
                body row acc ids
                = claim_step (market_stock warehouse_id date) row acc ids)
        as Hbody by (subst body; claim_step_tac).
      pose proof (claim_loop_result _ body Hbody rows [] []) as Hres.
      rewrite Hmatched in Hres. cbn [result_bind app] in Hres.
      unfold bind at 1. destruct (for_fold rows body [] []) as [r s].
      cbn [fst] in Hres. subst r. unfold bind, get.
      rewrite (for_fold_append (fun id => market_stock warehouse_id date id 0))
        by reflexivity.
      discriminate.
  - intros ids. reflexivity.
  - intros rows. rewrite market_create_prices_run, Hnone. reflexivity.
Qed.

(** ** The two reconcilers side by side *)

Lemma market_create_stocks_result date rows warehouse_id ids :
  fst (Market.create_stocks date rows warehouse_id ids)
  = buildStockUpdates (market_stock warehouse_id date) rows ids.
Proof.
  unfold Market.create_stocks, buildStockUpdates.
  match goal with
  | |- context [for_fold rows ?b []] => set (body := b)
  end.
  assert (forall row acc ids,
            body row acc ids
            = claim_step (market_stock warehouse_id date) row acc ids)
    as Hbody by (subst body; claim_step_tac).
  pose proof (claim_loop_result _ body Hbody rows [] ids) as Hres.
  pose proof (claim_loop_state _ body Hbody rows [] ids) as Hst.
  unfold bind at 1.
  destruct (for_fold rows body [] ids) as [r ids'].
  cbn [fst snd] in Hres, Hst. subst r.
  destruct (matchedUpdates (market_stock warehouse_id date) rows ids)
    as [us| |]; cbn [result_bind app]; [| reflexivity | reflexivity].
  rewrite (Hst us eq_refl). unfold bind, get.
  rewrite (for_fold_append (fun id => market_stock warehouse_id date id 0))
    by reflexivity.
  reflexivity.
Qed.

(** The matching under a payload [g] of the update is the image of the
    matching. *)
Lemma matchedUpdates_image {B C} (update : string -> Z -> B) (g : B -> C)
    rows : forall ids,
  matchedUpdates (fun id n => g (update id n)) rows ids
  = result_bind (matchedUpdates update rows ids) (fun us => Ok (g <$> us)).
Proof.
  induction rows as [|row rows IH]; intros ids; cbn [matchedUpdates];
    [reflexivity |].
  destruct (list_contains (code_str row) ids); [| apply IH].
  destruct (resolvedCount row) as [n|e|]; cbn [result_bind]; try reflexivity.
  rewrite IH.
  destruct (matchedUpdates update rows (without (code_str row) ids));
    cbn [result_bind]; reflexivity.
Qed.

(** What the first loop leaves in the list does not depend on the
    payload. *)
Lemma claim_loop_same_list {B C} (u1 : string -> Z -> B) (u2 : string -> Z -> C)
    (body1 : feed_row -> list B -> M (list string) (list B))
    (body2 : feed_row -> list C -> M (list string) (list C)) rows :
  (forall row acc ids, body1 row acc ids = claim_step u1 row acc ids) ->
  (forall row acc ids, body2 row acc ids = claim_step u2 row acc ids) ->
  forall acc1 acc2 ids,
    snd (for_fold rows body1 acc1 ids) = snd (for_fold rows body2 acc2 ids).
Proof.
  intros H1 H2. induction rows as [|row rows IH]; intros acc1 acc2 ids;
    [reflexivity |].
  rewrite !for_fold_cons, H1, H2. unfold claim_step.
  destruct (list_contains (code_str row) ids); [| apply IH].
  destruct (resolvedCount row) as [n|e|]; try reflexivity. apply IH.
Qed.

(** X6. [create_stocks] of [market.py] is [create_stocks] of [seller.py]
    with another payload: on the same feed and offer ids it returns the
    same offer ids with the same counts in the same order, each wrapped
    with the warehouse id, the type "FIT" and the date; it raises the same
    error, and it leaves the same list. *)
Theorem market_create_stocks_as_seller date rows warehouse_id ids :
  Market.create_stocks date rows warehouse_id ids
  = (result_bind (fst (Seller.create_stocks rows ids))
       (fun stocks => Ok (to_market warehouse_id date <$> stocks)),
     snd (Seller.create_stocks rows ids)).
Proof.
  assert (snd (Market.create_stocks date rows warehouse_id ids)
          = snd (Seller.create_stocks rows ids)) as Hsnd.
  { unfold Market.create_stocks, Seller.create_stocks.
    match goal with
    | |- snd (bind (for_fold rows ?b1 []) _ _)
         = snd (bind (for_fold rows ?b2 []) _ _) =>
        set (body1 := b1); set (body2 := b2)
    end.
    assert (forall row acc ids,
              body1 row acc ids
              = claim_step (market_stock warehouse_id date) row acc ids)
      as H1 by (subst body1; claim_step_tac).
    assert (forall row acc ids,
              body2 row acc ids = claim_step seller_stock row acc ids)
      as H2 by (subst body2; claim_step_tac).
    pose proof (claim_loop_same_list _ _ body1 body2 rows H1 H2 [] [] ids)
      as Hsame.
    unfold bind at 1 3.
    destruct (for_fold rows body1 [] ids) as [[s1|e1|] l1];
      destruct (for_fold rows body2 [] ids) as [[s2|e2|] l2];
      cbn [snd] in Hsame |- *; try exact Hsame;
      unfold bind, get;
      rewrite ?(for_fold_append (fun id => market_stock warehouse_id date id 0))
        by reflexivity;
      rewrite ?(for_fold_append (fun id => seller_stock id 0)) by reflexivity;
      exact Hsame. }
  destruct (Market.create_stocks date rows warehouse_id ids) as [r l] eqn:Hrun.
  cbn [snd] in Hsnd. subst l. f_equal.
  pose proof (market_create_stocks_result date rows warehouse_id ids) as Hm.
  rewrite Hrun in Hm. cbn [fst] in Hm. subst r.
  rewrite seller_create_stocks_result. unfold buildStockUpdates.
  change (market_stock warehouse_id date)
    with (fun id n => to_market warehouse_id date (seller_stock id n)).
  rewrite matchedUpdates_image.
  destruct (matchedUpdates seller_stock rows ids) as [us|e|];
    cbn [result_bind]; try reflexivity.
  rewrite fmap_app, <- list_fmap_compose. reflexivity.
Qed.

Lemma traverse_keys {A B K} (f : A -> result B) (key : B -> K) (g : A -> K)
    (l : list A) :
  (forall x y, f x = Ok y -> key y = g x) ->
  forall ys, traverse f l = Ok ys -> key <$> ys = g <$> l.
Proof.
  intros Hkey. induction l as [|x l IH]; intros ys; cbn [traverse].
  - intros [= <-]. reflexivity.
  - destruct (f x) as [y| |] eqn:Hx; cbn [result_bind]; try discriminate.
    destruct (traverse f l) as [ys0| |]; cbn [result_bind]; try discriminate.
    intros [= <-]. rewrite !fmap_cons, (Hkey x y Hx), (IH ys0 eq_refl).
    reflexivity.
Qed.

(** X7. With pairwise distinct feed codes, the stock build and the price
    build on equal offer-id lists pick the same feed rows: the offer ids of
    the price updates are, in order, the offer ids of the first stock
    updates, and the stock updates after those are the zero updates of the
    offer ids the stock build leaves in its list, in the order of the
    list. *)
Theorem prices_follow_matched_stocks rows ids :
  NoDup (code_str <$> rows) ->
  forall stocks ids' prices,
    Seller.create_stocks rows ids = (Ok stocks, ids') ->
    fst (Seller.create_prices rows ids) = Ok prices ->
    Seller.price_offer_id <$> prices
    = Seller.offer_id <$> take (length prices) stocks
    /\ drop (length prices) stocks = (fun id => seller_stock id 0) <$> ids'
    /\ (length prices + length ids' = length stocks)%nat.
Proof.
  intros Hnd stocks ids' prices Hstocks Hprices.
  apply seller_create_stocks_state in Hstocks as (-> & us & Hus & ->).
  rewrite (matchedUpdates_distinct _ _ Hnd) in Hus.
  rewrite seller_create_prices_run in Hprices. cbn [fst] in Hprices.
  assert (Seller.offer_id <$> us = code_str <$> rows_present rows ids) as Hu.
  { apply (traverse_keys (row_update seller_stock)); [| exact Hus].
    intros row u. unfold row_update.
    destruct (resolvedCount row); cbn [result_bind]; try discriminate.
    intros [= <-]. reflexivity. }
  assert (Seller.price_offer_id <$> prices
          = code_str <$> rows_present rows ids) as Hp.
  { apply (traverse_keys seller_price); [| exact Hprices].
    intros row p. unfold seller_price.
    destruct (Seller.price_conversion (priceLabel row)); cbn [result_bind];
      try discriminate.
    intros [= <-]. reflexivity. }
  assert (length prices = length us) as Hlen.
  { rewrite <- (length_fmap Seller.price_offer_id prices), Hp, <- Hu.
    apply length_fmap. }
  split; [| split].
  - rewrite Hlen, take_app_length, Hp, Hu. reflexivity.
  - rewrite Hlen, drop_app_length. reflexivity.
  - rewrite length_app, length_fmap. lia.
Qed.

(** X7 on the example of the specification. *)
Lemma prices_follow_matched_stocks_witness :
  NoDup (code_str <$> [example_row]) /\
  (Seller.price_offer_id
     <$> [{| Seller.auto_action_enabled := "UNKNOWN";
             Seller.currency_code := "RUB";
             Seller.price_offer_id := "69791";
             Seller.old_price := "0";
             Seller.price := "550" |}]
   = Seller.offer_id
       <$> take 1 [seller_stock "69791" 100; seller_stock "70000" 0]
   /\ drop 1 [seller_stock "69791" 100; seller_stock "70000" 0]
      = (fun id => seller_stock id 0) <$> ["70000"]
   /\ (1 + length ["70000"] = 2)%nat).
Proof.
  assert (NoDup (code_str <$> [example_row])) as Hrows
    by (apply (bool_decide_eq_true_1 (NoDup (code_str <$> [example_row])));
        reflexivity).
  split; [exact Hrows |].
  apply (prices_follow_matched_stocks [example_row] example_ids Hrows
           [seller_stock "69791" 100; seller_stock "70000" 0] ["70000"]
           [{| Seller.auto_action_enabled := "UNKNOWN";
               Seller.currency_code := "RUB";
               Seller.price_offer_id := "69791";
               Seller.old_price := "0";
               Seller.price := "550" |}]); reflexivity.
Defined.

(** ** More on [divide] *)

(** X8. A non-empty list no longer than [n] goes out as one chunk, the list
    itself. *)
Theorem divide_short_list_one_chunk {A} (lst : list A) (n : Z) :
  lst <> [] -> Z.of_nat (length lst) <= n ->
  Seller.divide lst n = Ok [lst].
Proof.
  intros Hne Hlen.
  assert (length lst <> 0%nat) as Hpos by (destruct lst; [congruence | discriminate]).
  assert (0 < n) as Hn by lia.
  rewrite (divide_positive lst n Hn).
  destruct (range_length_chunks (length lst) n Hn) as [_ Hm].
  cbv zeta in Hm. specialize (Hm Hpos).
  assert (range_length 0 (Z.of_nat (length lst)) n = 1%nat) as -> by nia.
  cbn [seq map]. rewrite Nat.mul_0_l, drop_0, take_ge by lia. reflexivity.
Qed.

Lemma divide_short_list_one_chunk_witness :
  [1; 2; 3] <> [] /\ Z.of_nat (length [1; 2; 3]) <= 5
  /\ Seller.divide [1; 2; 3] 5 = Ok [[1; 2; 3]].
Proof.
  split; [discriminate |]. split; [discriminate |].
  apply (divide_short_list_one_chunk [1; 2; 3] 5); discriminate.
Defined.

(** X9. [divide] keeps every item at its place: the item at index [j] of
    the list is the item at index [j mod n] of the chunk at index
    [j / n]. *)
Theorem divide_keeps_positions {A} (lst : list A) (n : Z) (j : nat) (x : A) :
  0 < n -> lst !! j = Some x ->
  exists chunks chunk,
    Seller.divide lst n = Ok chunks
    /\ chunks !! (j / Z.to_nat n)%nat = Some chunk
    /\ chunk !! (j mod Z.to_nat n)%nat = Some x.
Proof.
  intros Hn Hj.
  pose proof (lookup_lt_Some _ _ _ Hj) as Hlt.
  destruct (range_length_chunks (length lst) n Hn) as [_ Hm].
  cbv zeta in Hm. specialize (Hm ltac:(lia)).
  set (m := range_length 0 (Z.of_nat (length lst)) n) in *.
  set (n' := Z.to_nat n) in *.
  assert (n' <> 0%nat) as Hn' by (subst n'; lia).
  pose proof (Nat.div_mod j n' Hn') as Hdm.
  pose proof (Nat.mod_upper_bound j n' Hn') as Hmod.
  assert (j / n' < m)%nat as Hk.
  { apply Nat.Div0.div_lt_upper_bound. lia. }
  eexists. exists (take n' (drop (j / n' * n') lst)).
  split; [apply divide_positive, Hn |].
  fold m n'. split.
  - change (@map nat (list A)) with (@fmap list _ nat (list A)).
    rewrite list_lookup_fmap.
    rewrite (proj2 (lookup_seq 0 m (j / n') (j / n')) (conj eq_refl Hk)).
    reflexivity.
  - rewrite lookup_take_lt by exact Hmod. rewrite lookup_drop.
    replace (j / n' * n' + j mod n')%nat with j by lia. exact Hj.
Qed.

Lemma divide_keeps_positions_witness :
  0 < 5 /\ [1; 2; 3; 4; 5; 6; 7; 8; 9; 10; 11; 12] !! 7%nat = Some 8
  /\ exists chunks chunk,
       Seller.divide [1; 2; 3; 4; 5; 6; 7; 8; 9; 10; 11; 12] 5 = Ok chunks
       /\ chunks !! (7 / Z.to_nat 5)%nat = Some chunk
       /\ chunk !! (7 mod Z.to_nat 5)%nat = Some 8.
Proof.
  split; [reflexivity |]. split; [reflexivity |].
  apply (divide_keeps_positions [1; 2; 3; 4; 5; 6; 7; 8; 9; 10; 11; 12] 5 7 8);
    reflexivity.
Defined.

(** X10. For a positive [n], [divide] yields the rounded-up quotient of the
    length by [n] chunks: one chunk fewer would not hold the list. *)
Theorem divide_chunk_count_is_ceiling {A} (lst : list A) (n : Z) :
  0 < n ->
  exists chunks,
    Seller.divide lst n = Ok chunks
    /\ Z.of_nat (length chunks) = (Z.of_nat (length lst) + n - 1) / n
    /\ Z.of_nat (length lst) <= Z.of_nat (length chunks) * n
    /\ (lst <> [] -> (Z.of_nat (length chunks) - 1) * n < Z.of_nat (length lst)).
Proof.
  intros Hn. eexists. split; [apply divide_positive, Hn |].
  rewrite length_map, length_seq.
  split; [apply range_length_ceil, Hn |].
  destruct (range_length_chunks (length lst) n Hn) as [Hzero Hpos].
  cbv zeta in Hzero, Hpos.
  destruct (decide (length lst = 0%nat)) as [Hl|Hl].
  - rewrite (Hzero Hl), Hl. split; [lia |].
    intros Hne. destruct lst; [congruence | discriminate].
  - specialize (Hpos Hl). split; [nia | intros _; nia].
Qed.

Lemma divide_chunk_count_is_ceiling_witness :
  0 < 5 /\
  exists chunks,
    Seller.divide [1; 2; 3; 4; 5; 6; 7; 8; 9; 10; 11; 12] 5 = Ok chunks
    /\ Z.of_nat (length chunks)
       = (Z.of_nat (length [1; 2; 3; 4; 5; 6; 7; 8; 9; 10; 11; 12]) + 5 - 1) / 5
    /\ Z.of_nat (length [1; 2; 3; 4; 5; 6; 7; 8; 9; 10; 11; 12])
       <= Z.of_nat (length chunks) * 5
    /\ ([1; 2; 3; 4; 5; 6; 7; 8; 9; 10; 11; 12] <> [] ->
        (Z.of_nat (length chunks) - 1) * 5
        < Z.of_nat (length [1; 2; 3; 4; 5; 6; 7; 8; 9; 10; 11; 12])).
Proof.
  split; [reflexivity |].
  apply (divide_chunk_count_is_ceiling
           [1; 2; 3; 4; 5; 6; 7; 8; 9; 10; 11; 12] 5).
  reflexivity.
Defined.

(** ** [get_offer_ids]: what a returned list is *)

Lemma seller_loop_returns fuel : forall token acc c items c',
  Seller.get_offer_ids_loop fuel token acc c = (Ok items, c') ->
  exists pre last,
    replies c = (Ok <$> pre) ++ Ok last :: replies c'
    /\ seller_all_continue (length acc) pre = true
    /\ Seller.total last
       = Z.of_nat (length (acc ++ seller_items (pre ++ [last])))
    /\ items = acc ++ seller_items (pre ++ [last])
    /\ requests c' = requests c ++ seller_tokens token (pre ++ [last]).
Proof.
  induction fuel as [|fuel IH]; intros token acc [rs reqs] items c';
    [discriminate |].
  destruct rs as [|r rs]; [discriminate |].
  rewrite seller_loop_reply. cbv zeta.
  destruct r as [p|e|]; try discriminate.
  destruct (Z.eqb_spec (Seller.total p)
              (Z.of_nat (length (acc ++ Seller.items p)))) as [Hclose|Hgo].
  - intros [= <- <-]. exists [], p. cbn [replies requests].
    unfold seller_items. cbn. rewrite app_nil_r.
    repeat split; try reflexivity. exact Hclose.
  - intros Hrun. destruct (IH _ _ _ _ _ Hrun) as (pre & last & H).
    cbn [replies requests] in H. destruct H as (Hr & Hc & Ht & Hi & Hq).
    exists (p :: pre), last. cbn [replies requests].
    rewrite length_app in Hc.
    assert (acc ++ seller_items ((p :: pre) ++ [last])
            = (acc ++ Seller.items p) ++ seller_items (pre ++ [last])) as Heq.
    { unfold seller_items. cbn. rewrite app_assoc. reflexivity. }
    rewrite Heq. repeat split.
    + rewrite Hr. reflexivity.
    + cbn [seller_all_continue]. rewrite Hc, andb_true_r.
      apply negb_true_iff, Z.eqb_neq. rewrite <- length_app. exact Hgo.
    + exact Ht.
    + exact Hi.
    + rewrite Hq, <- app_assoc. reflexivity.
Qed.

Lemma market_loop_returns campaign_id fuel : forall token acc c items c',
  Market.get_offer_ids_loop fuel campaign_id token acc c = (Ok items, c') ->
  exists pre last,
    replies c = (Ok <$> pre) ++ Ok last :: replies c'
    /\ market_all_continue pre = true
    /\ Market.falsy (market_token last) = true
    /\ items = acc ++ market_entries (pre ++ [last])
    /\ requests c'
       = requests c ++ market_tokens campaign_id token (pre ++ [last]).
Proof.
  induction fuel as [|fuel IH]; intros token acc [rs reqs] items c';
    [discriminate |].
  destruct rs as [|r rs]; [discriminate |].
  rewrite market_loop_reply. cbv zeta.
  destruct r as [p|e|]; try discriminate.
  destruct (Market.falsy (market_token p)) eqn:Hp.
  - intros [= <- <-]. exists [], p. cbn [replies requests].
    unfold market_entries. cbn. rewrite app_nil_r.
    repeat split; try reflexivity. exact Hp.
  - intros Hrun. destruct (IH _ _ _ _ _ Hrun) as (pre & last & H).
    cbn [replies requests] in H. destruct H as (Hr & Hc & Ht & Hi & Hq).
    exists (p :: pre), last. cbn [replies requests].
    assert (acc ++ market_entries ((p :: pre) ++ [last])
            = (acc ++ Market.offerMappingEntries p)
              ++ market_entries (pre ++ [last])) as Heq.
    { unfold market_entries. cbn. rewrite app_assoc. reflexivity. }
    rewrite Heq. repeat split.
    + rewrite Hr. reflexivity.
    + cbn [market_all_continue forallb]. rewrite Hp. exact Hc.
    + exact Ht.
    + exact Hi.
    + rewrite Hq, <- app_assoc. reflexivity.
Qed.

(** X11. Whatever the replies of the endpoint, a list [get_offer_ids]
    returns is never partial: the replies it has read are pages, none but
    the last closes the listing, the last one does, and the list holds the
    offer id of every item of these pages, in order.  It has sent one
    request per page read, starting with the empty token, and has read no
    reply beyond the closing page.  For Ozon and for Yandex Market. *)
Theorem get_offer_ids_returns_only_complete_lists :
  (forall c ids c',
     Seller.get_offer_ids c = (Ok ids, c') ->
     exists pre last,
       replies c = (Ok <$> pre) ++ Ok last :: replies c'
       /\ seller_all_continue 0 pre = true
       /\ Seller.total last
          = Z.of_nat (length (seller_items (pre ++ [last])))
       /\ ids = Seller.product_offer_id <$> seller_items (pre ++ [last])
       /\ requests c' = requests c ++ seller_tokens "" (pre ++ [last]))
  /\
  (forall campaign_id c ids c',
     Market.get_offer_ids campaign_id c = (Ok ids, c') ->
     exists pre last,
       replies c = (Ok <$> pre) ++ Ok last :: replies c'
       /\ market_all_continue pre = true
       /\ Market.falsy (market_token last) = true
       /\ ids = (fun e => Market.shopSku (Market.entry_offer e))
                  <$> market_entries (pre ++ [last])
       /\ requests c'
          = requests c ++ market_tokens campaign_id "" (pre ++ [last])).
Proof.
  split.
  - intros c ids c'. unfold Seller.get_offer_ids, bind at 1, get.
    unfold bind at 1.
    destruct (Seller.get_offer_ids_loop (S (length (replies c))) "" [] c)
      as [[items|e|] c1] eqn:Hloop; try discriminate.
    rewrite (for_fold_append Seller.product_offer_id) by reflexivity.
    intros [= <- <-].
    destruct (seller_loop_returns _ _ _ _ _ _ Hloop)
      as (pre & last & Hr & Hc & Ht & Hi & Hq).
    cbn [app length] in Ht, Hi, Hc. subst items.
    exists pre, last. repeat split; assumption.
  - intros campaign_id c ids c'.
    unfold Market.get_offer_ids, bind at 1, get. unfold bind at 1.
    destruct (Market.get_offer_ids_loop (S (length (replies c))) campaign_id
                "" [] c) as [[items|e|] c1] eqn:Hloop; try discriminate.
    rewrite (for_fold_append (fun e => Market.shopSku (Market.entry_offer e)))
      by reflexivity.
    intros [= <- <-].
    destruct (market_loop_returns _ _ _ _ _ _ _ Hloop)
      as (pre & last & Hr & Hc & Ht & Hi & Hq).
    cbn [app] in Hi. subst items.
    exists pre, last. repeat split; assumption.
Qed.

(** X11 on the two pages of two offers. *)
Lemma get_offer_ids_returns_only_complete_lists_witness :
  exists pre last,
    replies {| replies := [Ok seller_page_1; Ok seller_page_2];
               requests := @nil string |}
    = (Ok <$> pre) ++ Ok last :: replies {| replies := [];
                                            requests := [""; "bnVsbA=="] |}
    /\ seller_all_continue 0 pre = true
    /\ Seller.total last = Z.of_nat (length (seller_items (pre ++ [last])))
    /\ ["136748"; "136749"; "69791"; "70000"]
       = Seller.product_offer_id <$> seller_items (pre ++ [last])
    /\ requests {| replies := @nil (result Seller.page);
                   requests := [""; "bnVsbA=="] |}
       = requests {| replies := [Ok seller_page_1; Ok seller_page_2];
                     requests := @nil string |}
         ++ seller_tokens "" (pre ++ [last]).
Proof.
  apply (proj1 get_offer_ids_returns_only_complete_lists
           {| replies := [Ok seller_page_1; Ok seller_page_2]; requests := [] |}
           ["136748"; "136749"; "69791"; "70000"]
           {| replies := []; requests := [""; "bnVsbA=="] |}).
  reflexivity.
Defined.

(** X12. When no scripted page closes the listing, [get_offer_ids] neither
    returns nor raises: it reads every page, each answered request leading
    to the next, and is left asking for one more.  For Ozon a page that
    brings the running count past the reported total is such a page. *)
Theorem get_offer_ids_keeps_asking :
  (forall pre reqs,
     seller_all_continue 0 pre = true ->
     Seller.get_offer_ids {| replies := Ok <$> pre; requests := reqs |}
     = (Blocked,
        {| replies := []; requests := reqs ++ seller_tokens "" pre |}))
  /\
  (forall campaign_id pre reqs,
     market_all_continue pre = true ->
     Market.get_offer_ids campaign_id
       {| replies := Ok <$> pre; requests := reqs |}
     = (Blocked,
        {| replies := [];
           requests := reqs ++ market_tokens campaign_id "" pre |}))
  /\
  (forall p : Seller.page,
     Seller.total p < Z.of_nat (length (Seller.items p)) ->
     seller_all_continue 0 [p] = true).
Proof.
  split; [| split].
  - intros pre reqs Hgo. unfold Seller.get_offer_ids, bind at 1, get.
    cbn [replies]. rewrite length_fmap.
    replace (S (length pre)) with (length pre + 1)%nat by lia.
    rewrite <- (app_nil_r (Ok <$> pre)). unfold bind at 1.
    rewrite (seller_loop_continue pre 1 "" [] reqs []) by exact Hgo.
    reflexivity.
  - intros campaign_id pre reqs Hgo.
    unfold Market.get_offer_ids, bind at 1, get. cbn [replies].
    rewrite length_fmap.
    replace (S (length pre)) with (length pre + 1)%nat by lia.
    rewrite <- (app_nil_r (Ok <$> pre)). unfold bind at 1.
    rewrite (market_loop_continue campaign_id pre 1 "" [] reqs []) by exact Hgo.
    reflexivity.
  - intros p Hp. cbn [seller_all_continue Nat.add]. rewrite andb_true_r.
    apply negb_true_iff, Z.eqb_neq. lia.
Qed.

(** X12 on a first page of two offers out of four, with no second page. *)
Lemma get_offer_ids_keeps_asking_witness :
  seller_all_continue 0 [seller_page_1] = true /\
  Seller.get_offer_ids {| replies := Ok <$> [seller_page_1]; requests := [] |}
  = (Blocked,
     {| replies := []; requests := [] ++ seller_tokens "" [seller_page_1] |}).
Proof.
  split; [reflexivity |].
  apply (proj1 get_offer_ids_keeps_asking [seller_page_1] []). reflexivity.
Defined.

(** ** Failures in a run *)



Lemma seller_stock_batches_fail c pre bad post e : forall w : Seller.world,
  (forall chunk, chunk ∈ pre -> Seller.stocks_reply c chunk = Ok tt) ->
  Seller.stocks_reply c bad = Raise e ->
  for_each (pre ++ bad :: post)
    (fun some_stock => Seller.update_stocks c some_stock) w
  = (Raise e, {| heap := heap w; pages := pages w;
                 calls := calls w ++ (Seller.StocksCall <$> pre ++ [bad]) |}).
Proof.
  induction pre as [|chunk pre IH]; intros w Hok Hbad.
  - cbn [app for_each]. unfold bind, Seller.update_stocks, record_call.
    rewrite Hbad. reflexivity.
  - cbn [app for_each]. unfold bind at 1, Seller.update_stocks at 1,
      record_call.
    rewrite (Hok chunk) by left.
    rewrite IH by (try exact Hbad; intros ch Hch; apply Hok; right; exact Hch).
    cbn [heap pages calls]. rewrite fmap_cons, <- app_assoc. reflexivity.
Qed.

(** X14. When the stock endpoint refuses a chunk after accepting the ones
    before it, the chunks up to and including the refused one have been
    sent and no later one is: [upload_stocks] raises the error of the
    endpoint, and [main] prints it and returns with no price update
    sent. *)
Theorem stock_failure_leaves_partial_run c (w : Seller.world) ids cat' rows
    stocks ids' pre bad post e :
  Seller.get_offer_ids (pages w) = (Ok ids, cat') ->
  Seller.feed_reply c = Ok rows ->
  Seller.create_stocks rows ids = (Ok stocks, ids') ->
  Seller.divide stocks 100 = Ok (pre ++ bad :: post) ->
  (forall chunk, chunk ∈ pre -> Seller.stocks_reply c chunk = Ok tt) ->
  Seller.stocks_reply c bad = Raise e ->
  fst (Seller.upload_stocks c rows w) = Raise e
  /\ calls (snd (Seller.upload_stocks c rows w))
     = calls w ++ (Seller.StocksCall <$> pre ++ [bad])
  /\ fst (Seller.main c w) = Ok tt
  /\ calls (snd (Seller.main c w))
     = calls w ++ (Seller.StocksCall <$> pre ++ [bad]).
Proof.
  intros Hfetch Hfeed Hstocks Hdiv Hok Hbad.
  split; [| split; [| split]].
  - unfold Seller.upload_stocks, bind, with_catalog, new_list, with_list, lift.
    rewrite Hfetch. cbn [heap pages calls].
    rewrite lookup_insert_eq, Hstocks. cbn [heap pages calls].
    rewrite Hdiv, (seller_stock_batches_fail c pre bad post e) by assumption.
    reflexivity.
  - unfold Seller.upload_stocks, bind, with_catalog, new_list, with_list, lift.
    rewrite Hfetch. cbn [heap pages calls].
    rewrite lookup_insert_eq, Hstocks. cbn [heap pages calls].
    rewrite Hdiv, (seller_stock_batches_fail c pre bad post e) by assumption.
    reflexivity.
  - unfold Seller.main, try_except, bind, with_catalog, new_list, with_list,
      Seller.download_stock, lift.
    rewrite Hfetch. cbn [heap pages calls]. rewrite Hfeed.
    rewrite lookup_insert_eq, Hstocks. cbn [heap pages calls].
    rewrite Hdiv, (seller_stock_batches_fail c pre bad post e) by assumption.
    reflexivity.
  - unfold Seller.main, try_except, bind, with_catalog, new_list, with_list,
      Seller.download_stock, lift.
    rewrite Hfetch. cbn [heap pages calls]. rewrite Hfeed.
    rewrite lookup_insert_eq, Hstocks. cbn [heap pages calls].
    rewrite Hdiv, (seller_stock_batches_fail c pre bad post e) by assumption.
    reflexivity.
Qed.

(** X14 on 250 offers, which go out in chunks of 100, 100 and 50, the
    endpoint refusing the chunk that carries the offer "150": the first
    and the second chunk are sent, the third is not. *)
Lemma stock_failure_leaves_partial_run_witness :
  fst (Seller.upload_stocks (refusing_offer "150" (numbered_feed 250))
         (numbered_feed 250) (seller_start [Ok (numbered_page 250)]))
  = Raise (RequestError "500 Server Error")
  /\ calls (snd (Seller.upload_stocks (refusing_offer "150" (numbered_feed 250))
                   (numbered_feed 250) (seller_start [Ok (numbered_page 250)])))
     = calls (seller_start [Ok (numbered_page 250)])
       ++ (Seller.StocksCall
             <$> [numbered_stocks 1 100] ++ [numbered_stocks 101 100])
  /\ fst (Seller.main (refusing_offer "150" (numbered_feed 250))
            (seller_start [Ok (numbered_page 250)]))
     = Ok tt
  /\ calls (snd (Seller.main (refusing_offer "150" (numbered_feed 250))
                   (seller_start [Ok (numbered_page 250)])))
     = calls (seller_start [Ok (numbered_page 250)])
       ++ (Seller.StocksCall
             <$> [numbered_stocks 1 100] ++ [numbered_stocks 101 100]).
Proof.
  apply (stock_failure_leaves_partial_run
           (refusing_offer "150" (numbered_feed 250))
           (seller_start [Ok (numbered_page 250)])
           (Seller.product_offer_id <$> Seller.items (numbered_page 250))
           {| replies := []; requests := [""] |} (numbered_feed 250)
           (numbered_stocks 1 250) []
           [numbered_stocks 1 100] (numbered_stocks 101 100)
           [numbered_stocks 201 50]
           (RequestError "500 Server Error")).
  - vm_compute. reflexivity.
  - reflexivity.
  - vm_compute. reflexivity.
  - vm_compute. reflexivity.
  - intros chunk Hchunk. apply list_elem_of_singleton in Hchunk.
    subst chunk. vm_compute. reflexivity.
  - vm_compute. reflexivity.
Defined.

(** X15. When the feed download raises, [main] of [market.py], which
    downloads outside its [try], raises the same error having done
    nothing; [main] of [seller.py], which downloads inside its [try] after
    the catalog fetch, prints the error and returns with the fetched list
    created and no update call made. *)
Theorem feed_failure_in_main :
  (forall c date_fbs date_dbs fbs dbs wh_fbs wh_dbs (w : Market.world) e,
     Market.feed_reply c = Raise e ->
     Market.main c date_fbs date_dbs fbs dbs wh_fbs wh_dbs w = (Raise e, w))
  /\
  (forall c (w : Seller.world) ids cat' e,
     Seller.get_offer_ids (pages w) = (Ok ids, cat') ->
     Seller.feed_reply c = Raise e ->
     Seller.main c w
     = (Ok tt, {| heap := <[fresh (dom (heap w)) := ids]> (heap w);
                  pages := cat'; calls := calls w |})).
Proof.
  split.
  - intros c date_fbs date_dbs fbs dbs wh_fbs wh_dbs w e Hfeed.
    unfold Market.main, bind at 1, lift. rewrite Hfeed. reflexivity.
  - intros c w ids cat' e Hfetch Hfeed.
    unfold Seller.main, try_except, bind, with_catalog, new_list,
      Seller.download_stock, lift.
    rewrite Hfetch. cbn [heap pages calls]. rewrite Hfeed. reflexivity.
Qed.

(** X15 on a feed that answers 403. *)
Lemma feed_failure_in_main_witness :
  Market.main
    {| Market.feed_reply := Raise (RequestError "403 Client Error");
       Market.stocks_reply := fun _ _ => Ok tt;
       Market.prices_reply := fun _ _ => Ok tt |}
    "2025-12-14T16:30:31Z" "2025-12-14T16:30:32Z" "fbs" "dbs" "1" "2"
    (market_start [Ok market_example_page])
  = (Raise (RequestError "403 Client Error"),
     market_start [Ok market_example_page]).
Proof.
  apply (proj1 feed_failure_in_main
           {| Market.feed_reply := Raise (RequestError "403 Client Error");
              Market.stocks_reply := fun _ _ => Ok tt;
              Market.prices_reply := fun _ _ => Ok tt |}).
  reflexivity.
Defined.

(** ** [main] of [market.py] sends no price update *)

Lemma sends_no_price_ret {A} (a : A) : sends_no_price (ret a).
Proof. intros w. reflexivity. Qed.

Lemma sends_no_price_lift {A} (r : result A) : sends_no_price (lift r).
Proof. intros w. reflexivity. Qed.

Lemma sends_no_price_bind {A B} (m : M Market.world A)
    (k : A -> M Market.world B) :
  sends_no_price m -> (forall a, sends_no_price (k a)) ->
  sends_no_price (bind m k).
Proof.
  intros Hm Hk w. unfold bind. specialize (Hm w).
  destruct (m w) as [[a|e|] w1]; cbn [snd] in Hm |- *; try exact Hm.
  rewrite (Hk a w1). exact Hm.
Qed.

Lemma sends_no_price_try_except (m : M Market.world unit) :
  sends_no_price m -> sends_no_price (try_except m).
Proof.
  intros Hm w. unfold try_except. specialize (Hm w).
  destruct (m w) as [[a|e|] w1]; exact Hm.
Qed.

Lemma sends_no_price_with_catalog {A} (m : M Market.catalog A) :
  sends_no_price (with_catalog m).
Proof.
  intros w. unfold with_catalog. destruct (m (pages w)). reflexivity.
Qed.

Lemma sends_no_price_new_list l : sends_no_price (new_list l).
Proof. intros w. reflexivity. Qed.

Lemma sends_no_price_with_list {A} r (m : M (list string) A) :
  sends_no_price (with_list r m).
Proof.
  intros w. unfold with_list. destruct (heap w !! r) as [l|]; [| reflexivity].
  destruct (m l). reflexivity.
Qed.

Lemma sends_no_price_update_stocks c stocks campaign_id :
  sends_no_price (Market.update_stocks c stocks campaign_id).
Proof.
  intros w. unfold Market.update_stocks, record_call, market_price_calls.
  cbn [snd calls]. rewrite omap_app. cbn. apply app_nil_r.
Qed.

Lemma sends_no_price_for_each {A} (l : list A) (body : A -> M Market.world unit) :
  (forall x, sends_no_price (body x)) -> sends_no_price (for_each l body).
Proof.
  intros Hbody. induction l as [|x l IH]; [apply sends_no_price_ret |].
  cbn [for_each]. apply sends_no_price_bind; [apply Hbody | intros _; exact IH].
Qed.

(** X16. Whatever the feed, the catalog and the endpoints answer, [main] of
    [market.py] sends no price update: the only calls it adds are stock
    updates, the coroutines of [upload_prices] it creates never being
    awaited. *)
Theorem market_main_never_sends_prices c date_fbs date_dbs fbs dbs wh_fbs
    wh_dbs (w : Market.world) :
  market_price_calls
    (calls (snd (Market.main c date_fbs date_dbs fbs dbs wh_fbs wh_dbs w)))
  = market_price_calls (calls w).
Proof.
  revert w. change (sends_no_price
                      (Market.main c date_fbs date_dbs fbs dbs wh_fbs wh_dbs)).
  unfold Market.main.
  apply sends_no_price_bind; [apply sends_no_price_lift |]. intros rows.
  apply sends_no_price_try_except.
  repeat first
    [ apply sends_no_price_ret
    | apply sends_no_price_lift
    | apply sends_no_price_with_catalog
    | apply sends_no_price_new_list
    | apply sends_no_price_with_list
    | apply sends_no_price_update_stocks
    | apply sends_no_price_for_each; intros ?
    | apply sends_no_price_bind; [| intros ?] ].
Qed.

(** ** Runs in which every collaborator answers *)

(** The chunks of a positive size hold the list, whole and in order, none
    longer than the size. *)
Lemma divide_whole {A} (lst : list A) (n : Z) :
  0 < n ->
  exists chunks,
    Seller.divide lst n = Ok chunks
    /\ concat chunks = lst
    /\ (forall chunk, chunk ∈ chunks -> Z.of_nat (length chunk) <= n).
Proof.
  intros Hn. eexists. split; [apply divide_positive, Hn |]. split.
  - rewrite concat_chunks. apply take_ge.
    destruct (range_length_chunks (length lst) n Hn) as [Hzero Hpos].
    cbv zeta in Hzero, Hpos.
    destruct (decide (length lst = 0%nat)) as [Hl|Hl]; [lia |].
    specialize (Hpos Hl). lia.
  - intros chunk Hchunk.
    change (@map nat (list A)) with (@fmap list _ nat (list A)) in Hchunk.
    apply list_elem_of_fmap in Hchunk as (k & -> & _).
    rewrite length_take. lia.
Qed.

(** The stock updates [create_stocks] of [market.py] builds have one item
    each, so the filter of [upload_stocks] never raises on them. *)
Lemma market_filter_total warehouse_id date (ss : list Seller.stock_item) :
  py_filter
    (fun stock =>
       result_bind (py_first (Market.items stock))
         (fun item => Ok (negb (Market.count item =? 0))))
    (to_market warehouse_id date <$> ss)
  = Ok (List.filter (fun s => negb (market_count s =? 0))
          (to_market warehouse_id date <$> ss)).
Proof.
  induction ss as [|s ss IH]; [reflexivity |].
  rewrite fmap_cons. cbn [py_filter List.filter].
  cbn [to_market market_stock Market.items py_first result_bind market_count
       Market.count].
  rewrite IH. cbn [result_bind].
  destruct (negb (Seller.stock s =? 0)); reflexivity.
Qed.

(** X17. When the catalog fetch and the stock build succeed and the stock
    endpoint accepts every call, [upload_stocks] sends every stock update
    exactly once, in order, in calls of at most 100 updates for Ozon and
    2000 for Yandex Market, and returns the updates with a count other than
    0 together with all the updates. *)
Theorem upload_stocks_sends_all_returns_nonzero :
  (forall c (w : Seller.world) ids cat' rows stocks ids',
     Seller.get_offer_ids (pages w) = (Ok ids, cat') ->
     Seller.create_stocks rows ids = (Ok stocks, ids') ->
     (forall chunk, Seller.stocks_reply c chunk = Ok tt) ->
     exists chunks,
       fst (Seller.upload_stocks c rows w)
       = Ok (List.filter (fun s => negb (Seller.stock s =? 0)) stocks, stocks)
       /\ calls (snd (Seller.upload_stocks c rows w))
          = calls w ++ (Seller.StocksCall <$> chunks)
       /\ concat chunks = stocks
       /\ (forall chunk, chunk ∈ chunks -> Z.of_nat (length chunk) <= 100))
  /\
  (forall c date campaign_id warehouse_id (w : Market.world) ids cat' rows
          stocks ids',
     Market.get_offer_ids campaign_id (pages w) = (Ok ids, cat') ->
     Market.create_stocks date rows warehouse_id ids = (Ok stocks, ids') ->
     (forall chunk, Market.stocks_reply c campaign_id chunk = Ok tt) ->
     exists chunks,
       fst (Market.upload_stocks c date rows campaign_id warehouse_id w)
       = Ok (List.filter (fun s => negb (market_count s =? 0)) stocks, stocks)
       /\ calls (snd (Market.upload_stocks c date rows campaign_id
                        warehouse_id w))
          = calls w ++ (Market.StocksCall campaign_id <$> chunks)
       /\ concat chunks = stocks
       /\ (forall chunk, chunk ∈ chunks -> Z.of_nat (length chunk) <= 2000)).
Proof.
  split.
  - intros c w ids cat' rows stocks ids' Hfetch Hstocks Hok.
    destruct (divide_whole stocks 100 ltac:(lia)) as (chunks & Hdiv & Hcat & Hlen).
    exists chunks.
    unfold Seller.upload_stocks, bind, with_catalog, new_list, with_list, lift,
      ret.
    rewrite Hfetch. cbn [heap pages calls].
    rewrite lookup_insert_eq, Hstocks. cbn [heap pages calls].
    rewrite Hdiv, seller_stock_batches by exact Hok.
    rewrite py_filter_total. repeat split; assumption.
  - intros c date campaign_id warehouse_id w ids cat' rows stocks ids'
      Hfetch Hstocks Hok.
    assert (exists ss, stocks = to_market warehouse_id date <$> ss) as [ss Hss].
    { pose proof (market_create_stocks_result date rows warehouse_id ids) as Hm.
      rewrite Hstocks in Hm. cbn [fst] in Hm. unfold buildStockUpdates in Hm.
      change (market_stock warehouse_id date)
        with (fun id n => to_market warehouse_id date (seller_stock id n)) in Hm.
      rewrite matchedUpdates_image in Hm.
      destruct (matchedUpdates seller_stock rows ids) as [us|e|];
        cbn [result_bind] in Hm; try discriminate.
      injection Hm as ->.
      exists (us ++ ((fun id => seller_stock id 0) <$> leftoverIds rows ids)).
      rewrite fmap_app, <- list_fmap_compose. reflexivity. }
    subst stocks.
    destruct (divide_whole (to_market warehouse_id date <$> ss) 2000 ltac:(lia))
      as (chunks & Hdiv & Hcat & Hlen).
    exists chunks.
    unfold Market.upload_stocks, bind, with_catalog, new_list, with_list, lift,
      ret.
    rewrite Hfetch. cbn [heap pages calls].
    rewrite lookup_insert_eq, Hstocks. cbn [heap pages calls].
    rewrite Hdiv, market_stock_batches by exact Hok.
    rewrite market_filter_total.
    repeat split; assumption.
Qed.

(** X17 on the example of the specification. *)
Lemma upload_stocks_sends_all_returns_nonzero_witness :
  exists chunks,
    fst (Seller.upload_stocks (accepting []) [example_row]
           (seller_start [Ok example_page]))
    = Ok (List.filter (fun s => negb (Seller.stock s =? 0))
            [seller_stock "69791" 100; seller_stock "70000" 0],
          [seller_stock "69791" 100; seller_stock "70000" 0])
    /\ calls (snd (Seller.upload_stocks (accepting []) [example_row]
                     (seller_start [Ok example_page])))
       = calls (seller_start [Ok example_page])
         ++ (Seller.StocksCall <$> chunks)
    /\ concat chunks = [seller_stock "69791" 100; seller_stock "70000" 0]
    /\ (forall chunk, chunk ∈ chunks -> Z.of_nat (length chunk) <= 100).
Proof.
  apply (proj1 upload_stocks_sends_all_returns_nonzero (accepting [])
           (seller_start [Ok example_page]) example_ids
           {| replies := []; requests := [""] |} [example_row]
           [seller_stock "69791" 100; seller_stock "70000" 0] ["70000"]);
    reflexivity.
Defined.

(** X18. When the catalog fetch and the price build succeed and the price
    endpoint accepts every call, [upload_prices] sends every price update
    exactly once, in order, and returns the price updates.  For Ozon and
    for Yandex Market. *)
Theorem upload_prices_sends_all :
  (forall c (w : Seller.world) ids cat' rows prices,
     Seller.get_offer_ids (pages w) = (Ok ids, cat') ->
     fst (Seller.create_prices rows ids) = Ok prices ->
     (forall chunk, Seller.prices_reply c chunk = Ok tt) ->
     exists chunks,
       fst (Seller.upload_prices c rows w) = Ok prices
       /\ calls (snd (Seller.upload_prices c rows w))
          = calls w ++ (Seller.PricesCall <$> chunks)
       /\ concat chunks = prices)
  /\
  (forall c campaign_id (w : Market.world) ids cat' rows prices,
     Market.get_offer_ids campaign_id (pages w) = (Ok ids, cat') ->
     fst (Market.create_prices rows ids) = Ok prices ->
     (forall chunk, Market.prices_reply c campaign_id chunk = Ok tt) ->
     exists chunks,
       fst (Market.upload_prices c rows campaign_id w) = Ok prices
       /\ calls (snd (Market.upload_prices c rows campaign_id w))
          = calls w ++ (Market.PricesCall campaign_id <$> chunks)
       /\ concat chunks = prices).
Proof.
  split.
  - intros c w ids cat' rows prices Hfetch Hprices Hok.
    destruct (divide_whole prices 1000 ltac:(lia)) as (chunks & Hdiv & Hcat & _).
    exists chunks.
    rewrite seller_create_prices_run in Hprices. cbn [fst] in Hprices.
    unfold Seller.upload_prices, bind, with_catalog, new_list, with_list, lift,
      ret.
    rewrite Hfetch. cbn [heap pages calls].
    rewrite lookup_insert_eq, seller_create_prices_run, Hprices.
    cbn [heap pages calls].
    rewrite Hdiv, seller_price_batches by exact Hok.
    repeat split; assumption.
  - intros c campaign_id w ids cat' rows prices Hfetch Hprices Hok.
    destruct (divide_whole prices 500 ltac:(lia)) as (chunks & Hdiv & Hcat & _).
    exists chunks.
    rewrite market_create_prices_run in Hprices. cbn [fst] in Hprices.
    unfold Market.upload_prices, bind, with_catalog, new_list, with_list, lift,
      ret.
    rewrite Hfetch. cbn [heap pages calls].
    rewrite lookup_insert_eq, market_create_prices_run, Hprices.
    cbn [heap pages calls].
    rewrite Hdiv, market_price_batches by exact Hok.
    repeat split; assumption.
Qed.

(** X18 on the example of the specification. *)
Lemma upload_prices_sends_all_witness :
  exists chunks,
    fst (Seller.upload_prices (accepting []) [example_row]
           (seller_start [Ok example_page]))
    = Ok [{| Seller.auto_action_enabled := "UNKNOWN";
             Seller.currency_code := "RUB";
             Seller.price_offer_id := "69791";
             Seller.old_price := "0";
             Seller.price := "550" |}]
    /\ calls (snd (Seller.upload_prices (accepting []) [example_row]
                     (seller_start [Ok example_page])))
       = calls (seller_start [Ok example_page])
         ++ (Seller.PricesCall <$> chunks)
    /\ concat chunks
       = [{| Seller.auto_action_enabled := "UNKNOWN";
             Seller.currency_code := "RUB";
             Seller.price_offer_id := "69791";
             Seller.old_price := "0";
             Seller.price := "550" |}].
Proof.
  apply (proj1 upload_prices_sends_all (accepting [])
           (seller_start [Ok example_page]) example_ids
           {| replies := []; requests := [""] |} [example_row]);
    reflexivity.
Defined.

(** X19. When every collaborator answers and the fetched offer ids do not
    repeat, [main] of [seller.py] sends every stock update exactly once, in
    order, in calls of at most 100 updates, and these are all the calls it
    makes: its price build reads the list the stock build has consumed and
    finds no row. *)
Theorem seller_main_sends_all_stocks c (w : Seller.world) ids cat' rows stocks
    ids' :
  Seller.get_offer_ids (pages w) = (Ok ids, cat') ->
  NoDup ids ->
  Seller.feed_reply c = Ok rows ->
  Seller.create_stocks rows ids = (Ok stocks, ids') ->
  (forall chunk, Seller.stocks_reply c chunk = Ok tt) ->
  exists chunks,
    fst (Seller.main c w) = Ok tt
    /\ calls (snd (Seller.main c w)) = calls w ++ (Seller.StocksCall <$> chunks)
    /\ concat chunks = stocks
    /\ (forall chunk, chunk ∈ chunks -> Z.of_nat (length chunk) <= 100).
Proof.
  intros Hfetch Hnd Hfeed Hstocks Hok.
  destruct (divide_whole stocks 100 ltac:(lia)) as (chunks & Hdiv & Hcat & Hlen).
  exists chunks.
  destruct (seller_stocks_then_prices rows ids stocks ids' Hnd Hstocks)
    as [_ Hprices].
  unfold Seller.main, try_except, bind, with_catalog, new_list, with_list,
    Seller.download_stock, lift.
  rewrite Hfetch. cbn [heap pages calls]. rewrite Hfeed.
  rewrite lookup_insert_eq, Hstocks. cbn [heap pages calls].
  rewrite Hdiv, seller_stock_batches by exact Hok. cbn [heap pages calls].
  rewrite lookup_insert_eq, Hprices. cbn [heap pages calls].
  repeat split; assumption.
Qed.

(** X19 on the example of the specification. *)
Lemma seller_main_sends_all_stocks_witness :
  NoDup example_ids /\
  exists chunks,
    fst (Seller.main (accepting [example_row]) (seller_start [Ok example_page]))
    = Ok tt
    /\ calls (snd (Seller.main (accepting [example_row])
                     (seller_start [Ok example_page])))
       = calls (seller_start [Ok example_page])
         ++ (Seller.StocksCall <$> chunks)
    /\ concat chunks = [seller_stock "69791" 100; seller_stock "70000" 0]
    /\ (forall chunk, chunk ∈ chunks -> Z.of_nat (length chunk) <= 100).
Proof.
  assert (NoDup example_ids) as Hids
    by (apply (bool_decide_eq_true_1 (NoDup example_ids)); reflexivity).
  split; [exact Hids |].
  apply (seller_main_sends_all_stocks (accepting [example_row])
           (seller_start [Ok example_page]) example_ids
           {| replies := []; requests := [""] |} [example_row]
           [seller_stock "69791" 100; seller_stock "70000" 0] ["70000"]);
    try reflexivity.
  exact Hids.
Defined.

(** ** Integer cells of the feed *)

Lemma parse_uint_after d : forall acc,
  parse_digits acc true (NilEmpty.string_of_uint d) = Some (uint_value acc d).
Proof.
  induction d; intros acc; cbn [NilEmpty.string_of_uint uint_value];
    try reflexivity;
    cbn [parse_digits]; (rewrite <- IHd; reflexivity).
Qed.

Lemma parse_uint d acc :
  d <> Decimal.Nil ->
  parse_digits acc false (NilEmpty.string_of_uint d) = Some (uint_value acc d).
Proof.
  destruct d; [congruence | ..]; intros _;
    cbn [NilEmpty.string_of_uint uint_value parse_digits];
    (rewrite <- parse_uint_after; reflexivity).
Qed.

Lemma uint_value_acc d : forall acc,
  uint_value (Z.pos acc) d = Z.pos (Pos.of_uint_acc d acc).
Proof.
  induction d; intros acc; cbn [uint_value Pos.of_uint_acc]; try reflexivity;
    rewrite <- IHd; f_equal; lia.
Qed.

Lemma uint_value_of_uint d : uint_value 0 d = Z.of_N (Pos.of_uint d).
Proof.
  induction d; cbn [uint_value Pos.of_uint]; try reflexivity;
    try exact IHd;
    match goal with
    | |- uint_value ?k _ = _ => change k with (Z.pos (Z.to_pos k))
    end; rewrite uint_value_acc; reflexivity.
Qed.

Lemma all_digits_uint d : all_digits (NilEmpty.string_of_uint d) = true.
Proof. induction d; cbn; try reflexivity; exact IHd. Qed.

Lemma string_of_uint_nonnil d :
  d <> Decimal.Nil ->
  NilZero.string_of_uint d = NilEmpty.string_of_uint d.
Proof. destruct d; [congruence | ..]; reflexivity. Qed.

Lemma int_of_str_uint p :
  int_of_str (NilEmpty.string_of_uint (Pos.to_uint p)) = Ok (Z.pos p).
Proof.
  rewrite int_of_str_digits by apply all_digits_uint.
  rewrite parse_uint by apply DecimalPos.Unsigned.to_uint_nonnil.
  rewrite uint_value_of_uint, DecimalPos.Unsigned.of_to. reflexivity.
Qed.

Lemma rstrip_minus t :
  all_digits t = true -> rstrip (String "-" t) = String "-" t.
Proof.
  intros Ht.
  change (rstrip (String "-" t))
    with (match rstrip t with
          | EmptyString =>
              if is_space "-" then EmptyString else String "-" EmptyString
          | t0 => String "-" t0
          end).
  rewrite (rstrip_digits t Ht). destruct t; reflexivity.
Qed.

Lemma int_of_str_minus t :
  all_digits t = true ->
  int_of_str (String "-" t)
  = result_bind (match parse_digits 0 false t with
                 | Some z => Ok z
                 | None => Raise ValueError
                 end) (fun z => Ok (- z)).
Proof.
  intros Ht.
  rewrite int_of_str_ascii
    by (cbn [is_ascii]; rewrite (all_digits_is_ascii t Ht); reflexivity).
  unfold long_from_string.
  change (lstrip (String "-" t)) with (String "-" t).
  rewrite (rstrip_minus t Ht). reflexivity.
Qed.

(** [int(str(z))] is [z]. *)
Lemma int_of_str_py_str z : int_of_str (py_str (VInt z)) = Ok z.
Proof.
  destruct z as [|p|p]; cbn [py_str Z.to_int NilZero.string_of_int].
  - reflexivity.
  - rewrite string_of_uint_nonnil by apply DecimalPos.Unsigned.to_uint_nonnil.
    apply int_of_str_uint.
  - rewrite string_of_uint_nonnil by apply DecimalPos.Unsigned.to_uint_nonnil.
    pose proof (int_of_str_uint p) as Hp.
    rewrite int_of_str_digits in Hp by apply all_digits_uint.
    rewrite int_of_str_minus by apply all_digits_uint.
    destruct (parse_digits 0 false (NilEmpty.string_of_uint (Pos.to_uint p)))
      as [v|]; [| discriminate].
    injection Hp as ->. reflexivity.
Qed.

Lemma py_str_int_not_more_than_ten z : py_str (VInt z) <> ">10".
Proof.
  intros H. pose proof (int_of_str_py_str z) as Hz. rewrite H in Hz.
  discriminate Hz.
Qed.

Lemma py_str_int_one z : py_str (VInt z) = "1" <-> z = 1.
Proof.
  split; [| intros ->; reflexivity].
  intros H. pose proof (int_of_str_py_str z) as Hz. rewrite H in Hz.
  injection Hz as <-. reflexivity.
Qed.

(** X20. [str] and [int] agree on integers: for a feed row whose code is
    in the list, a quantity cell holding the integer [z] gives the count
    [z], except that 1 gives 0 like the label "1", and a cell holding the
    decimal text of [z] gives the same update. *)
Theorem create_stocks_integer_quantity (c : pyval) (z : Z) (ids : list string) :
  list_contains (py_str c) ids = true ->
  Seller.create_stocks [row_with c (VInt z)] ids
  = (Ok (seller_stock (py_str c) (if z =? 1 then 0 else z)
         :: ((fun id => seller_stock id 0) <$> without (py_str c) ids)),
     without (py_str c) ids)
  /\ Seller.create_stocks [row_with c (VStr (py_str (VInt z)))] ids
     = Seller.create_stocks [row_with c (VInt z)] ids.
Proof.
  intros Hin.
  assert (forall q,
            resolvedCount (row_with c q) = Ok (if z =? 1 then 0 else z) ->
            Seller.create_stocks [row_with c q] ids
            = (Ok (seller_stock (py_str c) (if z =? 1 then 0 else z)
                   :: ((fun id => seller_stock id 0)
                         <$> without (py_str c) ids)),
               without (py_str c) ids)) as Hrun.
  { intros q Hq.
    pose proof (seller_create_stocks_result [row_with c q] ids) as Hfst.
    unfold buildStockUpdates in Hfst.
    cbn [matchedUpdates leftoverIds] in Hfst.
    change (code_str (row_with c q)) with (py_str c) in Hfst.
    rewrite Hin, Hq in Hfst. cbn [result_bind app] in Hfst.
    destruct (Seller.create_stocks [row_with c q] ids) as [r l] eqn:Hpair.
    cbn [fst] in Hfst. subst r.
    apply seller_create_stocks_state in Hpair as [-> _].
    cbn [leftoverIds]. change (code_str (row_with c q)) with (py_str c).
    rewrite Hin. reflexivity. }
  assert (resolvedCount (row_with c (VInt z)) = Ok (if z =? 1 then 0 else z))
    as Hint.
  { unfold resolvedCount. cbn [quantityLabel row_with]. cbv zeta.
    rewrite decide_False by apply py_str_int_not_more_than_ten.
    destruct (Z.eqb_spec z 1) as [->|Hne].
    - rewrite decide_True by reflexivity. reflexivity.
    - rewrite decide_False by (rewrite py_str_int_one; exact Hne).
      reflexivity. }
  assert (resolvedCount (row_with c (VStr (py_str (VInt z))))
          = Ok (if z =? 1 then 0 else z)) as Hstr.
  { unfold resolvedCount. cbn [quantityLabel row_with py_str]. cbv zeta.
    change (NilZero.string_of_int (Z.to_int z)) with (py_str (VInt z)).
    rewrite decide_False by apply py_str_int_not_more_than_ten.
    destruct (Z.eqb_spec z 1) as [->|Hne].
    - rewrite decide_True by reflexivity. reflexivity.
    - rewrite decide_False by (rewrite py_str_int_one; exact Hne).
      cbn [py_int]. apply int_of_str_py_str. }
  split; [apply Hrun, Hint |].
  rewrite (Hrun _ Hint), (Hrun _ Hstr). reflexivity.
Qed.

(** X20 on a quantity cell holding 7. *)
Lemma create_stocks_integer_quantity_witness :
  list_contains (py_str (VInt 69791)) example_ids = true /\
  (Seller.create_stocks [row_with (VInt 69791) (VInt 7)] example_ids
   = (Ok (seller_stock (py_str (VInt 69791)) (if 7 =? 1 then 0 else 7)
          :: ((fun id => seller_stock id 0)
                <$> without (py_str (VInt 69791)) example_ids)),
      without (py_str (VInt 69791)) example_ids)
   /\ Seller.create_stocks [row_with (VInt 69791) (VStr (py_str (VInt 7)))]
        example_ids
      = Seller.create_stocks [row_with (VInt 69791) (VInt 7)] example_ids).
Proof.
  split; [reflexivity |].
  apply (create_stocks_integer_quantity (VInt 69791) 7 example_ids).
  reflexivity.
Defined.
